(** * LearnLoop front end: levels, evolution titles, notifications, chat errors

    A shallow embedding of the decision logic of the LearnLoop web client
    (Next.js / React, TypeScript) together with the properties the
    specification states about it.

    Source files embedded here:
    - [frontend/components/BuddyAvatar.tsx] (the voice avatar [BuddyAvatar],
      the [BrainGrowingIndicator] and the buddy page [BuddyPage]);
    - [frontend/components/BuddyChat.tsx] ([handleSubmit]);
    - [frontend/context/stats-context.tsx] ([getLevelTitle], [fetchStats]);
    - the materials page (evolution path of one material).

    Conventions.  A JavaScript [number] that holds an XP total, a level or a
    streak is an integer and is modelled by [Z]; [Math.floor (x / 100)] is
    [x / 100] on [Z] (both round towards minus infinity).  Quotients that
    the code leaves fractional (the progress bar value, the average brain
    growth, the confusion score) are exact rationals [Q].  React refs are
    fields of a state record that every handler takes and returns; a value
    that a handler reads from the render in which it was created is an
    argument of its own.  A read [obj[key]] on an object literal finds the
    literal's own keys and the members of [Object.prototype]
    ([JsObject]). *)

From Stdlib Require Import ZArith QArith Qminmax Lia Lqa Bool List String Ascii.
From Stdlib Require Import DecimalString DecimalPos DecimalZ.
From stdpp Require Import gmap strings.
Import ListNotations.

Local Open Scope Z_scope.

(* ===================================================================== *)
(** * The buddy page: level and XP progress ([BuddyPage]) *)
(* ===================================================================== *)

Module BuddyPage.

(** [const correctLevel = Math.min(1 + Math.floor(stats.total_xp / 100), 1000)] *)
Definition correctLevel (total_xp : Z) : Z :=
  Z.min (1 + total_xp / 100) 1000.

(** [const currentLevelMinXP = (correctLevel - 1) * 100] *)
Definition currentLevelMinXP (total_xp : Z) : Z :=
  (correctLevel total_xp - 1) * 100.

(** [const nextLevelMinXP = correctLevel >= 1000 ? currentLevelMinXP : correctLevel * 100] *)
Definition nextLevelMinXP (total_xp : Z) : Z :=
  if 1000 <=? correctLevel total_xp
  then currentLevelMinXP total_xp
  else correctLevel total_xp * 100.

(** [const xpProgress = Math.max(0, stats.total_xp - currentLevelMinXP)] *)
Definition xpProgress (total_xp : Z) : Z :=
  Z.max 0 (total_xp - currentLevelMinXP total_xp).

(** [const xpRequiredForLevel = Math.max(1, nextLevelMinXP - currentLevelMinXP)] *)
Definition xpRequiredForLevel (total_xp : Z) : Z :=
  Z.max 1 (nextLevelMinXP total_xp - currentLevelMinXP total_xp).

(** [<Progress value={correctLevel >= 1000 ? 100 : (xpProgress / xpRequiredForLevel) * 100} />] *)
Definition progressValue (total_xp : Z) : Q :=
  if 1000 <=? correctLevel total_xp
  then inject_Z 100
  else (inject_Z (xpProgress total_xp) / inject_Z (xpRequiredForLevel total_xp)
        * inject_Z 100)%Q.

(** The XP at which the page's linear scheme reaches level [n]
    (the comment in the source: "100 XP per level"). *)
Definition linearThreshold (n : Z) : Z := (n - 1) * 100.

End BuddyPage.

(* ===================================================================== *)
(** * The tiered level table as the specification words it *)
(* ===================================================================== *)

Module TieredSpec.

(** Follows the specification's words, for comparison with
    [BuddyPage.correctLevel]: thresholds [0, 500, 1200, 2500, 5000, 10000]
    for levels 1 to 6, and [10000 + (n - 7) * 10000] for a level [n >= 7]. *)
Definition threshold (n : Z) : Z :=
  if n <=? 1 then 0
  else if n =? 2 then 500
  else if n =? 3 then 1200
  else if n =? 4 then 2500
  else if n =? 5 then 5000
  else if n =? 6 then 10000
  else 10000 + (n - 7) * 10000.

(** "[level(totalXP)] = the largest [n] whose threshold is at most [totalXP]". *)
Definition is_level (totalXP n : Z) : Prop :=
  1 <= n /\ threshold n <= totalXP /\
  forall m, 1 <= m -> threshold m <= totalXP -> m <= n.

End TieredSpec.

(* ===================================================================== *)
(** * The global stats provider ([stats-context.tsx]) *)
(* ===================================================================== *)

Module StatsContext.

(** [getLevelTitle]: the evolution title shown for a level. *)
Definition getLevelTitle (lvl : Z) : string :=
  if lvl <? 4 then "Seedling"
  else if lvl <? 8 then "Sprout"
  else if lvl <? 13 then "Teenager"
  else if lvl <? 17 then "Expert"
  else "Master".

(** [interface Stats] *)
Record Stats := mkStats {
  level : Z;
  total_xp : Z;
  streak_days : Z;
  buddyName : string;
  buddyAvatar : string;
  lastStudyDate : option string
}.

(** The JSON body of [GET /profile/:email]; a text field may be absent. *)
Record ProfileData := mkProfileData {
  data_level : Z;
  data_total_xp : Z;
  data_streak_days : Z;
  data_buddy_name : option string;
  data_buddy_avatar : option string;
  data_last_study_date : option string
}.

(** [v || d] on an optional text: absent and empty are both falsy. *)
Definition orText (v : option string) (d : string) : string :=
  match v with
  | Some s => if String.eqb s "" then d else s
  | None => d
  end.

(** [const newStats: Stats = { level: data.level, ... }] *)
Definition newStatsOf (data : ProfileData) : Stats :=
  {| level := data_level data;
     total_xp := data_total_xp data;
     streak_days := data_streak_days data;
     buddyName := orText (data_buddy_name data) "Buddy";
     buddyAvatar := orText (data_buddy_avatar data) "seedling";
     lastStudyDate := data_last_study_date data |}.

(** What [addNotification] is called with.  Each constructor stands for
    one of the four calls of [fetchStats] and carries the value that the
    call interpolates into its message:
    - [XpGained d]: title "XP Gained!", message "You earned [d] XP!";
    - [LevelUp l]: title "Level Up!", "You've reached Level [l]!";
    - [EvolutionPath t]: title "Evolution Path!",
      "Your Buddy has evolved into a [t]!";
    - [StreakRise n]: title "Streak Rise!",
      "Your learning streak is now [n] days!". *)
Inductive Notification :=
| XpGained (amount : Z)
| LevelUp (lvl : Z)
| EvolutionPath (title : string)
| StreakRise (days : Z).

(** The provider's mutable cells: the two refs and the [stats] state. *)
Record Provider := mkProvider {
  lastStatsRef : option Stats;
  isFirstLoad : bool;
  stats : Stats
}.

(** [useState<Stats>({ level: 1, total_xp: 0, ... })],
    [useRef(null)], [useRef(true)]. *)
Definition initialStats : Stats :=
  {| level := 1; total_xp := 0; streak_days := 0;
     buddyName := "Buddy"; buddyAvatar := "seedling"; lastStudyDate := None |}.

Definition initialProvider : Provider :=
  {| lastStatsRef := None; isFirstLoad := true; stats := initialStats |}.

(** How one run of [fetchStats] can go. *)
Inductive FetchResult :=
| NoEmail                      (* [if (!user?.email) return] *)
| Threw                        (* [fetch] or [res.json()] rejects: the [catch] *)
| NotOk                        (* [res.ok] is false *)
| Fetched (data : ProfileData) (* [res.ok], body parsed *).

(** The four guarded [addNotification] calls, in source order. *)
Definition xpRise (prev new : Stats) : list Notification :=
  if total_xp prev <? total_xp new
  then [XpGained (total_xp new - total_xp prev)] else [].

Definition levelRise (prev new : Stats) : list Notification :=
  if level prev <? level new then [LevelUp (level new)] else [].

(** [if (oldTitle !== newTitle && newStats.level > prev.level)] *)
Definition evolutionRise (prev new : Stats) : list Notification :=
  let oldTitle := getLevelTitle (level prev) in
  let newTitle := getLevelTitle (level new) in
  if negb (String.eqb oldTitle newTitle) && (level prev <? level new)
  then [EvolutionPath newTitle] else [].

Definition streakRise (prev new : Stats) : list Notification :=
  if streak_days prev <? streak_days new
  then [StreakRise (streak_days new)] else [].

Definition compareStats (prev new : Stats) : list Notification :=
  xpRise prev new ++ levelRise prev new ++
  evolutionRise prev new ++ streakRise prev new.

(** [fetchStats]: the new cells and the notifications raised. *)
Definition fetchStats (r : FetchResult) (p : Provider)
  : Provider * list Notification :=
  match r with
  | NoEmail | Threw | NotOk => (p, [])
  | Fetched data =>
      let newStats := newStatsOf data in
      let notes :=
        match isFirstLoad p, lastStatsRef p with
        | false, Some prev => compareStats prev newStats
        | _, _ => []
        end in
      ({| lastStatsRef := Some newStats;
          isFirstLoad := false;
          stats := newStats |}, notes)
  end.

(** The provider after a history of polls (the 30 s interval and every
    [refreshStats] call), oldest first. *)
Definition poll (p : Provider) (r : FetchResult) : Provider :=
  fst (fetchStats r p).

Definition afterPolls (history : list FetchResult) : Provider :=
  fold_left poll history initialProvider.

(** The body of the most recent successful fetch of a history. *)
Fixpoint lastFetched (history : list FetchResult) (acc : option ProfileData)
  : option ProfileData :=
  match history with
  | [] => acc
  | Fetched d :: rest => lastFetched rest (Some d)
  | _ :: rest => lastFetched rest acc
  end.

(** The cells the provider holds once [last] is the body of the most
    recent successful fetch ([None]: no fetch has succeeded yet). *)
Definition providerOf (last : option ProfileData) : Provider :=
  match last with
  | None => initialProvider
  | Some d => {| lastStatsRef := Some (newStatsOf d);
                 isFirstLoad := false;
                 stats := newStatsOf d |}
  end.

(** [levelTitle: getLevelTitle(stats.level)] of the context value. *)
Definition levelTitle (p : Provider) : string := getLevelTitle (level (stats p)).

Definition isEvolution (n : Notification) : bool :=
  match n with EvolutionPath _ => true | _ => false end.

End StatsContext.

(* ===================================================================== *)
(** * The gamification engine's XP formula *)
(* ===================================================================== *)

Module GamificationSpec.

Inductive ActivityType :=
| explanation_completed
| check_passed_first
| check_passed_second
| teach_back_success
| topic_mastered.

(** Modelled from the spec: the gamification engine runs on the server and
    is not among the sources; the base XP table of section 4.3. *)
Definition baseXP (a : ActivityType) : Z :=
  match a with
  | explanation_completed => 20
  | check_passed_first => 50
  | check_passed_second => 30
  | teach_back_success => 100
  | topic_mastered => 150
  end.

(** Modelled from the spec: [streakBonus = min(currentStreak, 10) * 10]. *)
Definition streakBonus (currentStreak : Z) : Z := Z.min currentStreak 10 * 10.

(** Modelled from the spec: [perfectBonus = perfectSession ? 50 : 0]. *)
Definition perfectBonus (perfectSession : bool) : Z :=
  if perfectSession then 50 else 0.

(** Modelled from the spec:
    [totalXPDelta = baseXP[activityType] + streakBonus + perfectBonus]. *)
Definition totalXPDelta (a : ActivityType) (currentStreak : Z)
    (perfectSession : bool) : Z :=
  baseXP a + streakBonus currentStreak + perfectBonus perfectSession.

End GamificationSpec.

(* ===================================================================== *)
(** * The confusion detector's score *)
(* ===================================================================== *)

Module ConfusionSpec.

Local Open Scope Q_scope.










End ConfusionSpec.

(* ===================================================================== *)
(** * What the user is told when a chat request fails *)
(* ===================================================================== *)

Module ChatErrors.

Local Open Scope string_scope.

(** A scalar JSON value, as a field of a parsed response body.  A number
    is an integer here. *)
Inductive JsVal :=
| JUndefined
| JNull
| JBool (b : bool)
| JNum (n : Z)
| JStr (s : string).

(** JavaScript truthiness, as [||] tests it. *)
Definition truthy (v : JsVal) : bool :=
  match v with
  | JUndefined | JNull => false
  | JBool b => b
  | JNum n => negb (n =? 0)%Z
  | JStr s => negb (String.eqb s "")
  end.

(** [a || b] *)
Definition jsOr (a b : JsVal) : JsVal := if truthy a then a else b.

(** The text a template literal substitutes for a value. *)
Definition toText (v : JsVal) : string :=
  match v with
  | JUndefined => "undefined"
  | JNull => "null"
  | JBool true => "true"
  | JBool false => "false"
  | JNum n => NilZero.string_of_int (Z.to_int n)
  | JStr s => s
  end.

(** The integer that a decimal numeral denotes. *)
Definition numeral (s : string) : option Z :=
  option_map Z.of_int (NilZero.int_of_string s).

(** The fields of a body of [POST /buddy/chat] that matter here:
    [retry_after] of a 429 body, the error text the server puts in
    [detail], and the reply [content] of a success. *)
Record Body := mkBody {
  retry_after : JsVal;
  detail : string;
  content : JsVal
}.

(** What [response.json()] gives: it rejects, or it gives the JSON value
    [null], or it gives a value whose fields can be read (a field that is
    not there reads [undefined]). *)
Inductive Parsed :=
| Unparsable
| JsonNull
| Fields (b : Body).

(** How the request can end. *)
Inductive ChatOutcome :=
| FetchRejected
| Response (ok : bool) (status : Z) (body : Parsed).

(** [const errorData = await response.json().catch(() => ({}))]
    [const waitTime = errorData.retry_after || 60]
    [None]: reading [retry_after] of [null] throws a [TypeError]. *)
Definition waitTime (body : Parsed) : option JsVal :=
  match body with
  | Unparsable => Some (jsOr JUndefined (JNum 60))
  | JsonNull => None
  | Fields b => Some (jsOr (retry_after b) (JNum 60))
  end.

(** What becomes visible to the user. *)
Inductive Shown :=
| Reply (text : JsVal)     (* the model's answer *)
| Failure (text : string)  (* a message the client composed itself *)
| NullData.                (* [null] itself is appended to the messages *)

(** ** [BuddyChat.handleSubmit] *)

Definition chatGeneric : string :=
  "Oops, I'm having trouble thinking right now. Can we try again?".

(** The 429 text of the chat window. *)
Definition chatBreather (w : JsVal) : string :=
  "Hey! I need a short breather 😊 I've been chatting a lot! Let's continue in about "
  ++ toText w
  ++ " seconds. Take a moment to review what we've discussed!".

Definition handleSubmit (o : ChatOutcome) : Shown :=
  match o with
  | FetchRejected => Failure chatGeneric
  | Response ok status body =>
      if negb ok then
        if (status =? 429)%Z
        then match waitTime body with
             | Some w => Failure (chatBreather w)
             | None => Failure chatGeneric       (* the [TypeError] is caught *)
             end
        else Failure chatGeneric            (* [throw new Error("Failed to fetch")] *)
      else
        match body with
        | Unparsable => Failure chatGeneric      (* [response.json()] rejects *)
        | JsonNull => NullData
        | Fields b => Reply (content b)
        end
  end.

(** ** [BuddyAvatar.handleUserSpeech] *)

Definition voiceGeneric : string :=
  "Oops, I'm having trouble thinking right now. Can you try again?".

Definition voiceBreather (w : JsVal) : string :=
  "I need a short breather! Let's continue in about "
  ++ toText w ++ " seconds.".

(** [const responseText = data.content || "I'm not sure how to respond to that."];
    reading [content] of [null] throws. *)
Definition handleUserSpeech (o : ChatOutcome) : Shown :=
  match o with
  | FetchRejected => Failure voiceGeneric
  | Response ok status body =>
      if negb ok then
        if (status =? 429)%Z
        then match waitTime body with
             | Some w => Failure (voiceBreather w)
             | None => Failure voiceGeneric
             end
        else Failure voiceGeneric
      else
        match body with
        | Unparsable | JsonNull => Failure voiceGeneric
        | Fields b =>
            Reply (jsOr (content b) (JStr "I'm not sure how to respond to that."))
        end
  end.

(** A request failed when [fetch] rejected, when the answer was not ok, or
    when the body of an ok answer could not be parsed. *)
Definition failed (o : ChatOutcome) : bool :=
  match o with
  | FetchRejected => true
  | Response ok _ body =>
      negb ok || match body with Unparsable => true | _ => false end
  end.

(** The error kind of a failed request as the client sees it. *)
Definition rateLimited (o : ChatOutcome) : bool :=
  match o with
  | Response false status _ => (status =? 429)%Z
  | _ => false
  end.

Definition bodyOf (o : ChatOutcome) : Parsed :=
  match o with
  | Response _ _ body => body
  | FetchRejected => Unparsable
  end.

(** The voice avatar got the model's answer and speaks it. *)
Definition voiceAnswered (o : ChatOutcome) : bool :=
  match handleUserSpeech o with
  | Reply _ => true
  | _ => false
  end.

(** The 429 branch ran to its [return]. *)
Definition tookBreather (o : ChatOutcome) : bool :=
  rateLimited o && match waitTime (bodyOf o) with Some _ => true | None => false end.

(** Two rate-limit answers that differ only in [retry_after], and a
    server error whose body carries a provider message. *)
Definition rateLimited30 : ChatOutcome :=
  Response false 429
    (Fields {| retry_after := JNum 30; detail := "quota exceeded";
               content := JUndefined |}).

Definition rateLimited45 : ChatOutcome :=
  Response false 429
    (Fields {| retry_after := JNum 45; detail := "quota exceeded";
               content := JUndefined |}).

Definition providerDown : ChatOutcome :=
  Response false 503
    (Fields {| retry_after := JUndefined; detail := "upstream model unavailable";
               content := JUndefined |}).

End ChatErrors.

(* ===================================================================== *)
(** * Reading a key of an object literal *)
(* ===================================================================== *)

Module JsObject.

Local Open Scope string_scope.

(** [obj[key]] on an object written as a literal.  A key that the literal
    does not have itself is looked up on [Object.prototype].  Its members
    are functions and, under ["__proto__"], the prototype object itself:
    every one of them is truthy, and none is a number or a text. *)
Definition prototypeKeys : list string :=
  [ "constructor"; "__defineGetter__"; "__defineSetter__"; "hasOwnProperty";
    "__lookupGetter__"; "__lookupSetter__"; "isPrototypeOf";
    "propertyIsEnumerable"; "toString"; "valueOf"; "__proto__";
    "toLocaleString" ].

Definition inherited (key : string) : bool :=
  existsb (String.eqb key) prototypeKeys.

(** What a read finds. *)
Inductive Read (A : Type) :=
| Own (v : A)     (* a key of the literal, with its value *)
| Member          (* a member of [Object.prototype] *)
| Undefined.      (* nothing: [undefined] *)

Arguments Own {A} v.
Arguments Member {A}.
Arguments Undefined {A}.

Definition get {A : Type} (literal : gmap string A) (key : string) : Read A :=
  match literal !! key with
  | Some v => Own v
  | None => if inherited key then Member else Undefined
  end.

End JsObject.

(* ===================================================================== *)
(** * Learning stages of a material *)
(* ===================================================================== *)

Module Materials.

Local Open Scope string_scope.

(** The own keys of the object literal [stageMap] of [getStageProgress]. *)
Definition stageMap : gmap string Z :=
  list_to_map
    [ ("uploaded", 0);
      ("buddy_taught", 33);
      ("user_taught", 66);
      ("mastered", 100) ].

(** What [getStageProgress] returns: a number, or the member of
    [Object.prototype] that the stage text names (a function or an object,
    no number). *)
Inductive StageValue :=
| Percent (n : Z)
| PrototypeMember (key : string).

(** [return stageMap[stage] || 0]: a missing key reads [undefined], and
    [undefined] and [0] are both falsy; an inherited member is truthy and
    is returned as it is. *)
Definition getStageProgress (stage : string) : StageValue :=
  match JsObject.get stageMap stage with
  | JsObject.Own v => if (v =? 0)%Z then Percent 0 else Percent v
  | JsObject.Member => PrototypeMember stage
  | JsObject.Undefined => Percent 0
  end.

(** A material as [GET /material/] lists it. *)
Record Material := mkMaterial {
  filename : string;
  learning_stage : option string
}.

(** [m.learning_stage || 'uploaded'] *)
Definition stageOf (m : Material) : string :=
  StatsContext.orText (learning_stage m) "uploaded".

(** The accumulator of the [reduce]: a number, or, once a value that is no
    number has been added, a text ([+] then concatenates the number so far
    with the text of the function or object).  No later [+] makes a number
    of that text again. *)
Inductive Sum :=
| Total (n : Z)
| Concatenated.

(** [sum + getStageProgress(...)] *)
Definition add (sum : Sum) (v : StageValue) : Sum :=
  match sum, v with
  | Total a, Percent b => Total (a + b)
  | _, _ => Concatenated
  end.

(** [materials.reduce((sum, m) => sum + getStageProgress(...), 0)] *)
Definition progressSum (materials : list Material) : Sum :=
  fold_left (fun sum m => add sum (getStageProgress (stageOf m))) materials (Total 0).

(** A JavaScript number that may be [NaN]. *)
Inductive JsNumber :=
| Finite (q : Q)
| NaN.

(** [const totalProgress = materials.length > 0 ? sum / materials.length : 0];
    a concatenated text is no numeral, so dividing it gives [NaN]. *)
Definition totalProgress (materials : list Material) : JsNumber :=
  match materials with
  | [] => Finite 0
  | _ =>
      match progressSum materials with
      | Total sum =>
          Finite (inject_Z sum / inject_Z (Z.of_nat (length materials)))
      | Concatenated => NaN
      end
  end.

(** The materials page, "Evolution Path for this Material". *)
Definition stageOrder : list string :=
  [ "uploaded"; "buddy_taught"; "user_taught"; "mastered"; "expert" ].

(** [Array.prototype.indexOf]: the first position, or [-1]. *)
Fixpoint indexOfFrom (i : Z) (l : list string) (x : string) : Z :=
  match l with
  | [] => -1
  | y :: rest => if String.eqb y x then i else indexOfFrom (i + 1) rest x
  end.

Definition indexOf (l : list string) (x : string) : Z := indexOfFrom 0 l x.

(** [const isCompleted = thisIdx < currentIdx], for the tile [tileStage] of
    a material whose stage is [currentStage]. *)
Definition isCompleted (tileStage currentStage : string) : bool :=
  (indexOf stageOrder tileStage <? indexOf stageOrder currentStage)%Z.

Definition isCurrent (tileStage currentStage : string) : bool :=
  (indexOf stageOrder tileStage =? indexOf stageOrder currentStage)%Z.

End Materials.

(* ===================================================================== *)
(** * The voice avatar's listen / think / speak loop ([BuddyAvatar]) *)
(* ===================================================================== *)

Module VoiceLoop.

(** The component is a set of handlers that the browser calls one at a
    time: recognition events, timers, promise continuations of [fetch],
    and events of a spoken utterance.  A state holds the component's refs
    and what the browser still owes it; an event is one handler call.
    Not modelled: the emotion and transcript states (display only), the
    mic and volume buttons (rendered inside a hidden element, so
    [toggleListening], [stopListening] and a change of [audioEnabled] never
    happen), and [recognition.onstart] (it sets [isStartingRef], which
    [startListening] has set already). *)

(** The browser's [SpeechRecognition] object: [start()] only succeeds when
    it is idle; after a result or an error its [end] event is still due. *)
Inductive Recognition := Idle | Listening | Ending.

(** A [setTimeout] callback that has not run yet. *)
Inductive Timer :=
| Start           (* [setTimeout(() => startListening(), 1000)] on mount *)
| Restart         (* [if (autoListenEnabledRef.current) startListening()] *)
| RestartIfIdle   (* [if (autoListen... && !isProcessingRef.current) startListening()] *)
| Respeak.        (* [setTimeout(() => speak(text), 100)] *)

(** An activation of [handleUserSpeech] suspended at an [await]. *)
Inductive Activation :=
| AwaitSession                         (* [await fetch(.../buddy/sessions)] *)
| AwaitChat (session_id : option Z).   (* [await fetch(.../buddy/chat)] *)

Record Voice := mkVoice {
  (* refs and state of the component *)
  isProcessingRef : bool;
  isStartingRef : bool;
  autoListenEnabledRef : bool;
  audioEnabled : bool;
  sessionId : option Z;
  hasEmail : bool;           (* [user?.email] *)
  hasRecognition : bool;     (* [recognitionRef.current] *)
  hasSynth : bool;           (* [synthRef.current] *)
  voicesLoaded : bool;       (* [getVoices().length > 0] *)
  (* what the browser still owes the component *)
  recognition : Recognition;
  utterances : nat;          (* spoken, [onend] / [onerror] not yet delivered *)
  timers : list Timer;
  pending : list Activation
}.

Definition withProcessing (b : bool) (s : Voice) : Voice :=
  {| isProcessingRef := b; isStartingRef := isStartingRef s;
     autoListenEnabledRef := autoListenEnabledRef s; audioEnabled := audioEnabled s;
     sessionId := sessionId s; hasEmail := hasEmail s;
     hasRecognition := hasRecognition s; hasSynth := hasSynth s;
     voicesLoaded := voicesLoaded s; recognition := recognition s;
     utterances := utterances s; timers := timers s; pending := pending s |}.

Definition withStarting (b : bool) (s : Voice) : Voice :=
  {| isProcessingRef := isProcessingRef s; isStartingRef := b;
     autoListenEnabledRef := autoListenEnabledRef s; audioEnabled := audioEnabled s;
     sessionId := sessionId s; hasEmail := hasEmail s;
     hasRecognition := hasRecognition s; hasSynth := hasSynth s;
     voicesLoaded := voicesLoaded s; recognition := recognition s;
     utterances := utterances s; timers := timers s; pending := pending s |}.

Definition withSession (i : option Z) (s : Voice) : Voice :=
  {| isProcessingRef := isProcessingRef s; isStartingRef := isStartingRef s;
     autoListenEnabledRef := autoListenEnabledRef s; audioEnabled := audioEnabled s;
     sessionId := i; hasEmail := hasEmail s;
     hasRecognition := hasRecognition s; hasSynth := hasSynth s;
     voicesLoaded := voicesLoaded s; recognition := recognition s;
     utterances := utterances s; timers := timers s; pending := pending s |}.

Definition withRecognition (r : Recognition) (s : Voice) : Voice :=
  {| isProcessingRef := isProcessingRef s; isStartingRef := isStartingRef s;
     autoListenEnabledRef := autoListenEnabledRef s; audioEnabled := audioEnabled s;
     sessionId := sessionId s; hasEmail := hasEmail s;
     hasRecognition := hasRecognition s; hasSynth := hasSynth s;
     voicesLoaded := voicesLoaded s; recognition := r;
     utterances := utterances s; timers := timers s; pending := pending s |}.

Definition withUtterances (n : nat) (s : Voice) : Voice :=
  {| isProcessingRef := isProcessingRef s; isStartingRef := isStartingRef s;
     autoListenEnabledRef := autoListenEnabledRef s; audioEnabled := audioEnabled s;
     sessionId := sessionId s; hasEmail := hasEmail s;
     hasRecognition := hasRecognition s; hasSynth := hasSynth s;
     voicesLoaded := voicesLoaded s; recognition := recognition s;
     utterances := n; timers := timers s; pending := pending s |}.

Definition withTimers (t : list Timer) (s : Voice) : Voice :=
  {| isProcessingRef := isProcessingRef s; isStartingRef := isStartingRef s;
     autoListenEnabledRef := autoListenEnabledRef s; audioEnabled := audioEnabled s;
     sessionId := sessionId s; hasEmail := hasEmail s;
     hasRecognition := hasRecognition s; hasSynth := hasSynth s;
     voicesLoaded := voicesLoaded s; recognition := recognition s;
     utterances := utterances s; timers := t; pending := pending s |}.

Definition withPending (p : list Activation) (s : Voice) : Voice :=
  {| isProcessingRef := isProcessingRef s; isStartingRef := isStartingRef s;
     autoListenEnabledRef := autoListenEnabledRef s; audioEnabled := audioEnabled s;
     sessionId := sessionId s; hasEmail := hasEmail s;
     hasRecognition := hasRecognition s; hasSynth := hasSynth s;
     voicesLoaded := voicesLoaded s; recognition := recognition s;
     utterances := utterances s; timers := timers s; pending := p |}.

Definition addTimer (t : Timer) (s : Voice) : Voice :=
  withTimers (timers s ++ [t]) s.

(** ** The component's functions *)

(** [startListening] *)
Definition startListening (s : Voice) : Voice :=
  if negb (hasRecognition s) then s                        (* [alert(...)] *)
  else if isStartingRef s || isProcessingRef s then s
  else
    match recognition s with
    | Idle => withRecognition Listening (withStarting true s)
    | _ => withStarting false (withStarting true s)        (* [start()] throws *)
    end.

(** The timer armed after speech: [if (autoListenEnabledRef.current)
    setTimeout(() => { if (autoListenEnabledRef.current) startListening() }, ...)] *)
Definition armRestart (s : Voice) : Voice :=
  if autoListenEnabledRef s then addTimer Restart s else s.

(** [speak]: without audio the turn is over at once; otherwise an
    utterance is handed to the synthesiser and the turn ends with it. *)
Definition speak (s : Voice) : Voice :=
  if negb (hasSynth s) || negb (audioEnabled s)
  then armRestart (withProcessing false s)
  else if negb (voicesLoaded s) then addTimer Respeak s
  else withUtterances (S (utterances s)) s.

(** [utterance.onend] and [utterance.onerror] have the same effect on the refs. *)
Definition utteranceDone (s : Voice) : Voice :=
  armRestart (withProcessing false s).

(** [handleUserSpeech], up to its first [await].  Its only caller is
    [recognition.onresult], after which the recogniser is already ending,
    so the [recognitionRef.current.stop()] of the source changes nothing.
    That handler is set once, by the effect of the first render, and
    calls the [handleUserSpeech] of that render, in which [sessionId] is
    the initial [null]: every turn asks for a new session, and the
    [sessionId] state that [setSessionId] writes is never read. *)
Definition handleUserSpeech (s : Voice) : Voice :=
  if negb (hasEmail s) || isProcessingRef s then s
  else
    let s := withProcessing true s in
    withPending (pending s ++ [AwaitSession]) s.

(** [handleUserSpeech], from the chat response to its end. *)
Definition afterChat (o : ChatErrors.ChatOutcome) (s : Voice) : Voice :=
  if ChatErrors.voiceAnswered o then speak s
  else if ChatErrors.tookBreather o
  then withProcessing false (speak s)                         (* the 429 branch *)
  else armRestart (withProcessing false (speak s)).           (* the [catch] *)

(** [recognition.onresult] *)
Definition onresult (s : Voice) : Voice :=
  handleUserSpeech (withStarting false s).

(** The restart that [recognition.onend] and [recognition.onerror] arm. *)
Definition armRestartIfIdle (s : Voice) : Voice :=
  if autoListenEnabledRef s && negb (isProcessingRef s)
  then addTimer RestartIfIdle s else s.

(** [recognition.onend] *)
Definition onend (s : Voice) : Voice :=
  armRestartIfIdle (withStarting false s).

(** [recognition.onerror]; [transient] says whether the error is
    ['network'] or ['no-speech']. *)
Definition onerror (transient : bool) (s : Voice) : Voice :=
  let s := withStarting false s in
  if transient then armRestartIfIdle s else s.

Definition runTimer (t : Timer) (s : Voice) : Voice :=
  match t with
  | Start => startListening s
  | Restart => if autoListenEnabledRef s then startListening s else s
  | RestartIfIdle =>
      if autoListenEnabledRef s && negb (isProcessingRef s)
      then startListening s else s
  | Respeak => speak s
  end.

(** ** What can happen next *)

Inductive Event :=
| TimerFires (k : nat)
| RecognitionResult
| RecognitionError (transient : bool)
| RecognitionEnd
| SessionResponse (k : nat) (created : option Z)
| ChatResponse (k : nat) (o : ChatErrors.ChatOutcome)
| UtteranceEnd.

Definition removeAt {A} (k : nat) (l : list A) : list A :=
  firstn k l ++ skipn (S k) l.

Definition replaceAt {A} (k : nat) (x : A) (l : list A) : list A :=
  firstn k l ++ x :: skipn (S k) l.

(** One turn of the event loop; [None] when the browser cannot deliver
    the event in this state. *)
Definition step (e : Event) (s : Voice) : option Voice :=
  match e with
  | TimerFires k =>
      match nth_error (timers s) k with
      | Some t => Some (runTimer t (withTimers (removeAt k (timers s)) s))
      | None => None
      end
  | RecognitionResult =>
      match recognition s with
      | Listening => Some (onresult (withRecognition Ending s))
      | _ => None
      end
  | RecognitionError transient =>
      match recognition s with
      | Listening => Some (onerror transient (withRecognition Ending s))
      | _ => None
      end
  | RecognitionEnd =>
      match recognition s with
      | Idle => None
      | _ => Some (onend (withRecognition Idle s))
      end
  | SessionResponse k created =>
      match nth_error (pending s) k with
      | Some AwaitSession =>
          let s := withPending (replaceAt k (AwaitChat created) (pending s)) s in
          Some (match created with
                | Some i => withSession (Some i) s     (* [setSessionId] *)
                | None => s
                end)
      | _ => None
      end
  | ChatResponse k o =>
      match nth_error (pending s) k with
      | Some (AwaitChat _) =>
          Some (afterChat o (withPending (removeAt k (pending s)) s))
      | _ => None
      end
  | UtteranceEnd =>
      match utterances s with
      | S n => Some (utteranceDone (withUtterances n s))
      | O => None
      end
  end.

Fixpoint run (trace : list Event) (s : Voice) : option Voice :=
  match trace with
  | [] => Some s
  | e :: rest =>
      match step e s with
      | Some s' => run rest s'
      | None => None
      end
  end.

(** The session ids of the chat requests that are in flight. *)
Definition inFlight (s : Voice) : list (option Z) :=
  flat_map (fun a => match a with AwaitChat i => [i] | AwaitSession => [] end)
           (pending s).

(** The component just mounted with [autoListen], a signed-in user and a
    browser that has both speech interfaces. *)
Definition mounted : Voice :=
  {| isProcessingRef := false; isStartingRef := false;
     autoListenEnabledRef := true; audioEnabled := true;
     sessionId := None; hasEmail := true;
     hasRecognition := true; hasSynth := true; voicesLoaded := true;
     recognition := Idle; utterances := 0; timers := [Start]; pending := [] |}.

(** A server error answer to the chat request. *)
Definition serverError : ChatErrors.ChatOutcome :=
  ChatErrors.Response false 500 ChatErrors.Unparsable.

(** The learner speaks, the chat request fails, and the learner speaks
    twice more while the error message is being read out. *)
Definition overlappingTrace : list Event :=
  [ TimerFires 0;                 (* listening starts *)
    RecognitionResult;            (* first utterance: turn 1 begins *)
    RecognitionEnd;
    SessionResponse 0 None;       (* no session could be created *)
    ChatResponse 0 serverError;   (* turn 1 fails: error message spoken *)
    TimerFires 0;                 (* listening restarts after 2 s *)
    RecognitionResult;            (* second utterance: turn 2 begins *)
    RecognitionEnd;
    SessionResponse 0 None;       (* chat request of turn 2 is sent *)
    UtteranceEnd;                 (* the error message finishes *)
    TimerFires 0;                 (* listening restarts after 0.5 s *)
    RecognitionResult;            (* third utterance: turn 3 begins *)
    SessionResponse 1 None ].     (* chat request of turn 3 is sent *)

End VoiceLoop.

(* ===================================================================== *)
(** * The mastery scenario of the specification, run on the client code *)
(* ===================================================================== *)

Module MasteryScenario.

Import StatsContext.

Definition xpBefore : Z := 480.

(** A [topic_mastered] event with a streak of 5 after a perfect session. *)
Definition delta : Z :=
  GamificationSpec.totalXPDelta GamificationSpec.topic_mastered 5 true.

Definition xpAfter : Z := xpBefore + delta.

(** A profile as the server may report it: the level is whatever the
    server sends with the XP total ([fetchStats] reads [data.level] and
    never derives a level from [data.total_xp]). *)
Definition profile (lvl xp : Z) : ProfileData :=
  {| data_level := lvl;
     data_total_xp := xp;
     data_streak_days := 5;
     data_buddy_name := None;
     data_buddy_avatar := None;
     data_last_study_date := None |}.

(** The two polls around the award for a profile whose level goes from 1
    to 2, the levels that the tiered table gives for 480 and 730 XP. *)
Definition tieredNotes : list Notification :=
  snd (fetchStats (Fetched (profile 2 xpAfter))
                  (afterPolls [Fetched (profile 1 xpBefore)])).

(** The same two polls when the server sends the levels 5 and 8. *)
Definition notes : list Notification :=
  snd (fetchStats (Fetched (profile 8 xpAfter))
                  (afterPolls [Fetched (profile 5 xpBefore)])).

Definition isXpGained (n : Notification) : bool :=
  match n with XpGained _ => true | _ => false end.

End MasteryScenario.

(* ===================================================================== *)
(** * The stats provider over time: all notifications, the study reminder *)
(* ===================================================================== *)

Module StatsHistory.

Import StatsContext.

(** Every notification raised while a history of polls runs, oldest
    first, starting from the cells [p]. *)
Fixpoint notesFrom (p : Provider) (history : list FetchResult)
  : list Notification :=
  match history with
  | [] => []
  | r :: rest => snd (fetchStats r p) ++ notesFrom (fst (fetchStats r p)) rest
  end.

Definition allNotes (history : list FetchResult) : list Notification :=
  notesFrom initialProvider history.

(** The position of a level's title in the order Seedling, Sprout,
    Teenager, Expert, Master: the number of cuts of [getLevelTitle] that
    the level has passed. *)
Definition titleRank (lvl : Z) : Z :=
  (if lvl <? 4 then 0 else 1) + (if lvl <? 8 then 0 else 1)
  + (if lvl <? 13 then 0 else 1) + (if lvl <? 17 then 0 else 1).

(** The levels of the successfully fetched profiles never go down, the
    first of them being at least [floor]. *)
Fixpoint levelsNeverDrop (floor : Z) (history : list FetchResult) : bool :=
  match history with
  | [] => true
  | Fetched d :: rest => (floor <=? data_level d) && levelsNeverDrop (data_level d) rest
  | _ :: rest => levelsNeverDrop floor rest
  end.

(** ** The study reminder effect *)

(** [new Date(stats.lastStudyDate).getTime()]: a number of milliseconds,
    or [NaN] for a text that is no date. *)
Inductive StudyTime :=
| InvalidDate
| Millis (t : Z).

(** One run of the effect: the value of [stats.lastStudyDate] (absent when
    it is [null] or the empty text) and of [Date.now()]. *)
Record EffectRun := mkRun {
  lastStudy : option StudyTime;
  now : Z
}.

(** [const hoursSinceStudy = (now - lastStudy) / (1000 * 60 * 60)];
    [if (hoursSinceStudy > 24)].  A comparison with [NaN] is false. *)
Definition overdue (t : StudyTime) (now : Z) : bool :=
  match t with
  | InvalidDate => false
  | Millis last =>
      negb (Qle_bool (inject_Z (now - last) / inject_Z (1000 * 60 * 60))
                     (inject_Z 24))
  end.

(** The effect: the new value of [hasRemindedRef] and whether the
    "misses you" notification was added. *)
Definition reminderEffect (hasReminded : bool) (r : EffectRun) : bool * bool :=
  match lastStudy r with
  | None => (hasReminded, false)           (* [if (!stats.lastStudyDate ...) return] *)
  | Some t =>
      if hasReminded then (hasReminded, false)
      else if overdue t (now r) then (true, true)
      else (hasReminded, false)
  end.

(** The runs of the effect over the life of the provider: which of them
    added the notification. *)
Fixpoint remindersFrom (hasReminded : bool) (runs : list EffectRun) : list bool :=
  match runs with
  | [] => []
  | r :: rest =>
      snd (reminderEffect hasReminded r)
      :: remindersFrom (fst (reminderEffect hasReminded r)) rest
  end.

(** [const hasRemindedRef = useRef(false)] *)
Definition reminders (runs : list EffectRun) : list bool :=
  remindersFrom false runs.

End StatsHistory.

(* ===================================================================== *)
(** * States of the voice loop *)
(* ===================================================================== *)

Module VoiceInvariant.

Import VoiceLoop.

(** The recogniser is only listening between turns. *)
Definition listeningBetweenTurns (s : Voice) : Prop :=
  recognition s = Listening -> isProcessingRef s = false.

(** The component cannot speak: the browser has no speech synthesis, or
    audio is switched off. *)
Definition mute (s : Voice) : bool :=
  negb (hasSynth s) || negb (audioEnabled s).

(** A mute component between or within turns: nothing was handed to the
    synthesiser, no retry of [speak] is scheduled, at most one activation
    of [handleUserSpeech] is suspended, and [isProcessingRef] is set for as
    long as it is. *)
Definition muteAndSerial (s : Voice) : Prop :=
  mute s = true /\
  utterances s = 0%nat /\
  ~ In Respeak (timers s) /\
  (length (pending s) <= 1)%nat /\
  (isProcessingRef s = false -> pending s = []).

(** What the handlers that end a turn can change: they leave the
    recogniser and the signed-in user alone, and they never set
    [isProcessingRef]. *)
Definition settles (s s' : Voice) : Prop :=
  recognition s' = recognition s /\
  hasEmail s' = hasEmail s /\
  (isProcessingRef s' = true -> isProcessingRef s = true).

(** The component of [mounted] in a browser without speech synthesis. *)
Definition mountedMute : Voice :=
  {| isProcessingRef := false; isStartingRef := false;
     autoListenEnabledRef := true; audioEnabled := true;
     sessionId := None; hasEmail := true;
     hasRecognition := true; hasSynth := false; voicesLoaded := false;
     recognition := Idle; utterances := 0; timers := [Start]; pending := [] |}.

(** Two full turns of a mute component, the first one failing. *)
Definition muteTrace : list Event :=
  [ TimerFires 0;
    RecognitionResult;
    RecognitionEnd;
    SessionResponse 0 (Some 7);
    ChatResponse 0 serverError;
    TimerFires 0;
    RecognitionResult;
    RecognitionEnd ].

End VoiceInvariant.

(* ===================================================================== *)
(** * The brain-growing indicator and the materials page *)
(* ===================================================================== *)

Module BrainGrowth.

Local Open Scope string_scope.

(** [x > k] for a number [x] that may be [NaN]: every comparison with [NaN]
    is false. *)
Definition above (x : Materials.JsNumber) (k : Z) : bool :=
  match x with
  | Materials.Finite q => negb (Qle_bool q (inject_Z k))
  | Materials.NaN => false
  end.

(** The colour of the brain icon:
    [totalProgress > 75 ? ... : totalProgress > 50 ? ... : totalProgress > 25 ? ... : ...] *)
Definition brainTint (totalProgress : Materials.JsNumber) : string :=
  if above totalProgress 75 then "text-emerald-300"
  else if above totalProgress 50 then "text-emerald-400"
  else if above totalProgress 25 then "text-purple-300"
  else "text-purple-200".

(** [progress >= k], [progress < k] and [progress === k] for what
    [getStageProgress] returned: a function or object converts to [NaN],
    which compares false, and is not strictly equal to a number. *)
Definition atLeast (progress : Materials.StageValue) (k : Z) : bool :=
  match progress with
  | Materials.Percent n => (k <=? n)%Z
  | Materials.PrototypeMember _ => false
  end.

Definition below (progress : Materials.StageValue) (k : Z) : bool :=
  match progress with
  | Materials.Percent n => (n <? k)%Z
  | Materials.PrototypeMember _ => false
  end.

Definition exactly (progress : Materials.StageValue) (k : Z) : bool :=
  match progress with
  | Materials.Percent n => (n =? k)%Z
  | Materials.PrototypeMember _ => false
  end.

(** The fill of one material's node:
    [progress >= 100 ? ... : progress >= 75 ? ... : progress >= 50 ? ... : ...] *)
Definition neuronFill (progress : Materials.StageValue) : string :=
  if atLeast progress 100 then "bg-gradient-to-t from-emerald-400 to-emerald-300"
  else if atLeast progress 75 then "bg-gradient-to-t from-emerald-500 to-purple-400"
  else if atLeast progress 50 then "bg-gradient-to-t from-purple-400 to-purple-300"
  else "bg-gradient-to-t from-purple-500 to-purple-400".

(** [{progress < 100 && <shimmer />}] and [{progress === 100 && <Sparkles />}] *)
Definition shimmers (progress : Materials.StageValue) : bool := below progress 100.
Definition sparkles (progress : Materials.StageValue) : bool := exactly progress 100.

(** The node of one material. *)
Definition nodeProgress (m : Materials.Material) : Materials.StageValue :=
  Materials.getStageProgress (Materials.stageOf m).

End BrainGrowth.

Module EvolutionTiles.

Local Open Scope string_scope.

(** The five tiles of "Evolution Path for this Material", by their
    [stage] field, in the order of the array that is mapped. *)
Definition tiles : list string :=
  [ "uploaded"; "buddy_taught"; "user_taught"; "mastered"; "expert" ].

(** [const isLocked = thisIdx > currentIdx] *)
Definition isLocked (tileStage currentStage : string) : bool :=
  (Materials.indexOf Materials.stageOrder currentStage
   <? Materials.indexOf Materials.stageOrder tileStage)%Z.

Definition completedTiles (m : Materials.Material) : list string :=
  List.filter (fun t => Materials.isCompleted t (Materials.stageOf m)) tiles.

Definition currentTiles (m : Materials.Material) : list string :=
  List.filter (fun t => Materials.isCurrent t (Materials.stageOf m)) tiles.

Definition lockedTiles (m : Materials.Material) : list string :=
  List.filter (fun t => isLocked t (Materials.stageOf m)) tiles.

End EvolutionTiles.

Module MaterialsPage.

Local Open Scope string_scope.

(** A row of the materials list: its [id] and the fields modelled in
    [Materials.Material]. *)
Record Row := mkRow {
  id : Z;
  material : Materials.Material
}.

(** How [DELETE /material/:id] can end. *)
Inductive DeleteOutcome :=
| DeleteThrew
| DeleteAnswered (ok : bool).

(** [handleDelete]: the new value of the [materials] state and the text of
    the [alert], if any.  [confirmed] is the answer to the [confirm(...)]
    dialog.  [materials] is the list of the render in which the button was
    clicked: [setMaterials(materials.filter(...))] runs after the [await]
    and still reads that list; [shown] is the state at that later time,
    which a request that fails leaves as it is. *)
Definition handleDelete (confirmed : bool) (o : DeleteOutcome) (target : Z)
    (materials shown : list Row) : list Row * option string :=
  if negb confirmed then (shown, None)
  else
    match o with
    | DeleteAnswered true =>
        (List.filter (fun m => negb (id m =? target)%Z) materials, None)
    | DeleteAnswered false => (shown, Some "Failed to delete material")
    | DeleteThrew => (shown, Some "An error occurred during deletion")
    end.

End MaterialsPage.

Module Avatars.

Local Open Scope string_scope.

(** [AVATARS] of the customisation dialog: [id], [label], [icon]. *)
Definition AVATARS : list (string * string * string) :=
  [ ("seedling", "Seedling", "🌱");
    ("sprout", "Sprout", "🌿");
    ("brain", "Brainy", "🧠");
    ("robot", "Droid", "🤖");
    ("sparkles", "Magic", "✨");
    ("rocket", "Explorer", "🚀");
    ("star", "Achiever", "⭐");
    ("ghost", "Playful", "👻") ].

(** The own keys of [AVATAR_ICONS] of the buddy page. *)
Definition AVATAR_ICONS : gmap string string :=
  list_to_map
    [ ("seedling", "🌱");
      ("sprout", "🌿");
      ("brain", "🧠");
      ("robot", "🤖");
      ("sparkles", "✨");
      ("rocket", "🚀");
      ("star", "⭐");
      ("ghost", "👻") ].

(** [AVATAR_ICONS] of the sidebar: a second literal with the same text. *)
Definition SIDEBAR_AVATAR_ICONS : gmap string string :=
  list_to_map
    [ ("seedling", "🌱");
      ("sprout", "🌿");
      ("brain", "🧠");
      ("robot", "🤖");
      ("sparkles", "✨");
      ("rocket", "🚀");
      ("star", "⭐");
      ("ghost", "👻") ].

(** What is handed to React as the child of the icon's [span]: a text, or
    the member of [Object.prototype] that the avatar id names (a function
    or an object, which is no text). *)
Inductive Child :=
| Icon (text : string)
| PrototypeMember (key : string).

(** [{TABLE[stats.buddyAvatar] || '🌱'}] *)
Definition iconIn (table : gmap string string) (buddyAvatar : string) : Child :=
  match JsObject.get table buddyAvatar with
  | JsObject.Own icon => if String.eqb icon "" then Icon "🌱" else Icon icon
  | JsObject.Member => PrototypeMember buddyAvatar
  | JsObject.Undefined => Icon "🌱"
  end.

Definition pageIcon (buddyAvatar : string) : Child := iconIn AVATAR_ICONS buddyAvatar.
Definition sidebarIcon (buddyAvatar : string) : Child :=
  iconIn SIDEBAR_AVATAR_ICONS buddyAvatar.

End Avatars.

(* ===================================================================== *)
(** * The chat window ([BuddyChat]) *)
(* ===================================================================== *)

Module Names.

(** [s.split(sep)[0]] for a one-character separator: the text before the
    first [sep], or all of [s] when there is none. *)
Fixpoint beforeFirst (sep : ascii) (s : string) : string :=
  match s with
  | EmptyString => EmptyString
  | String c rest =>
      if Ascii.eqb c sep then EmptyString else String c (beforeFirst sep rest)
  end.

(** Whether [sep] occurs in [s]. *)
Fixpoint occurs (sep : ascii) (s : string) : bool :=
  match s with
  | EmptyString => false
  | String c rest => Ascii.eqb c sep || occurs sep rest
  end.

(** [user.name.split(' ')[0]] *)
Definition firstName (name : string) : string := beforeFirst " "%char name.

(** [email.split('@')[0]] *)
Definition localPart (email : string) : string := beforeFirst "@"%char email.

End Names.

Module ChatWindow.

(** An entry of the [messages] state.  A user message has role ["user"];
    the greeting and the failure texts have role ["model"]; on success the
    value that the server returned is appended as it is ([FromServer] with
    its [content], or [null] itself). *)
Inductive Entry :=
| FromUser (content : string)
| FromModel (content : string)
| FromServer (content : ChatErrors.JsVal)
| NullEntry.

Definition entryOf (shown : ChatErrors.Shown) : Entry :=
  match shown with
  | ChatErrors.Reply c => FromServer c
  | ChatErrors.Failure text => FromModel text
  | ChatErrors.NullData => NullEntry
  end.

(** The state of the component that [handleSubmit] and [handleNewChat]
    read and write.  The session id is a text: it comes from the
    [session] parameter of the address or from [String(data.session_id)]. *)
Record Chat := mkChat {
  messages : list Entry;
  input : string;
  isLoading : bool;
  currentSessionId : option string
}.

(** The body of [POST /buddy/chat]: [messages] and [session_id] (a number,
    or [null]). *)
Record Request := mkRequest {
  req_messages : list Entry;
  req_session : option Z
}.

(** How [POST /buddy/sessions] ends, when it is sent: with an ok answer
    whose [session_id] can be read, or in any other way. *)
Inductive SessionAnswer :=
| SessionFailed
| SessionAnswered (session_id : ChatErrors.JsVal).

(** [currentSessionId] as a value. *)
Definition held (current : option string) : ChatErrors.JsVal :=
  match current with
  | Some i => ChatErrors.JStr i
  | None => ChatErrors.JNull
  end.

(** [let activeSessionId = currentSessionId] and, [if (!activeSessionId)],
    [activeSessionId = data.session_id] for a truthy [data.session_id] of
    an ok answer. *)
Definition activeSessionId (current : option string) (sa : SessionAnswer)
  : ChatErrors.JsVal :=
  if ChatErrors.truthy (held current) then held current
  else
    match sa with
    | SessionAnswered v => if ChatErrors.truthy v then v else held current
    | SessionFailed => held current
    end.

(** The [currentSessionId] state afterwards:
    [setCurrentSessionId(String(data.session_id))] in the same case. *)
Definition sessionAfter (current : option string) (sa : SessionAnswer)
  : option string :=
  if ChatErrors.truthy (held current) then current
  else
    match sa with
    | SessionAnswered v =>
        if ChatErrors.truthy v then Some (ChatErrors.toText v) else current
    | SessionFailed => current
    end.

(** [session_id: activeSessionId ? parseInt(String(activeSessionId)) : null];
    [parseInt] answers [None] for [NaN], which is sent as [null]. *)
Definition sessionField (parseInt : string -> option Z)
    (active : ChatErrors.JsVal) : option Z :=
  if ChatErrors.truthy active then parseInt (ChatErrors.toText active) else None.

(** [handleSubmit], from the submit event to the end of its [finally].
    [isBlank] stands for the test [!input.trim()], [parseInt] for the
    global function of that name, [hasEmail] for [user?.email], [sa] for
    how the session request ends if it is sent, and [o] for how the chat
    request ends.  The result is the new state and the chat request that
    was sent, if any. *)
Definition handleSubmit (isBlank : string -> bool) (parseInt : string -> option Z)
    (hasEmail : bool) (sa : SessionAnswer) (o : ChatErrors.ChatOutcome) (c : Chat)
  : Chat * option Request :=
  if isBlank (input c) || negb hasEmail then (c, None)
  else
    let userMessage := FromUser (input c) in
    let currentMessages := messages c ++ [userMessage] in
    ({| messages := currentMessages ++ [entryOf (ChatErrors.handleSubmit o)];
        input := ""%string;
        isLoading := false;
        currentSessionId := sessionAfter (currentSessionId c) sa |},
     Some {| req_messages := currentMessages;
             req_session :=
               sessionField parseInt (activeSessionId (currentSessionId c) sa) |}).


(** The greeting of a user by name, for a name that is there and not
    empty. *)
Definition greeting (userName : option string) (text : string -> string)
  : list Entry :=
  match userName with
  | Some n =>
      if String.eqb n ""%string then []
      else [FromModel (text (Names.firstName n))]
  | None => []
  end.



(** A double quote, as a text. *)
Definition dquote : string := String (Ascii.ascii_of_nat 34) EmptyString.

(** [welcomeMsg] of a fresh chat; [materialContext] is
    [searchParams.get('material')]. *)
Definition welcomeMsg (materialContext : option string) (firstName : string)
  : string :=
  let plain :=
    ("Hi " ++ firstName
     ++ "! I'm Buddy. I'm excited to learn with you today. What topic should we explore?")%string in
  match materialContext with
  | Some m =>
      if String.eqb m ""%string then plain
      else ("Hi " ++ firstName ++ "! I'm ready to study " ++ dquote ++ m ++ dquote
            ++ " with you. Shall I start by teaching you a key concept, or do you want to try explaining it to me?")%string
  | None => plain
  end.

(** How [GET /buddy/history] ends: rejected, answered not ok, or answered
    ok with [data.history] (absent, or a list). *)
Inductive HistoryAnswer :=
| HistoryThrew
| HistoryNotOk
| HistoryFetched (history : option (list Entry)).

Definition withMessages (ms : list Entry) (c : Chat) : Chat :=
  {| messages := ms; input := input c;
     isLoading := isLoading c; currentSessionId := currentSessionId c |}.

(** The effect [fetchHistory], which runs after a render in which [user],
    [currentSessionId] or [materialContext] has changed.
    [activeSessionIdRef] is the value of the ref when the effect runs. *)
Definition fetchHistory (hasEmail : bool) (userName materialContext : option string)
    (activeSessionIdRef : option string) (answer : HistoryAnswer) (c : Chat) : Chat :=
  if negb hasEmail then c
  else if negb (ChatErrors.truthy (held (currentSessionId c)))
  then withMessages (greeting userName (welcomeMsg materialContext)) c
  else
    if match activeSessionIdRef, currentSessionId c with
       | Some r, Some i => String.eqb r i
       | None, None => true
       | _, _ => false
       end && (0 <? length (messages c))%nat
    then c
    else
      match answer with
      | HistoryFetched (Some (e :: rest)) => withMessages (e :: rest) c
      | HistoryFetched _ => withMessages [] c
      | HistoryThrew | HistoryNotOk => c
      end.









End ChatWindow.

(* ===================================================================== *)
(** * Signing in and out ([auth-context.tsx], the signup page) *)
(* ===================================================================== *)

Module Auth.

(** [interface User] *)
Record User := mkUser {
  id : Z;
  name : string;
  email : string;
  level : Z;
  role : string;
  token : option string
}.

(** The two entries of [localStorage] that the provider writes:
    ["learnloop_user"] (the user object, stored as JSON and read back with
    [JSON.parse]) and ["token"]. *)
Record Storage := mkStorage {
  learnloop_user : option User;
  stored_token : option string
}.

(** The provider's state, its stored entries and the last [router.push]. *)
Record AuthState := mkAuth {
  user : option User;
  isLoading : bool;
  error : option string;
  storage : Storage;
  route : option string
}.

(** How [GET /profile/:email] ends inside [login]: with [user_name] and
    [level] of an ok answer, or in any way that leaves the user as
    constructed (not ok, or a rejection that the inner [catch] swallows). *)
Inductive ProfileAnswer :=
| ProfileMissing
| ProfileFound (user_name : option string) (profile_level : option Z).

(** How [POST /auth/login] ends. *)
Inductive LoginAnswer :=
| LoginThrew (message : string)          (* [fetch] rejects with [err.message] *)
| LoginRefused (detail : option string)  (* not ok; [errorData.detail] if readable *)
| LoginUnreadable (message : string)     (* ok, but [res.json()] rejects *)
| LoginGranted (access_token : string) (profile : ProfileAnswer).

(** [v || d] on a text that is present. *)
Definition orElse (v d : string) : string := StatsContext.orText (Some v) d.

(** The message of the [Error] that reaches the outer [catch], then
    [err.message || "Login failed"]; [None] when nothing is thrown. *)
Definition loginError (a : LoginAnswer) : option string :=
  match a with
  | LoginThrew m => Some (orElse m "Login failed")
  | LoginRefused d => Some (orElse (StatsContext.orText d "Login failed") "Login failed")
  | LoginUnreadable m => Some (orElse m "Login failed")
  | LoginGranted _ _ => None
  end.

(** [profile.level || 1] *)
Definition levelOr1 (l : option Z) : Z :=
  match l with
  | Some v => if (v =? 0)%Z then 1%Z else v
  | None => 1%Z
  end.

(** The [loggedInUser] object after the profile request. *)
Definition loggedInUser (email0 : string) (name0 : option string)
    (access_token : string) (p : ProfileAnswer) : User :=
  let constructed := StatsContext.orText name0 (Names.localPart email0) in
  match p with
  | ProfileMissing =>
      {| id := 1; name := constructed; email := email0; level := 1;
         role := "Scholar"; token := Some access_token |}
  | ProfileFound user_name profile_level =>
      {| id := 1; name := StatsContext.orText user_name constructed;
         email := email0; level := levelOr1 profile_level;
         role := "Scholar"; token := Some access_token |}
  end.

(** [login(email, password, name?)]: the new state and the returned
    [{ success, error }]. *)
Definition login (email0 : string) (name0 : option string) (a : LoginAnswer)
    (st : AuthState) : AuthState * (bool * option string) :=
  match a with
  | LoginGranted access_token p =>
      let u := loggedInUser email0 name0 access_token p in
      ({| user := Some u;
          isLoading := false;
          error := None;
          storage := {| learnloop_user := Some u; stored_token := Some access_token |};
          route := Some "/"%string |},
       (true, None))
  | _ =>
      let msg := match loginError a with Some m => m | None => ""%string end in
      ({| user := user st;
          isLoading := false;
          error := Some msg;
          storage := storage st;
          route := route st |},
       (false, Some msg))
  end.

(** [logout] *)
Definition logout (st : AuthState) : AuthState :=
  {| user := None;
     isLoading := isLoading st;
     error := error st;
     storage := {| learnloop_user := None; stored_token := None |};
     route := Some "/login"%string |}.

(** The provider after a page load: the mount effect restores the user
    from ["learnloop_user"] and clears [isLoading]. *)
Definition mount (s : Storage) : AuthState :=
  {| user := learnloop_user s;
     isLoading := false;
     error := None;
     storage := s;
     route := None |}.

(** How [POST /auth/register] ends. *)
Inductive SignupAnswer :=
| SignupThrew (message : string)
| SignupRefused (detail : option string)
| SignupAccepted.

(** [signup(email, password, name)]: the new state and the returned
    boolean.  The result of the inner [login] is not looked at. *)
Definition signup (email0 name0 : string) (sa : SignupAnswer) (la : LoginAnswer)
    (st : AuthState) : AuthState * bool :=
  match sa with
  | SignupThrew m =>
      ({| user := user st; isLoading := false; error := Some m;
          storage := storage st; route := route st |}, false)
  | SignupRefused d =>
      ({| user := user st; isLoading := false;
          error := Some (StatsContext.orText d "Signup failed");
          storage := storage st; route := route st |}, false)
  | SignupAccepted =>
      let st1 := fst (login email0 (Some name0) la st) in
      ({| user := user st1; isLoading := false; error := error st1;
          storage := storage st1; route := route st1 |}, true)
  end.

(** The signup page: what [handleSubmit] leaves behind. *)
Record SignupPage := mkSignupPage {
  isSubmitting : bool;
  alert : option string;
  auth : AuthState
}.

(** [handleSubmit] of the signup page.  [trim] stands for
    [String.prototype.trim]. *)
Definition handleSubmit (trim : string -> string)
    (firstName lastName email0 password confirmPassword : string)
    (sa : SignupAnswer) (la : LoginAnswer) (st : AuthState) : SignupPage :=
  if negb (String.eqb password confirmPassword)
  then {| isSubmitting := false; alert := Some "Passwords do not match!"%string;
          auth := st |}
  else
    let fullName := trim (firstName ++ " " ++ lastName)%string in
    let '(st', success) := signup email0 fullName sa la st in
    if success
    then {| isSubmitting := true; alert := None; auth := st' |}
    else {| isSubmitting := false;
            alert := Some "Signup failed! Please try again."%string;
            auth := st' |}.

(** Nobody is signed in and nothing is stored. *)
Definition signedOut : AuthState :=
  mount {| learnloop_user := None; stored_token := None |}.

End Auth.

(* ===================================================================== *)
(** * Theme and settings ([theme-context.tsx], the settings page) *)
(* ===================================================================== *)

Module Theme.

Local Open Scope string_scope.

(** [type Theme = "dark" | "light"] *)
Inductive Theme := light | dark.

Definition className (t : Theme) : string :=
  match t with light => "light" | dark => "dark" end.

Record ThemeState := mkTheme {
  theme : Theme;
  highContrast : bool
}.

(** The effect that applies the state to [document.documentElement]:
    [classList.remove("light", "dark")], [classList.add(theme)], then
    [add] or [remove] of ["high-contrast"]. *)
Definition applyToRoot (classes : gset string) (st : ThemeState) : gset string :=
  let themed := (classes ∖ {[ "light"; "dark" ]}) ∪ {[ className (theme st) ]} in
  if highContrast st
  then themed ∪ {[ "high-contrast" ]}
  else themed ∖ {[ "high-contrast" ]}.

(** [setThemeState(prev => prev === "dark" ? "light" : "dark")] *)
Definition toggleTheme (st : ThemeState) : ThemeState :=
  {| theme := match theme st with dark => light | light => dark end;
     highContrast := highContrast st |}.

(** The settings page's [updateSetting(key, value)] as far as the theme
    is concerned: [dark_mode] sets the theme, [high_contrast] the
    contrast, any other key neither. *)
Definition updateSetting (key : string) (value : bool) (st : ThemeState)
  : ThemeState :=
  if String.eqb key "dark_mode"
  then {| theme := if value then dark else light; highContrast := highContrast st |}
  else if String.eqb key "high_contrast"
  then {| theme := theme st; highContrast := value |}
  else st.

(** [useState<Theme>("light")], [useState<boolean>(false)] *)
Definition initial : ThemeState := {| theme := light; highContrast := false |}.

End Theme.

(* ===================================================================== *)
(** * Study rooms: the transcript feed and the socket address *)
(* ===================================================================== *)

Module RoomSession.

(** One [result] event of the recogniser: the transcript of its last
    result and whether that result is final. *)
Record Heard := mkHeard {
  transcript : string;
  isFinal : bool
}.

(** [setTranscriptFeed(prev => [transcript, ...prev].slice(0, 10))] *)
Definition pushTranscript (feed : list string) (t : string) : list string :=
  firstn 10 (t :: feed).

(** [recognition.onresult] on the feed. *)
Definition onresult (feed : list string) (h : Heard) : list string :=
  if isFinal h then pushTranscript feed (transcript h) else feed.

(** The feed after a sequence of events, starting empty. *)
Definition feedAfter (events : list Heard) : list string :=
  fold_left onresult events [].

(** The final transcripts of a sequence of events, oldest first. *)
Definition finals (events : list Heard) : list string :=
  map transcript (List.filter isFinal events).

End RoomSession.

Module Urls.

Local Open Scope string_scope.

(** Whether [s] begins with [p]. *)
Fixpoint startsWith (p s : string) : bool :=
  match p, s with
  | EmptyString, _ => true
  | String a p', String b s' => Ascii.eqb a b && startsWith p' s'
  | String _ _, EmptyString => false
  end.

(** [s] without its first [n] characters. *)
Fixpoint dropChars (n : nat) (s : string) : string :=
  match n, s with
  | O, _ => s
  | S n', String _ s' => dropChars n' s'
  | S _, EmptyString => EmptyString
  end.

(** [s.replace(pat, rep)] for a text pattern: the first occurrence of
    [pat] is replaced, and [s] is returned as it is when there is none. *)
Fixpoint replaceFirst (pat rep s : string) : string :=
  if startsWith pat s then rep ++ dropChars (String.length pat) s
  else
    match s with
    | EmptyString => EmptyString
    | String c s' => String c (replaceFirst pat rep s')
    end.

(** [(process.env.NEXT_PUBLIC_WS_URL || 'ws://localhost:8000').replace('http', 'ws')] *)
Definition wsBase (NEXT_PUBLIC_WS_URL : option string) : string :=
  replaceFirst "http" "ws"
    (StatsContext.orText NEXT_PUBLIC_WS_URL "ws://localhost:8000").

(** The socket address of a room: [`${base}/api/rooms/ws/${roomId}/${user.name}`] *)
Definition wsUrl (NEXT_PUBLIC_WS_URL : option string) (roomId userName : string)
  : string :=
  wsBase NEXT_PUBLIC_WS_URL ++ "/api/rooms/ws/" ++ roomId ++ "/" ++ userName.

(** Whether [pat] occurs somewhere in [s]. *)
Fixpoint contains (pat s : string) : bool :=
  startsWith pat s ||
  match s with
  | EmptyString => false
  | String _ s' => contains pat s'
  end.

End Urls.
(* ===================================================================== *)
(** * The knowledge map ([KnowledgeGraph]) *)
(* ===================================================================== *)

Module KnowledgeGraph.

Local Open Scope Q_scope.

(** [i % 2] of a node index. *)
Definition parity (i : nat) : Q := inject_Z (Z.of_nat (i mod 2)).

(** [const radiusX = 70 + (i % 2) * 15] *)
Definition radiusX (i : nat) : Q := 70 + parity i * 15.

(** [const radiusY = 30 + (i % 2) * 10] *)
Definition radiusY (i : nat) : Q := 30 + parity i * 10.

(** [const cx = 100 + Math.cos(angle) * radiusX]; [cosA] is the value of
    [Math.cos(angle)]. *)
Definition cx (i : nat) (cosA : Q) : Q := 100 + cosA * radiusX i.

(** [const cy = 100 + Math.sin(angle) * radiusY]; [sinA] is the value of
    [Math.sin(angle)]. *)
Definition cy (i : nat) (sinA : Q) : Q := 100 + sinA * radiusY i.

(** [const zScale = 0.7 + (Math.sin(angle) + 1) * 0.3] *)
Definition zScale (sinA : Q) : Q := (7 # 10) + (sinA + 1) * (3 # 10).

(** [const opacity = 0.4 + (Math.sin(angle) + 1) * 0.3] *)
Definition opacity (sinA : Q) : Q := (4 # 10) + (sinA + 1) * (3 # 10).

(** [r={(node.status === 'mastered' ? 5 : 3) * zScale}] *)
Definition r (mastered : bool) (sinA : Q) : Q :=
  (if mastered then 5 else 3) * zScale sinA.

(** [nodes.length < 15 && opacity > 0.7]: whether the node's label is
    drawn. *)
Definition labelShown (count : nat) (sinA : Q) : bool :=
  (count <? 15)%nat && negb (Qle_bool (opacity sinA) (7 # 10)).

(** [y={cy + 10}] of the label. *)
Definition labelY (i : nat) (sinA : Q) : Q := cy i sinA + 10.

End KnowledgeGraph.

(* ===================================================================== *)
(** * Properties of the buddy page's level *)
(* ===================================================================== *)

Section LevelFacts.

Import BuddyPage.

(** Euclidean division by 100, in the form [lia] can use. *)
Lemma div100_bounds (x : Z) : 100 * (x / 100) <= x < 100 * (x / 100) + 100.
Proof.
  pose proof (Z.mul_div_le x 100 ltac:(lia)).
  pose proof (Z.mul_succ_div_gt x 100 ltac:(lia)).
  lia.
Qed.

Lemma correctLevel_cases (x : Z) :
  (1 + x / 100 <= 1000 /\ correctLevel x = 1 + x / 100) \/
  (1000 < 1 + x / 100 /\ correctLevel x = 1000).
Proof. unfold correctLevel. lia. Qed.

Lemma correctLevel_le_cap (x : Z) : correctLevel x <= 1000.
Proof. unfold correctLevel. lia. Qed.

Lemma correctLevel_ge_1 (x : Z) : 0 <= x -> 1 <= correctLevel x.
Proof.
  intros Hx. pose proof (Z.div_pos x 100 Hx ltac:(lia)).
  unfold correctLevel. lia.
Qed.

End LevelFacts.

(** The level never goes down when the XP total goes up. *)
Lemma correctLevel_monotone (x y : Z) (Hxy : x <= y) :
  BuddyPage.correctLevel x <= BuddyPage.correctLevel y.
Proof.
  pose proof (Z.div_le_mono x y 100 ltac:(lia) Hxy).
  unfold BuddyPage.correctLevel. lia.
Qed.

Lemma correctLevel_monotone_witness :
  480 <= 730 /\ BuddyPage.correctLevel 480 <= BuddyPage.correctLevel 730.
Proof.
  split; [ lia | apply (correctLevel_monotone 480 730); lia ].
Defined.

(** Below the cap a level spans exactly 100 XP and the progress within it
    is the XP total modulo 100, so the bar is filled to less than 100 %. *)
Lemma xpProgress_below_cap (total_xp : Z) (Hxp : 0 <= total_xp < 99900) :
  BuddyPage.correctLevel total_xp = 1 + total_xp / 100 /\
  BuddyPage.xpRequiredForLevel total_xp = 100 /\
  BuddyPage.xpProgress total_xp = total_xp mod 100 /\
  BuddyPage.xpProgress total_xp < BuddyPage.xpRequiredForLevel total_xp.
Proof.
  pose proof (div100_bounds total_xp) as Hd.
  pose proof (Z.mod_pos_bound total_xp 100 ltac:(lia)) as Hm.
  pose proof (Z.div_mod total_xp 100 ltac:(lia)) as Hdm.
  assert (Hl : BuddyPage.correctLevel total_xp = 1 + total_xp / 100)
    by (unfold BuddyPage.correctLevel; lia).
  assert (Hr : BuddyPage.xpRequiredForLevel total_xp = 100).
  { unfold BuddyPage.xpRequiredForLevel, BuddyPage.nextLevelMinXP,
      BuddyPage.currentLevelMinXP. rewrite Hl.
    destruct (Z.leb_spec 1000 (1 + total_xp / 100)); lia. }
  assert (Hp : BuddyPage.xpProgress total_xp = total_xp mod 100).
  { unfold BuddyPage.xpProgress, BuddyPage.currentLevelMinXP. rewrite Hl. lia. }
  rewrite Hr, Hp. repeat split; try assumption; lia.
Qed.

Lemma xpProgress_below_cap_witness :
  0 <= 730 < 99900 /\
  (BuddyPage.correctLevel 730 = 1 + 730 / 100 /\
   BuddyPage.xpRequiredForLevel 730 = 100 /\
   BuddyPage.xpProgress 730 = 730 mod 100 /\
   BuddyPage.xpProgress 730 < BuddyPage.xpRequiredForLevel 730).
Proof.
  split; [ lia | apply (xpProgress_below_cap 730); lia ].
Defined.

(** C1 (counterexample).  The page does not use the tiered table: at 500 XP
    it shows level 6, not 2, and at 499 XP level 5, not 1; level 6 is not
    the largest level whose tiered threshold is at most 500. *)
Lemma C1_tiered_table_refuted :
  BuddyPage.correctLevel 500 = 6 /\ BuddyPage.correctLevel 500 <> 2 /\
  BuddyPage.correctLevel 499 = 5 /\ BuddyPage.correctLevel 499 <> 1 /\
  ~ TieredSpec.is_level 500 (BuddyPage.correctLevel 500).
Proof.
  repeat split; try reflexivity; try discriminate.
  intros (_ & Hth & _). vm_compute in Hth. apply Hth. reflexivity.
Qed.

(** C1 (amended).  For a non-negative XP total the level is the largest
    [n] between 1 and 1000 whose linear threshold [(n - 1) * 100] is at
    most the total; 500 XP is level 6 and 499 XP is level 5. *)
Theorem C1_level_is_largest_linear (total_xp : Z) (Hxp : 0 <= total_xp) :
  1 <= BuddyPage.correctLevel total_xp <= 1000 /\
  BuddyPage.linearThreshold (BuddyPage.correctLevel total_xp) <= total_xp /\
  (forall m, 1 <= m <= 1000 -> BuddyPage.linearThreshold m <= total_xp ->
             m <= BuddyPage.correctLevel total_xp) /\
  BuddyPage.correctLevel 500 = 6 /\ BuddyPage.correctLevel 499 = 5.
Proof.
  pose proof (div100_bounds total_xp) as Hd.
  pose proof (correctLevel_ge_1 total_xp Hxp) as H1.
  pose proof (correctLevel_le_cap total_xp) as Hcap.
  unfold BuddyPage.linearThreshold.
  destruct (correctLevel_cases total_xp) as [[Hle ->] | [Hgt ->]];
    repeat split; try reflexivity; try lia.
Qed.

Lemma C1_level_is_largest_linear_witness :
  0 <= 730 /\
  (1 <= BuddyPage.correctLevel 730 <= 1000 /\
   BuddyPage.linearThreshold (BuddyPage.correctLevel 730) <= 730 /\
   (forall m, 1 <= m <= 1000 -> BuddyPage.linearThreshold m <= 730 ->
              m <= BuddyPage.correctLevel 730) /\
   BuddyPage.correctLevel 500 = 6 /\ BuddyPage.correctLevel 499 = 5).
Proof.
  split; [ lia | apply (C1_level_is_largest_linear 730); lia ].
Defined.

(** C9.  For a non-negative XP total the progress shown on the buddy page
    is well defined: [xpProgress] is not negative, [xpRequiredForLevel] is
    at least 1, the level is at most 1000, and at level 1000 the progress
    bar is given exactly 100. *)
Theorem C9_xp_progress_well_defined (total_xp : Z) (Hxp : 0 <= total_xp) :
  0 <= BuddyPage.xpProgress total_xp /\
  1 <= BuddyPage.xpRequiredForLevel total_xp /\
  BuddyPage.correctLevel total_xp <= 1000 /\
  (BuddyPage.correctLevel total_xp = 1000 ->
   BuddyPage.progressValue total_xp = inject_Z 100).
Proof.
  repeat split.
  - unfold BuddyPage.xpProgress. lia.
  - unfold BuddyPage.xpRequiredForLevel. lia.
  - apply correctLevel_le_cap.
  - intros Hmax. unfold BuddyPage.progressValue. rewrite Hmax. reflexivity.
Qed.

Lemma C9_xp_progress_well_defined_witness :
  0 <= 123456 /\
  (0 <= BuddyPage.xpProgress 123456 /\
   1 <= BuddyPage.xpRequiredForLevel 123456 /\
   BuddyPage.correctLevel 123456 <= 1000 /\
   (BuddyPage.correctLevel 123456 = 1000 ->
    BuddyPage.progressValue 123456 = inject_Z 100)).
Proof.
  split; [ lia | apply (C9_xp_progress_well_defined 123456); lia ].
Defined.

(* ===================================================================== *)
(** * Properties of the stats provider *)
(* ===================================================================== *)

Section ProviderFacts.

Import StatsContext.

(** The title of a level, by range. *)
Lemma getLevelTitle_ranges (lvl : Z) :
  (lvl < 4 /\ getLevelTitle lvl = "Seedling"%string) \/
  (4 <= lvl < 8 /\ getLevelTitle lvl = "Sprout"%string) \/
  (8 <= lvl < 13 /\ getLevelTitle lvl = "Teenager"%string) \/
  (13 <= lvl < 17 /\ getLevelTitle lvl = "Expert"%string) \/
  (17 <= lvl /\ getLevelTitle lvl = "Master"%string).
Proof.
  unfold getLevelTitle.
  destruct (Z.ltb_spec lvl 4); [ left; split; [ lia | reflexivity ] | right ].
  destruct (Z.ltb_spec lvl 8); [ left; split; [ lia | reflexivity ] | right ].
  destruct (Z.ltb_spec lvl 13); [ left; split; [ lia | reflexivity ] | right ].
  destruct (Z.ltb_spec lvl 17); [ left; split; [ lia | reflexivity ] | right ].
  split; [ lia | reflexivity ].
Qed.

(** Membership in each of the four guarded notification lists. *)
Lemma in_xpRise (prev new : Stats) (n : Notification) :
  In n (xpRise prev new) <->
  total_xp prev < total_xp new /\ n = XpGained (total_xp new - total_xp prev).
Proof.
  unfold xpRise. destruct (Z.ltb_spec (total_xp prev) (total_xp new)); simpl.
  - split; [ intros [<- | []]; auto | intros [_ ->]; auto ].
  - split; [ intros [] | intros [Hlt _]; lia ].
Qed.

Lemma in_levelRise (prev new : Stats) (n : Notification) :
  In n (levelRise prev new) <->
  level prev < level new /\ n = LevelUp (level new).
Proof.
  unfold levelRise. destruct (Z.ltb_spec (level prev) (level new)); simpl.
  - split; [ intros [<- | []]; auto | intros [_ ->]; auto ].
  - split; [ intros [] | intros [Hlt _]; lia ].
Qed.

Lemma in_streakRise (prev new : Stats) (n : Notification) :
  In n (streakRise prev new) <->
  streak_days prev < streak_days new /\ n = StreakRise (streak_days new).
Proof.
  unfold streakRise.
  destruct (Z.ltb_spec (streak_days prev) (streak_days new)); simpl.
  - split; [ intros [<- | []]; auto | intros [_ ->]; auto ].
  - split; [ intros [] | intros [Hlt _]; lia ].
Qed.

Lemma in_evolutionRise (prev new : Stats) (n : Notification) :
  In n (evolutionRise prev new) <->
  getLevelTitle (level prev) <> getLevelTitle (level new) /\
  level prev < level new /\
  n = EvolutionPath (getLevelTitle (level new)).
Proof.
  unfold evolutionRise.
  destruct (String.eqb_spec (getLevelTitle (level prev)) (getLevelTitle (level new)))
    as [Heq | Hne];
    destruct (Z.ltb_spec (level prev) (level new)); simpl.
  - split; [ intros [] | intros (Hd & _); contradiction ].
  - split; [ intros [] | intros (Hd & _); contradiction ].
  - split; [ intros [<- | []]; auto | intros (_ & _ & ->); auto ].
  - split; [ intros [] | intros (_ & Hlt & _); lia ].
Qed.

(** An evolution notification can only come from the third guard. *)
Lemma in_compareStats_evolution (prev new : Stats) (t : string) :
  In (EvolutionPath t) (compareStats prev new) <->
  getLevelTitle (level prev) <> getLevelTitle (level new) /\
  level prev < level new /\ t = getLevelTitle (level new).
Proof.
  unfold compareStats. rewrite !in_app_iff.
  rewrite in_xpRise, in_levelRise, in_evolutionRise, in_streakRise.
  split.
  - intros [(_ & Hx) | [(_ & Hx) | [(Hd & Hl & Hx) | (_ & Hx)]]];
      try discriminate Hx.
    injection Hx as ->. auto.
  - intros (Hd & Hl & ->). right. right. left. auto.
Qed.

(** An XP notification can only come from the first guard. *)
Lemma in_compareStats_xp (prev new : Stats) (d : Z) :
  In (XpGained d) (compareStats prev new) <->
  total_xp prev < total_xp new /\ d = total_xp new - total_xp prev.
Proof.
  unfold compareStats. rewrite !in_app_iff.
  rewrite in_xpRise, in_levelRise, in_evolutionRise, in_streakRise.
  split.
  - intros [(Hl & Hx) | [(_ & Hx) | [(_ & _ & Hx) | (_ & Hx)]]];
      try discriminate Hx.
    injection Hx as ->. auto.
  - intros (Hl & ->). left. auto.
Qed.

Lemma polls_from (history : list FetchResult) (acc : option ProfileData) :
  fold_left poll history (providerOf acc) = providerOf (lastFetched history acc).
Proof.
  revert acc. induction history as [| r rest IH]; intros acc; [ reflexivity | ].
  destruct r as [ | | | d]; cbn [fold_left lastFetched].
  - apply IH.
  - apply IH.
  - apply IH.
  - replace (poll (providerOf acc) (Fetched d)) with (providerOf (Some d)).
    + apply IH.
    + unfold poll. destruct acc; reflexivity.
Qed.

Lemma afterPolls_last (history : list FetchResult) :
  afterPolls history = providerOf (lastFetched history None).
Proof. apply (polls_from history None). Qed.

End ProviderFacts.

(** C2 (counterexample).  The title of a level is not the five-stage table
    of the specification: level 3 is still a Seedling (not a Sprout),
    levels 5 and 7 are Sprouts (not Sapling, not Tree), and level 10 is a
    Teenager (not Master). *)
Lemma C2_stage_table_refuted :
  StatsContext.getLevelTitle 3 = "Seedling"%string /\
  StatsContext.getLevelTitle 3 <> "Sprout"%string /\
  StatsContext.getLevelTitle 5 = "Sprout"%string /\
  StatsContext.getLevelTitle 5 <> "Sapling"%string /\
  StatsContext.getLevelTitle 7 <> "Tree"%string /\
  StatsContext.getLevelTitle 10 = "Teenager"%string /\
  StatsContext.getLevelTitle 10 <> "Master"%string.
Proof. repeat split; try reflexivity; discriminate. Qed.

(** C2 (amended).  Levels below 4 are titled Seedling, levels 4 to 7 Sprout,
    levels 8 to 12 Teenager, levels 13 to 16 Expert, and level 17 and above
    Master; the title that the context publishes depends on the level alone. *)
Theorem C2_level_title_table (lvl : Z) :
  (lvl < 4 -> StatsContext.getLevelTitle lvl = "Seedling"%string) /\
  (4 <= lvl < 8 -> StatsContext.getLevelTitle lvl = "Sprout"%string) /\
  (8 <= lvl < 13 -> StatsContext.getLevelTitle lvl = "Teenager"%string) /\
  (13 <= lvl < 17 -> StatsContext.getLevelTitle lvl = "Expert"%string) /\
  (17 <= lvl -> StatsContext.getLevelTitle lvl = "Master"%string) /\
  (forall p q : StatsContext.Provider,
      StatsContext.level (StatsContext.stats p) = lvl ->
      StatsContext.level (StatsContext.stats q) = lvl ->
      StatsContext.levelTitle p = StatsContext.levelTitle q).
Proof.
  destruct (getLevelTitle_ranges lvl)
    as [[H ->] | [[H ->] | [[H ->] | [[H ->] | [H ->]]]]];
    repeat split; intros; try reflexivity; try lia.
  all: unfold StatsContext.levelTitle; congruence.
Qed.

(** C3 (counterexample).  After the award the client's level is not 2 and
    the titles before and after are not Seedling and Sprout.  And for a
    profile whose level does go from 1 to 2, both levels are titled
    Seedling, so the poll raises no evolution notification at all. *)
Lemma C3_mastery_scenario_refuted :
  ~ (BuddyPage.correctLevel MasteryScenario.xpAfter = 2 /\
     StatsContext.getLevelTitle (BuddyPage.correctLevel MasteryScenario.xpBefore)
       = "Seedling"%string /\
     StatsContext.getLevelTitle (BuddyPage.correctLevel MasteryScenario.xpAfter)
       = "Sprout"%string) /\
  StatsContext.getLevelTitle 1 = StatsContext.getLevelTitle 2 /\
  filter StatsContext.isEvolution MasteryScenario.tieredNotes = [].
Proof.
  split; [ | split; reflexivity ].
  intros (Hlvl & _). vm_compute in Hlvl. discriminate Hlvl.
Qed.

(** C3 (amended).  The award is 150 + 50 + 50 = 250 XP and takes the total
    from 480 to 730; the level that the buddy page derives from the total
    goes from 5 to 8.  The title and the notifications follow the level
    that the server sends with each profile: whatever those two levels
    are, the poll that sees the new total raises exactly one XP
    notification, for 250, and it raises one evolution notification, for
    the title of the new level, when the new level is above the old one
    and has another title, and none otherwise.  So with the levels 1 and
    2 no evolution notification is raised, and with the levels 5 and 8
    exactly one, for Teenager. *)
Theorem C3_mastery_scenario_on_client
    (history : list StatsContext.FetchResult)
    (before after : StatsContext.ProfileData)
    (Hlast : StatsContext.lastFetched history None = Some before)
    (Hbefore : StatsContext.data_total_xp before = MasteryScenario.xpBefore)
    (Hafter : StatsContext.data_total_xp after = MasteryScenario.xpAfter) :
  GamificationSpec.baseXP GamificationSpec.topic_mastered = 150 /\
  GamificationSpec.streakBonus 5 = 50 /\
  GamificationSpec.perfectBonus true = 50 /\
  MasteryScenario.delta = 250 /\
  MasteryScenario.xpAfter = 730 /\
  BuddyPage.correctLevel MasteryScenario.xpBefore = 5 /\
  BuddyPage.correctLevel MasteryScenario.xpAfter = 8 /\
  List.filter MasteryScenario.isXpGained
    (snd (StatsContext.fetchStats (StatsContext.Fetched after)
            (StatsContext.afterPolls history)))
    = [StatsContext.XpGained 250] /\
  List.filter StatsContext.isEvolution
    (snd (StatsContext.fetchStats (StatsContext.Fetched after)
            (StatsContext.afterPolls history)))
    = (if (StatsContext.data_level before <? StatsContext.data_level after)
          && negb (String.eqb
                     (StatsContext.getLevelTitle (StatsContext.data_level before))
                     (StatsContext.getLevelTitle (StatsContext.data_level after)))
       then [StatsContext.EvolutionPath
               (StatsContext.getLevelTitle (StatsContext.data_level after))]
       else []) /\
  (StatsContext.data_level before = 1 -> StatsContext.data_level after = 2 ->
   List.filter StatsContext.isEvolution
     (snd (StatsContext.fetchStats (StatsContext.Fetched after)
             (StatsContext.afterPolls history))) = []) /\
  (StatsContext.data_level before = 5 -> StatsContext.data_level after = 8 ->
   List.filter StatsContext.isEvolution
     (snd (StatsContext.fetchStats (StatsContext.Fetched after)
             (StatsContext.afterPolls history)))
     = [StatsContext.EvolutionPath "Teenager"]).
Proof.
  assert (Hevo :
    List.filter StatsContext.isEvolution
      (snd (StatsContext.fetchStats (StatsContext.Fetched after)
              (StatsContext.afterPolls history)))
    = (if (StatsContext.data_level before <? StatsContext.data_level after)
          && negb (String.eqb
                     (StatsContext.getLevelTitle (StatsContext.data_level before))
                     (StatsContext.getLevelTitle (StatsContext.data_level after)))
       then [StatsContext.EvolutionPath
               (StatsContext.getLevelTitle (StatsContext.data_level after))]
       else [])).
  { rewrite afterPolls_last, Hlast. cbn [StatsContext.fetchStats StatsContext.providerOf
      StatsContext.isFirstLoad StatsContext.lastStatsRef snd].
    unfold StatsContext.compareStats, StatsContext.xpRise, StatsContext.levelRise,
      StatsContext.evolutionRise, StatsContext.streakRise.
    cbn [StatsContext.newStatsOf StatsContext.level StatsContext.total_xp
         StatsContext.streak_days].
    rewrite !List.filter_app.
    destruct (StatsContext.data_total_xp before <? StatsContext.data_total_xp after);
      destruct (StatsContext.data_level before <? StatsContext.data_level after);
      destruct (String.eqb
                  (StatsContext.getLevelTitle (StatsContext.data_level before))
                  (StatsContext.getLevelTitle (StatsContext.data_level after)));
      destruct (StatsContext.data_streak_days before
                <? StatsContext.data_streak_days after);
      reflexivity. }
  split; [ reflexivity | ]. split; [ reflexivity | ]. split; [ reflexivity | ].
  split; [ reflexivity | ]. split; [ reflexivity | ]. split; [ reflexivity | ].
  split; [ reflexivity | ].
  split; [ | split; [ exact Hevo | split ] ].
  - rewrite afterPolls_last, Hlast. cbn [StatsContext.fetchStats StatsContext.providerOf
      StatsContext.isFirstLoad StatsContext.lastStatsRef snd].
    unfold StatsContext.compareStats, StatsContext.xpRise, StatsContext.levelRise,
      StatsContext.evolutionRise, StatsContext.streakRise.
    cbn [StatsContext.newStatsOf StatsContext.level StatsContext.total_xp
         StatsContext.streak_days].
    rewrite Hbefore, Hafter. rewrite !List.filter_app.
    change (MasteryScenario.xpBefore <? MasteryScenario.xpAfter) with true.
    change (MasteryScenario.xpAfter - MasteryScenario.xpBefore) with 250.
    destruct (StatsContext.data_level before <? StatsContext.data_level after);
      destruct (negb (String.eqb
                  (StatsContext.getLevelTitle (StatsContext.data_level before))
                  (StatsContext.getLevelTitle (StatsContext.data_level after))));
      destruct (StatsContext.data_streak_days before
                <? StatsContext.data_streak_days after);
      reflexivity.
  - intros H1 H2. rewrite Hevo, H1, H2. reflexivity.
  - intros H5 H8. rewrite Hevo, H5, H8. reflexivity.
Qed.

Lemma C3_mastery_scenario_on_client_witness :
  StatsContext.lastFetched
    [StatsContext.Fetched (MasteryScenario.profile 5 480)] None
    = Some (MasteryScenario.profile 5 480) /\
  List.filter StatsContext.isEvolution
    (snd (StatsContext.fetchStats
            (StatsContext.Fetched (MasteryScenario.profile 8 730))
            (StatsContext.afterPolls
               [StatsContext.Fetched (MasteryScenario.profile 5 480)])))
    = [StatsContext.EvolutionPath "Teenager"] /\
  List.filter StatsContext.isEvolution
    (snd (StatsContext.fetchStats
            (StatsContext.Fetched (MasteryScenario.profile 2 730))
            (StatsContext.afterPolls
               [StatsContext.Fetched (MasteryScenario.profile 1 480)])))
    = [].
Proof.
  split; [ reflexivity | ]. split.
  - exact (proj2 (proj2 (proj2 (proj2 (proj2 (proj2 (proj2 (proj2 (proj2 (proj2
      (C3_mastery_scenario_on_client
         [StatsContext.Fetched (MasteryScenario.profile 5 480)]
         (MasteryScenario.profile 5 480) (MasteryScenario.profile 8 730)
         eq_refl eq_refl eq_refl)))))))))) eq_refl eq_refl).
  - exact (proj1 (proj2 (proj2 (proj2 (proj2 (proj2 (proj2 (proj2 (proj2 (proj2
      (C3_mastery_scenario_on_client
         [StatsContext.Fetched (MasteryScenario.profile 1 480)]
         (MasteryScenario.profile 1 480) (MasteryScenario.profile 2 730)
         eq_refl eq_refl eq_refl)))))))))) eq_refl eq_refl).
Defined.

(** C4.  A poll raises an evolution notification only when it compared the
    fetched profile with a previously fetched one and the title of the new
    level differs from the title of the previous level (the level having
    risen); and when the two titles are the same, the poll raises no
    evolution notification. *)
Theorem C4_evolution_only_on_title_change
    (p : StatsContext.Provider) (r : StatsContext.FetchResult) :
  (forall t,
      In (StatsContext.EvolutionPath t) (snd (StatsContext.fetchStats r p)) ->
      exists prev data,
        r = StatsContext.Fetched data /\
        StatsContext.lastStatsRef p = Some prev /\
        StatsContext.isFirstLoad p = false /\
        StatsContext.getLevelTitle (StatsContext.level prev)
          <> StatsContext.getLevelTitle (StatsContext.data_level data) /\
        StatsContext.level prev < StatsContext.data_level data /\
        t = StatsContext.getLevelTitle (StatsContext.data_level data)) /\
  (forall prev data,
      r = StatsContext.Fetched data ->
      StatsContext.lastStatsRef p = Some prev ->
      StatsContext.getLevelTitle (StatsContext.level prev)
        = StatsContext.getLevelTitle (StatsContext.data_level data) ->
      forall t,
        ~ In (StatsContext.EvolutionPath t) (snd (StatsContext.fetchStats r p))).
Proof.
  assert (Honly : forall t,
      In (StatsContext.EvolutionPath t) (snd (StatsContext.fetchStats r p)) ->
      exists prev data,
        r = StatsContext.Fetched data /\
        StatsContext.lastStatsRef p = Some prev /\
        StatsContext.isFirstLoad p = false /\
        StatsContext.getLevelTitle (StatsContext.level prev)
          <> StatsContext.getLevelTitle (StatsContext.data_level data) /\
        StatsContext.level prev < StatsContext.data_level data /\
        t = StatsContext.getLevelTitle (StatsContext.data_level data)).
  { intros t Hfires.
    destruct r as [ | | | data]; simpl in Hfires; try contradiction.
    destruct (StatsContext.isFirstLoad p) eqn:Hfirst; [ contradiction | ].
    destruct (StatsContext.lastStatsRef p) as [prev |] eqn:Hprev; [ | contradiction ].
    apply in_compareStats_evolution in Hfires. simpl in Hfires.
    destruct Hfires as (Hd & Hl & ->).
    exists prev, data. repeat split; auto. }
  split; [ exact Honly | ].
  intros prev data -> Hprev Hsame t Hfires.
  destruct (Honly t Hfires) as (prev' & data' & Hr & Hprev' & _ & Hdiff & _).
  injection Hr as <-. rewrite Hprev in Hprev'. injection Hprev' as <-.
  contradiction.
Qed.

Lemma C4_evolution_only_on_title_change_witness :
  In (StatsContext.EvolutionPath "Teenager")
     (snd (StatsContext.fetchStats
             (StatsContext.Fetched (MasteryScenario.profile 8 730))
             (StatsContext.afterPolls
                [StatsContext.Fetched (MasteryScenario.profile 5 480)]))) /\
  StatsContext.getLevelTitle 5 <> StatsContext.getLevelTitle 8.
Proof.
  assert (Hin : In (StatsContext.EvolutionPath "Teenager")
     (snd (StatsContext.fetchStats
             (StatsContext.Fetched (MasteryScenario.profile 8 730))
             (StatsContext.afterPolls
                [StatsContext.Fetched (MasteryScenario.profile 5 480)])))).
  { vm_compute. right. right. left. reflexivity. }
  split; [ exact Hin | ].
  destruct (proj1 (C4_evolution_only_on_title_change _ _) _ Hin)
    as (prev & data & Hr & Hprev & _ & Hdiff & _).
  injection Hr as <-. vm_compute in Hprev. injection Hprev as <-.
  exact Hdiff.
Defined.

(** C8.  Take any history of polls and one more successful fetch.  If no
    fetch of the history succeeded, the new fetch raises no notification.
    Otherwise an XP notification for [d] is raised exactly when the new
    total is strictly above the total of the last successful fetch and [d]
    is the difference of the two totals. *)
Theorem C8_xp_notification_iff_rise
    (history : list StatsContext.FetchResult) (data : StatsContext.ProfileData) :
  (StatsContext.lastFetched history None = None ->
   snd (StatsContext.fetchStats (StatsContext.Fetched data)
          (StatsContext.afterPolls history)) = []) /\
  (forall prev, StatsContext.lastFetched history None = Some prev ->
   forall d,
     In (StatsContext.XpGained d)
        (snd (StatsContext.fetchStats (StatsContext.Fetched data)
                (StatsContext.afterPolls history)))
     <-> (StatsContext.data_total_xp prev < StatsContext.data_total_xp data /\
          d = StatsContext.data_total_xp data - StatsContext.data_total_xp prev)).
Proof.
  rewrite afterPolls_last. split.
  - intros ->. reflexivity.
  - intros prev -> d. simpl. apply in_compareStats_xp.
Qed.

(* ===================================================================== *)
(** * Properties of the confusion score *)
(* ===================================================================== *)

Section ConfusionFacts.

Import ConfusionSpec.
Local Open Scope Q_scope.






Variable deviation : Q -> Q -> Q.
Hypothesis deviation_range :
  forall t b, 0 <= deviation t b /\ deviation t b <= 1.
Hypothesis deviation_respects :
  forall t t' b b', t == t' -> b == b' -> deviation t b == deviation t' b'.



End ConfusionFacts.



(* ===================================================================== *)
(** * Properties of the failure messages *)
(* ===================================================================== *)

Section ChatFacts.
Import ChatErrors.

(** A failed request always ends in a text composed by the client: the
    breather text when the 429 branch could read the wait time, the
    generic text otherwise. *)
Lemma failure_messages (o : ChatOutcome) :
  failed o = true ->
  handleSubmit o =
    Failure (match (if rateLimited o then waitTime (bodyOf o) else None) with
             | Some w => chatBreather w
             | None => chatGeneric
             end) /\
  handleUserSpeech o =
    Failure (match (if rateLimited o then waitTime (bodyOf o) else None) with
             | Some w => voiceBreather w
             | None => voiceGeneric
             end).
Proof.
  destruct o as [| ok status body]; [ split; reflexivity | ].
  destruct ok; simpl.
  - destruct body; try discriminate. split; reflexivity.
  - intros _. destruct (status =? 429)%Z; [ | split; reflexivity ].
    destruct (waitTime body); split; reflexivity.
Qed.

(** A number is shown as its decimal numeral. *)
Lemma toText_numeral (n : Z) : numeral (toText (JNum n)) = Some n.
Proof.
  unfold numeral, toText. rewrite NilZero.isi.
  - cbn [option_map]. f_equal. apply DecimalZ.of_to.
  - destruct n as [| q | q]; cbn [Z.to_int]; try discriminate.
    intros E. injection E as E. exact (DecimalPos.Unsigned.to_uint_nonnil q E).
  - destruct n as [| q | q]; cbn [Z.to_int]; try discriminate.
    intros E. injection E as E. exact (DecimalPos.Unsigned.to_uint_nonnil q E).
Qed.

(** The text of a truthy value is not empty. *)
Lemma truthy_text (v : JsVal) : truthy v = true -> toText v <> "".
Proof.
  destruct v as [| | [|] | n | t]; cbn [truthy]; intros Hv; try discriminate.
  - intros E. pose proof (toText_numeral n) as Hn. rewrite E in Hn. discriminate Hn.
  - cbn [toText]. destruct (String.eqb_spec t ""); [ discriminate Hv | assumption ].
Qed.

End ChatFacts.

(** C6 (counterexample).  A rate-limited request is a failed request whose
    message is not the generic one: it spells out the [retry_after] value
    of the response, so two 429 answers with different [retry_after] give
    different messages, and a 429 answer reads differently from a 503. *)
Lemma C6_retry_after_is_shown :
  ChatErrors.failed ChatErrors.rateLimited30 = true /\
  ChatErrors.handleSubmit ChatErrors.rateLimited30 =
    ChatErrors.Failure
      "Hey! I need a short breather 😊 I've been chatting a lot! Let's continue in about 30 seconds. Take a moment to review what we've discussed!" /\
  ChatErrors.handleUserSpeech ChatErrors.rateLimited30 =
    ChatErrors.Failure
      "I need a short breather! Let's continue in about 30 seconds." /\
  ChatErrors.handleSubmit ChatErrors.rateLimited30
    <> ChatErrors.handleSubmit ChatErrors.rateLimited45 /\
  ChatErrors.handleSubmit ChatErrors.rateLimited30
    <> ChatErrors.handleSubmit ChatErrors.providerDown.
Proof.
  repeat split; try reflexivity; vm_compute; discriminate.
Qed.

(** C6 (amended).  For a failed request that is not a 429 answer, the chat
    window and the voice avatar each show their fixed generic try-again
    text.  For a 429 answer each shows its fixed "short breather" text
    with the wait time filled in: the [retry_after] of the response body
    when that is truthy, and 60 when it is falsy or absent or when the
    body cannot be parsed; a number is written as its decimal numeral.
    (A 429 answer whose body is the JSON value [null] ends in the generic
    text.)  Nothing else of the failure reaches
    the message: two failures that agree on being a 429 answer and on the
    wait time are shown identically, whatever their status code and
    provider detail. *)
Theorem C6_failure_message_content
    (o : ChatErrors.ChatOutcome) (Hfailed : ChatErrors.failed o = true) :
  (ChatErrors.rateLimited o = false ->
   ChatErrors.handleSubmit o = ChatErrors.Failure ChatErrors.chatGeneric /\
   ChatErrors.handleUserSpeech o = ChatErrors.Failure ChatErrors.voiceGeneric) /\
  (ChatErrors.rateLimited o = true ->
   (forall b,
       ChatErrors.bodyOf o = ChatErrors.Fields b ->
       ChatErrors.truthy (ChatErrors.retry_after b) = true ->
       ChatErrors.handleSubmit o
         = ChatErrors.Failure (ChatErrors.chatBreather (ChatErrors.retry_after b)) /\
       ChatErrors.handleUserSpeech o
         = ChatErrors.Failure (ChatErrors.voiceBreather (ChatErrors.retry_after b))) /\
   ((ChatErrors.bodyOf o = ChatErrors.Unparsable \/
     exists b, ChatErrors.bodyOf o = ChatErrors.Fields b /\
               ChatErrors.truthy (ChatErrors.retry_after b) = false) ->
    ChatErrors.handleSubmit o
      = ChatErrors.Failure (ChatErrors.chatBreather (ChatErrors.JNum 60)) /\
    ChatErrors.handleUserSpeech o
      = ChatErrors.Failure (ChatErrors.voiceBreather (ChatErrors.JNum 60))) /\
   (ChatErrors.bodyOf o = ChatErrors.JsonNull ->
    ChatErrors.handleSubmit o = ChatErrors.Failure ChatErrors.chatGeneric /\
    ChatErrors.handleUserSpeech o = ChatErrors.Failure ChatErrors.voiceGeneric)) /\
  (forall w : ChatErrors.JsVal,
      ChatErrors.chatBreather w
        = ("Hey! I need a short breather 😊 I've been chatting a lot! Let's continue in about "
           ++ ChatErrors.toText w
           ++ " seconds. Take a moment to review what we've discussed!")%string /\
      ChatErrors.voiceBreather w
        = ("I need a short breather! Let's continue in about "
           ++ ChatErrors.toText w ++ " seconds.")%string) /\
  (forall n : Z,
      ChatErrors.numeral (ChatErrors.toText (ChatErrors.JNum n)) = Some n) /\
  (forall t : string, ChatErrors.toText (ChatErrors.JStr t) = t) /\
  (forall o', ChatErrors.failed o' = true ->
      ChatErrors.rateLimited o' = ChatErrors.rateLimited o ->
      ChatErrors.waitTime (ChatErrors.bodyOf o') = ChatErrors.waitTime (ChatErrors.bodyOf o) ->
      ChatErrors.handleSubmit o' = ChatErrors.handleSubmit o /\
      ChatErrors.handleUserSpeech o' = ChatErrors.handleUserSpeech o).
Proof.
  destruct (failure_messages o Hfailed) as [Hchat Hvoice].
  split; [ | split; [ | split; [ | split; [ | split ] ] ] ].
  - intros Hr. rewrite Hr in Hchat, Hvoice. split; assumption.
  - intros Hr. rewrite Hr in Hchat, Hvoice.
    split; [ | split ].
    + intros b Hb Ht. rewrite Hb in Hchat, Hvoice.
      unfold ChatErrors.waitTime, ChatErrors.jsOr in Hchat, Hvoice.
      rewrite Ht in Hchat, Hvoice. split; assumption.
    + intros [Hb | (b & Hb & Ht)]; rewrite Hb in Hchat, Hvoice.
      * split; assumption.
      * unfold ChatErrors.waitTime, ChatErrors.jsOr in Hchat, Hvoice.
        rewrite Ht in Hchat, Hvoice. split; assumption.
    + intros Hb. rewrite Hb in Hchat, Hvoice. split; assumption.
  - intros w. split; reflexivity.
  - apply toText_numeral.
  - reflexivity.
  - intros o' Hf' Hr Hw.
    destruct (failure_messages o' Hf') as [Hchat' Hvoice'].
    rewrite Hchat, Hvoice, Hchat', Hvoice', Hr, Hw. split; reflexivity.
Qed.

Lemma C6_failure_message_content_witness :
  ChatErrors.failed ChatErrors.providerDown = true /\
  ChatErrors.handleSubmit ChatErrors.providerDown
    = ChatErrors.Failure ChatErrors.chatGeneric /\
  ChatErrors.handleUserSpeech ChatErrors.providerDown
    = ChatErrors.Failure ChatErrors.voiceGeneric.
Proof.
  split; [ reflexivity | ].
  exact (proj1 (C6_failure_message_content ChatErrors.providerDown eq_refl) eq_refl).
Defined.

(* ===================================================================== *)
(** * Properties of the voice loop *)
(* ===================================================================== *)

Section VoiceFacts.
Import VoiceLoop.

(** While [isProcessingRef] is set, [handleUserSpeech] does nothing. *)
Lemma handleUserSpeech_guard (s : Voice) :
  isProcessingRef s = true -> handleUserSpeech s = s.
Proof.
  intros Hp. unfold handleUserSpeech. rewrite Hp, orb_true_r. reflexivity.
Qed.

(** Nor does [startListening] switch the recogniser on. *)
Lemma startListening_guard (s : Voice) :
  isProcessingRef s = true -> startListening s = s.
Proof.
  intros Hp. unfold startListening. rewrite Hp, orb_true_r.
  destruct (hasRecognition s); reflexivity.
Qed.

(** So a recognition result that arrives meanwhile starts no request. *)
Lemma result_while_processing (s s' : Voice) :
  isProcessingRef s = true -> step RecognitionResult s = Some s' ->
  pending s' = pending s /\ isProcessingRef s' = true.
Proof.
  intros Hp Hstep. unfold step in Hstep.
  destruct (recognition s); try discriminate Hstep.
  injection Hstep as <-. unfold onresult.
  rewrite handleUserSpeech_guard; [ split; [ reflexivity | exact Hp ] | exact Hp ].
Qed.

End VoiceFacts.

(** C7 (the code at the failing trace).  After the first nine events one
    chat request is in flight and [isProcessingRef] is set.  The end of the
    error message of the previous, failed turn then clears
    [isProcessingRef] although that request is still in flight, and the
    next utterance passes the guard: at the end of the trace two chat
    requests are in flight, both for the same (absent) session id. *)
Theorem C7_two_chat_requests_in_flight :
  option_map (fun s => (VoiceLoop.isProcessingRef s, VoiceLoop.inFlight s))
    (VoiceLoop.run (firstn 9 VoiceLoop.overlappingTrace) VoiceLoop.mounted)
    = Some (true, [None]) /\
  option_map (fun s => (VoiceLoop.isProcessingRef s, VoiceLoop.inFlight s))
    (VoiceLoop.run (firstn 10 VoiceLoop.overlappingTrace) VoiceLoop.mounted)
    = Some (false, [None]) /\
  option_map VoiceLoop.inFlight
    (VoiceLoop.run VoiceLoop.overlappingTrace VoiceLoop.mounted)
    = Some [None; None].
Proof. repeat split; reflexivity. Qed.

(* ===================================================================== *)
(** * Properties of the stage progress *)
(* ===================================================================== *)

Section MaterialFacts.
Import Materials.
Local Open Scope string_scope.

(** The map read key by key. *)
Lemma stageMap_lookup (stage : string) :
  stageMap !! stage =
    if decide (stage = "uploaded") then Some 0%Z
    else if decide (stage = "buddy_taught") then Some 33%Z
    else if decide (stage = "user_taught") then Some 66%Z
    else if decide (stage = "mastered") then Some 100%Z
    else None.
Proof.
  unfold stageMap. cbn [list_to_map foldr fst snd].
  repeat case_decide; subst; simplify_map_eq; reflexivity.
Qed.

(** A stage text that is no key of the literal and names no member of
    [Object.prototype] reads 0. *)
Lemma getStageProgress_other (stage : string) :
  stage <> "buddy_taught" -> stage <> "user_taught" -> stage <> "mastered" ->
  JsObject.inherited stage = false ->
  getStageProgress stage = Percent 0.
Proof.
  intros H1 H2 H3 Hown. unfold getStageProgress, JsObject.get.
  rewrite stageMap_lookup, Hown.
  repeat case_decide; subst; try contradiction; reflexivity.
Qed.

(** A stage text that names a member of [Object.prototype] reads that
    member. *)
Lemma getStageProgress_inherited (stage : string) :
  JsObject.inherited stage = true ->
  getStageProgress stage = PrototypeMember stage.
Proof.
  intros Hin. unfold getStageProgress, JsObject.get.
  rewrite stageMap_lookup, Hin.
  repeat case_decide; subst; try discriminate Hin; reflexivity.
Qed.

(** Adding a stage that reads 0 changes nothing. *)
Lemma add_zero (sum : Sum) : add sum (Percent 0) = sum.
Proof. destruct sum as [a |]; cbn; [ rewrite Z.add_0_r | ]; reflexivity. Qed.

(** Once the accumulator is a text it stays one. *)
Lemma fold_concatenated (ms : list Material) :
  fold_left (fun sum m => add sum (getStageProgress (stageOf m))) ms Concatenated
  = Concatenated.
Proof. induction ms as [| m ms IH]; [ reflexivity | exact IH ]. Qed.

(** A larger start gives a sum larger by as much. *)
Lemma fold_shift (ms : list Material) (a k t : Z) :
  fold_left (fun sum m => add sum (getStageProgress (stageOf m))) ms (Total a)
    = Total t ->
  fold_left (fun sum m => add sum (getStageProgress (stageOf m))) ms (Total (a + k))
    = Total (t + k).
Proof.
  revert a. induction ms as [| m ms IH]; intros a Hsum; cbn [fold_left] in *.
  - injection Hsum as <-. reflexivity.
  - destruct (getStageProgress (stageOf m)) as [b | key]; cbn [add] in *.
    + replace (a + k + b)%Z with (a + b + k)%Z by lia. apply IH, Hsum.
    + rewrite fold_concatenated in Hsum. discriminate Hsum.
Qed.

Lemma progressSum_app (pre post : list Material) :
  progressSum (pre ++ post)
  = fold_left (fun sum m => add sum (getStageProgress (stageOf m))) post
      (progressSum pre).
Proof. unfold progressSum. apply fold_left_app. Qed.

Lemma progressSum_skip (pre post : list Material) (m : Material) :
  getStageProgress (stageOf m) = Percent 0 ->
  progressSum (pre ++ m :: post) = progressSum (pre ++ post).
Proof.
  intros Hm. rewrite !progressSum_app. cbn [fold_left].
  rewrite Hm, add_zero. reflexivity.
Qed.

Lemma progressSum_insert (pre post : list Material) (m : Material) (n s : Z) :
  getStageProgress (stageOf m) = Percent n ->
  progressSum (pre ++ post) = Total s ->
  progressSum (pre ++ m :: post) = Total (s + n).
Proof.
  intros Hm. rewrite !progressSum_app. cbn [fold_left]. rewrite Hm.
  destruct (progressSum pre) as [a |]; cbn [add].
  - apply fold_shift.
  - rewrite fold_concatenated. discriminate.
Qed.

End MaterialFacts.

(** C10 (the code at the failing input).  [getStageProgress] is 100 for
    mastered, 66 for user_taught, 33 for buddy_taught, 0 for uploaded and 0
    for every other text that names no member of [Object.prototype]; in
    particular it is 0 for expert, the stage that the evolution path of a
    material places after mastered, so that a material at that stage adds
    nothing to the sum behind the brain-growth percentage, where a
    mastered one adds 100.  For a text that names a member of
    [Object.prototype], such as constructor, it returns that member
    instead of 0, and the brain-growth percentage of a list with such a
    material is [NaN]. *)
Theorem C10_stage_progress_table :
  Materials.getStageProgress "mastered" = Materials.Percent 100 /\
  Materials.getStageProgress "user_taught" = Materials.Percent 66 /\
  Materials.getStageProgress "buddy_taught" = Materials.Percent 33 /\
  Materials.getStageProgress "uploaded" = Materials.Percent 0 /\
  (forall stage : string,
      stage <> "mastered"%string -> stage <> "user_taught"%string ->
      stage <> "buddy_taught"%string ->
      JsObject.inherited stage = false ->
      Materials.getStageProgress stage = Materials.Percent 0) /\
  Materials.getStageProgress "expert" = Materials.Percent 0 /\
  Materials.isCompleted "mastered" "expert" = true /\
  (forall (pre post : list Materials.Material) (m : Materials.Material),
      Materials.stageOf m = "expert"%string ->
      Materials.progressSum (pre ++ m :: post) = Materials.progressSum (pre ++ post)) /\
  (forall (pre post : list Materials.Material) (m : Materials.Material) (s : Z),
      Materials.stageOf m = "mastered"%string ->
      Materials.progressSum (pre ++ post) = Materials.Total s ->
      Materials.progressSum (pre ++ m :: post) = Materials.Total (s + 100)) /\
  (forall stage : string,
      JsObject.inherited stage = true ->
      Materials.getStageProgress stage = Materials.PrototypeMember stage) /\
  Materials.getStageProgress "constructor" = Materials.PrototypeMember "constructor" /\
  Materials.totalProgress
    [ Materials.mkMaterial "notes.pdf" (Some "mastered"%string);
      Materials.mkMaterial "slides.pdf" (Some "constructor"%string) ]
    = Materials.NaN.
Proof.
  repeat split; try reflexivity.
  - intros stage H1 H2 H3 Hown. apply getStageProgress_other; assumption.
  - intros pre post m Hm. apply progressSum_skip. rewrite Hm. reflexivity.
  - intros pre post m s Hm Hs.
    apply progressSum_insert; [ rewrite Hm; reflexivity | exact Hs ].
  - intros stage Hin. apply getStageProgress_inherited, Hin.
Qed.

(* ===================================================================== *)
(** * More on the stats provider *)
(* ===================================================================== *)

Section ProviderHistoryFacts.

Import StatsContext StatsHistory.

Lemma in_compareStats_level (prev new : Stats) (l : Z) :
  In (LevelUp l) (compareStats prev new) <->
  level prev < level new /\ l = level new.
Proof.
  unfold compareStats. rewrite !in_app_iff.
  rewrite in_xpRise, in_levelRise, in_evolutionRise, in_streakRise.
  split.
  - intros [(_ & Hx) | [(Hl & Hx) | [(_ & _ & Hx) | (_ & Hx)]]];
      try discriminate Hx.
    injection Hx as ->. auto.
  - intros (Hl & ->). right. left. auto.
Qed.

Lemma in_compareStats_streak (prev new : Stats) (n : Z) :
  In (StreakRise n) (compareStats prev new) <->
  streak_days prev < streak_days new /\ n = streak_days new.
Proof.
  unfold compareStats. rewrite !in_app_iff.
  rewrite in_xpRise, in_levelRise, in_evolutionRise, in_streakRise.
  split.
  - intros [(_ & Hx) | [(_ & Hx) | [(_ & _ & Hx) | (Hl & Hx)]]];
      try discriminate Hx.
    injection Hx as ->. auto.
  - intros (Hl & ->). right. right. right. auto.
Qed.

(** The comparison is silent exactly when none of the three counters rose. *)
Lemma compareStats_nil (prev new : Stats) :
  compareStats prev new = [] <->
  total_xp new <= total_xp prev /\ level new <= level prev /\
  streak_days new <= streak_days prev.
Proof.
  unfold compareStats, xpRise, levelRise, evolutionRise, streakRise.
  destruct (Z.ltb_spec (total_xp prev) (total_xp new));
    destruct (Z.ltb_spec (level prev) (level new));
    destruct (Z.ltb_spec (streak_days prev) (streak_days new));
    rewrite ?andb_false_r; cbn [app];
    try (split; [ discriminate | lia ]);
    try (split; [ intros _; lia | reflexivity ]).
  all: destruct (negb _ && true); cbn [app]; split; try discriminate; lia.
Qed.

Lemma compareStats_length (prev new : Stats) :
  (length (compareStats prev new) <= 4)%nat.
Proof.
  unfold compareStats, xpRise, levelRise, evolutionRise, streakRise.
  rewrite !length_app.
  repeat match goal with
         | |- context [if ?b then _ else _] => destruct b
         end; cbn [length]; lia.
Qed.

(** The rank of a title grows with the level and separates the titles. *)
Lemma titleRank_monotone (a b : Z) : a <= b -> titleRank a <= titleRank b.
Proof.
  intros Hab. unfold titleRank.
  repeat match goal with
         | |- context [?x <? ?y] => destruct (Z.ltb_spec x y)
         end; lia.
Qed.

Lemma titleRank_range (a : Z) : 0 <= titleRank a <= 4.
Proof.
  unfold titleRank.
  repeat match goal with
         | |- context [?x <? ?y] => destruct (Z.ltb_spec x y)
         end; lia.
Qed.

Lemma titleRank_same_title (a b : Z) :
  titleRank a = titleRank b -> getLevelTitle a = getLevelTitle b.
Proof.
  unfold titleRank, getLevelTitle.
  repeat match goal with
         | |- context [?x <? ?y] => destruct (Z.ltb_spec x y)
         end; intros; try reflexivity; lia.
Qed.

(** An evolution notification means the rank went up. *)
Lemma evolution_count_rank (prev new : Stats) :
  level prev <= level new ->
  Z.of_nat (length (List.filter isEvolution (compareStats prev new)))
    + titleRank (level prev) <= titleRank (level new).
Proof.
  intros Hle. pose proof (titleRank_monotone _ _ Hle) as Hmono.
  unfold compareStats. rewrite !List.filter_app, !length_app.
  assert (Hx : List.filter isEvolution (xpRise prev new) = [])
    by (unfold xpRise; destruct (_ <? _); reflexivity).
  assert (Hl : List.filter isEvolution (levelRise prev new) = [])
    by (unfold levelRise; destruct (_ <? _); reflexivity).
  assert (Hs : List.filter isEvolution (streakRise prev new) = [])
    by (unfold streakRise; destruct (_ <? _); reflexivity).
  rewrite Hx, Hl, Hs. cbn [length Nat.add]. rewrite Nat.add_0_r.
  unfold evolutionRise.
  destruct (String.eqb_spec (getLevelTitle (level prev)) (getLevelTitle (level new)))
    as [Heq | Hne]; cbn [negb andb List.filter length]; [ lia | ].
  destruct (level prev <? level new); cbn [List.filter isEvolution length]; [ | lia ].
  assert (titleRank (level prev) <> titleRank (level new))
    by (intros Hr; apply Hne, titleRank_same_title, Hr).
  lia.
Qed.

Lemma evolution_budget (d : ProfileData) (history : list FetchResult) :
  levelsNeverDrop (data_level d) history = true ->
  Z.of_nat (length (List.filter isEvolution (notesFrom (providerOf (Some d)) history)))
    + titleRank (data_level d) <= 4.
Proof.
  revert d. induction history as [| r rest IH]; intros d Hnd.
  - cbn. pose proof (titleRank_range (data_level d)). lia.
  - destruct r as [ | | | d']; cbn [levelsNeverDrop] in Hnd.
    + apply (IH d Hnd).
    + apply (IH d Hnd).
    + apply (IH d Hnd).
    + apply andb_prop in Hnd as [Hle Hrest]. apply Z.leb_le in Hle.
      cbn [notesFrom]. rewrite List.filter_app, length_app.
      change (fst (fetchStats (Fetched d') (providerOf (Some d))))
        with (providerOf (Some d')).
      change (snd (fetchStats (Fetched d') (providerOf (Some d))))
        with (compareStats (newStatsOf d) (newStatsOf d')).
      pose proof (evolution_count_rank (newStatsOf d) (newStatsOf d') Hle) as Hstep.
      cbn [newStatsOf level] in Hstep.
      pose proof (IH d' Hrest) as Hrec. lia.
Qed.

Lemma notesFrom_initial_failed (floor : Z) (history : list FetchResult) :
  levelsNeverDrop floor history = true ->
  (length (List.filter isEvolution (notesFrom initialProvider history)) <= 4)%nat.
Proof.
  revert floor. induction history as [| r rest IH]; intros floor Hnd.
  - cbn. lia.
  - destruct r as [ | | | d]; cbn [levelsNeverDrop] in Hnd.
    + apply (IH floor Hnd).
    + apply (IH floor Hnd).
    + apply (IH floor Hnd).
    + apply andb_prop in Hnd as [_ Hrest].
      cbn [notesFrom].
      change (fst (fetchStats (Fetched d) initialProvider))
        with (providerOf (Some d)).
      change (snd (fetchStats (Fetched d) initialProvider)) with (@nil Notification).
      cbn [app].
      pose proof (evolution_budget d rest Hrest) as Hb.
      pose proof (titleRank_range (data_level d)). lia.
Qed.

(** Dividing by a positive rational. *)
Lemma Qdiv_le_iff (x c k : Q) : (0 < c -> (x / c <= k <-> x <= k * c))%Q.
Proof.
  intros Hc. split.
  - intros H.
    assert (E : (x == x / c * c)%Q)
      by (field; intros E; rewrite E in Hc; discriminate).
    apply (Qle_trans _ (x / c * c)%Q).
    + rewrite <- E. apply Qle_refl.
    + apply Qmult_le_compat_r; [ exact H | apply Qlt_le_weak, Hc ].
  - intros H. apply Qle_shift_div_r; assumption.
Qed.

(** The reminder test in whole milliseconds. *)
Lemma overdue_millis (last now : Z) :
  overdue (Millis last) now = true <-> 86400000 < now - last.
Proof.
  unfold overdue. rewrite negb_true_iff.
  change (inject_Z (1000 * 60 * 60)) with (3600000 # 1)%Q.
  change (inject_Z 24) with (24 # 1)%Q.
  assert (Hiff : (inject_Z (now - last) / (3600000 # 1) <= 24 # 1)%Q
                 <-> now - last <= 86400000).
  { rewrite Qdiv_le_iff by reflexivity. rewrite Zle_Qle.
    change ((24 # 1) * (3600000 # 1))%Q with (inject_Z 86400000). reflexivity. }
  destruct (Qle_bool _ _) eqn:Hle.
  - apply Qle_bool_iff, Hiff in Hle. split; [ discriminate | lia ].
  - split; [ intros _ | reflexivity ].
    destruct (Z_lt_le_dec 86400000 (now - last)) as [Hlt | Hge]; [ exact Hlt | ].
    apply Hiff, Qle_bool_iff in Hge. congruence.
Qed.

Lemma remindersFrom_done (runs : list EffectRun) :
  List.filter (fun b : bool => b) (remindersFrom true runs) = [].
Proof.
  induction runs as [| r rest IH]; [ reflexivity | ].
  cbn [remindersFrom]. unfold reminderEffect.
  destruct (lastStudy r); cbn [fst snd List.filter]; exact IH.
Qed.

End ProviderHistoryFacts.

(** A level-up notification is raised exactly when the fetched level is
    strictly above the level of the last successful fetch, and it carries
    the new level; a streak notification likewise for [streak_days]. *)
Theorem level_and_streak_notifications
    (history : list StatsContext.FetchResult)
    (data prev : StatsContext.ProfileData)
    (Hprev : StatsContext.lastFetched history None = Some prev) :
  (forall l,
      In (StatsContext.LevelUp l)
         (snd (StatsContext.fetchStats (StatsContext.Fetched data)
                 (StatsContext.afterPolls history)))
      <-> StatsContext.data_level prev < StatsContext.data_level data /\
          l = StatsContext.data_level data) /\
  (forall n,
      In (StatsContext.StreakRise n)
         (snd (StatsContext.fetchStats (StatsContext.Fetched data)
                 (StatsContext.afterPolls history)))
      <-> StatsContext.data_streak_days prev < StatsContext.data_streak_days data /\
          n = StatsContext.data_streak_days data).
Proof.
  rewrite afterPolls_last, Hprev. split.
  - intros l. apply in_compareStats_level.
  - intros n. apply in_compareStats_streak.
Qed.

Lemma level_and_streak_notifications_witness :
  StatsContext.lastFetched [StatsContext.Fetched (MasteryScenario.profile 5 480)] None
    = Some (MasteryScenario.profile 5 480) /\
  In (StatsContext.LevelUp 8)
     (snd (StatsContext.fetchStats
             (StatsContext.Fetched (MasteryScenario.profile 8 730))
             (StatsContext.afterPolls
                [StatsContext.Fetched (MasteryScenario.profile 5 480)]))).
Proof.
  split; [ reflexivity | ].
  apply (proj1 (level_and_streak_notifications
                  [StatsContext.Fetched (MasteryScenario.profile 5 480)]
                  (MasteryScenario.profile 8 730)
                  (MasteryScenario.profile 5 480) eq_refl)).
  split; [ vm_compute; reflexivity | reflexivity ].
Defined.

(** A poll after an earlier successful fetch is silent exactly when none of
    XP total, level and streak is above its previously fetched value (in
    particular when the same profile is fetched again); and no poll raises
    more than four notifications. *)
Theorem poll_silent_iff_nothing_rose
    (history : list StatsContext.FetchResult)
    (data prev : StatsContext.ProfileData)
    (Hprev : StatsContext.lastFetched history None = Some prev) :
  (snd (StatsContext.fetchStats (StatsContext.Fetched data)
          (StatsContext.afterPolls history)) = []
   <-> StatsContext.data_total_xp data <= StatsContext.data_total_xp prev /\
       StatsContext.data_level data <= StatsContext.data_level prev /\
       StatsContext.data_streak_days data <= StatsContext.data_streak_days prev) /\
  (length (snd (StatsContext.fetchStats (StatsContext.Fetched data)
                  (StatsContext.afterPolls history))) <= 4)%nat.
Proof.
  rewrite afterPolls_last, Hprev. split.
  - apply compareStats_nil.
  - apply compareStats_length.
Qed.

Lemma poll_silent_iff_nothing_rose_witness :
  StatsContext.lastFetched [StatsContext.Fetched (MasteryScenario.profile 8 730)] None
    = Some (MasteryScenario.profile 8 730) /\
  snd (StatsContext.fetchStats
         (StatsContext.Fetched (MasteryScenario.profile 8 730))
         (StatsContext.afterPolls
            [StatsContext.Fetched (MasteryScenario.profile 8 730)])) = [].
Proof.
  split; [ reflexivity | ].
  apply (proj1 (poll_silent_iff_nothing_rose
                  [StatsContext.Fetched (MasteryScenario.profile 8 730)]
                  (MasteryScenario.profile 8 730)
                  (MasteryScenario.profile 8 730) eq_refl)).
  vm_compute. repeat split; discriminate.
Defined.

(** An evolution notification never comes alone: the same poll also raises
    the level-up notification for the fetched level, and the title it
    announces is the title that the context publishes after the poll. *)
Theorem evolution_comes_with_level_up
    (p : StatsContext.Provider) (r : StatsContext.FetchResult) (t : string)
    (Hfires : In (StatsContext.EvolutionPath t) (snd (StatsContext.fetchStats r p))) :
  In (StatsContext.LevelUp
        (StatsContext.level (StatsContext.stats (fst (StatsContext.fetchStats r p)))))
     (snd (StatsContext.fetchStats r p)) /\
  StatsContext.levelTitle (fst (StatsContext.fetchStats r p)) = t.
Proof.
  destruct r as [ | | | data]; simpl in Hfires; try contradiction.
  destruct (StatsContext.isFirstLoad p) eqn:Hfirst; [ contradiction | ].
  destruct (StatsContext.lastStatsRef p) as [prev |] eqn:Hprev; [ | contradiction ].
  apply in_compareStats_evolution in Hfires. destruct Hfires as (_ & Hl & ->).
  cbn [StatsContext.fetchStats fst snd]. rewrite Hfirst, Hprev. split.
  - apply in_compareStats_level. split; [ exact Hl | reflexivity ].
  - reflexivity.
Qed.

Lemma evolution_comes_with_level_up_witness :
  In (StatsContext.EvolutionPath "Teenager") MasteryScenario.notes /\
  In (StatsContext.LevelUp 8) MasteryScenario.notes.
Proof.
  assert (Hin : In (StatsContext.EvolutionPath "Teenager")
     (snd (StatsContext.fetchStats
             (StatsContext.Fetched (MasteryScenario.profile 8 MasteryScenario.xpAfter))
             (StatsContext.afterPolls
                [StatsContext.Fetched (MasteryScenario.profile 5 MasteryScenario.xpBefore)])))).
  { vm_compute. right. right. left. reflexivity. }
  split; [ exact Hin | ].
  exact (proj1 (evolution_comes_with_level_up _ _ _ Hin)).
Defined.

(** While the fetched level never goes down, a provider raises at most four
    evolution notifications over its whole life, however long the history
    of polls is. *)
Theorem evolution_at_most_four
    (floor : Z) (history : list StatsContext.FetchResult)
    (Hrising : StatsHistory.levelsNeverDrop floor history = true) :
  (length (List.filter StatsContext.isEvolution (StatsHistory.allNotes history)) <= 4)%nat.
Proof.
  unfold StatsHistory.allNotes.
  apply (notesFrom_initial_failed floor history Hrising).
Qed.

Lemma evolution_at_most_four_witness :
  StatsHistory.levelsNeverDrop 1
    [ StatsContext.Fetched (MasteryScenario.profile 1 0);
      StatsContext.NotOk;
      StatsContext.Fetched (MasteryScenario.profile 5 400);
      StatsContext.Fetched (MasteryScenario.profile 9 800);
      StatsContext.Fetched (MasteryScenario.profile 14 1300);
      StatsContext.Fetched (MasteryScenario.profile 20 1900);
      StatsContext.Fetched (MasteryScenario.profile 1000 99900) ] = true /\
  (length (List.filter StatsContext.isEvolution
     (StatsHistory.allNotes
        [ StatsContext.Fetched (MasteryScenario.profile 1 0);
          StatsContext.NotOk;
          StatsContext.Fetched (MasteryScenario.profile 5 400);
          StatsContext.Fetched (MasteryScenario.profile 9 800);
          StatsContext.Fetched (MasteryScenario.profile 14 1300);
          StatsContext.Fetched (MasteryScenario.profile 20 1900);
          StatsContext.Fetched (MasteryScenario.profile 1000 99900) ])) <= 4)%nat.
Proof.
  split; [ reflexivity | ].
  apply (evolution_at_most_four 1). reflexivity.
Defined.

(** The "misses you" reminder is added at most once in the life of the
    provider, and only by a run of the effect that finds a valid last study
    date more than 24 hours (86 400 000 ms) before the current time. *)
Theorem study_reminder_at_most_once (runs : list StatsHistory.EffectRun) :
  (length (List.filter (fun b : bool => b) (StatsHistory.reminders runs)) <= 1)%nat /\
  (forall i, nth_error (StatsHistory.reminders runs) i = Some true ->
     exists r last,
       nth_error runs i = Some r /\
       StatsHistory.lastStudy r = Some (StatsHistory.Millis last) /\
       86400000 < StatsHistory.now r - last).
Proof.
  unfold StatsHistory.reminders. split.
  - induction runs as [| r rest IH]; [ cbn; lia | ].
    cbn [StatsHistory.remindersFrom]. unfold StatsHistory.reminderEffect.
    destruct (StatsHistory.lastStudy r) as [t |]; cbn [fst snd List.filter].
    + destruct (StatsHistory.overdue t (StatsHistory.now r));
        cbn [fst snd List.filter length].
      * rewrite remindersFrom_done. cbn. lia.
      * exact IH.
    + exact IH.
  - generalize false as b.
    induction runs as [| r rest IH]; intros b i Hi.
    + destruct i; discriminate Hi.
    + cbn [StatsHistory.remindersFrom] in Hi. destruct i as [| i].
      * cbn [nth_error] in Hi. injection Hi as Hi.
        unfold StatsHistory.reminderEffect in Hi.
        destruct (StatsHistory.lastStudy r) as [t |] eqn:Ht; [ | discriminate Hi ].
        destruct b; [ discriminate Hi | ].
        destruct (StatsHistory.overdue t (StatsHistory.now r)) eqn:Ho;
          [ | discriminate Hi ].
        destruct t as [| last]; [ discriminate Ho | ].
        apply overdue_millis in Ho.
        exists r, last. repeat split; [ exact Ht | exact Ho ].
      * cbn [nth_error] in Hi. apply IH in Hi.
        destruct Hi as (r' & last & Hr & Hl & Hlt).
        exists r', last. repeat split; assumption.
Qed.


(* ===================================================================== *)
(** * Invariants of the voice loop *)
(* ===================================================================== *)

Section VoiceInvariantFacts.

Import VoiceLoop VoiceInvariant.

(** Case analysis on every test a handler makes. *)
Ltac voice_cases :=
  repeat match goal with
         | |- context [if ?b then _ else _] => destruct b eqn:?
         | |- context [match ?x with _ => _ end] => destruct x eqn:?
         end;
  cbn in *; repeat split; intros; cbn in *; try congruence; auto.

Lemma settles_refl (s : Voice) : settles s s.
Proof. repeat split; auto. Qed.

Lemma speak_settles (s : Voice) : settles s (speak s).
Proof. unfold settles, speak, armRestart, addTimer. voice_cases. Qed.

Lemma afterChat_settles (o : ChatErrors.ChatOutcome) (s : Voice) :
  settles s (afterChat o s).
Proof.
  unfold settles, afterChat, speak, armRestart, addTimer. voice_cases.
Qed.

Lemma utteranceDone_settles (s : Voice) : settles s (utteranceDone s).
Proof. unfold settles, utteranceDone, armRestart, addTimer. voice_cases. Qed.

Lemma startListening_keeps (s : Voice) :
  listeningBetweenTurns s -> listeningBetweenTurns (startListening s).
Proof.
  unfold listeningBetweenTurns, startListening. intros H.
  destruct (hasRecognition s); cbn [negb]; [ | exact H ].
  destruct (isStartingRef s || isProcessingRef s) eqn:Hbusy; [ exact H | ].
  apply orb_false_elim in Hbusy as [_ Hidle].
  destruct (recognition s); intros _; exact Hidle.
Qed.

Lemma startListening_email (s : Voice) : hasEmail (startListening s) = hasEmail s.
Proof. unfold startListening. voice_cases. Qed.

Lemma step_keeps_email (e : Event) (s s' : Voice) :
  step e s = Some s' -> hasEmail s' = hasEmail s.
Proof.
  intros Hstep. destruct e; cbn in Hstep.
  - destruct (nth_error (timers s) k) as [t |]; [ | discriminate ].
    injection Hstep as <-.
    destruct t; cbn; unfold speak, armRestart, addTimer;
      rewrite ?startListening_email; voice_cases;
      rewrite ?startListening_email; reflexivity.
  - destruct (recognition s); try discriminate. injection Hstep as <-.
    unfold onresult, handleUserSpeech. voice_cases.
  - destruct (recognition s); try discriminate. injection Hstep as <-.
    unfold onerror, armRestartIfIdle, addTimer. voice_cases.
  - destruct (recognition s); try discriminate; injection Hstep as <-;
      unfold onend, armRestartIfIdle, addTimer; voice_cases.
  - destruct (nth_error (pending s) k) as [[| i] |]; try discriminate.
    injection Hstep as <-. destruct created; reflexivity.
  - destruct (nth_error (pending s) k) as [[| i] |]; try discriminate.
    injection Hstep as <-.
    apply (afterChat_settles o (withPending (removeAt k (pending s)) s)).
  - destruct (utterances s); try discriminate. injection Hstep as <-.
    apply (utteranceDone_settles (withUtterances n s)).
Qed.

Lemma step_keeps_listening (e : Event) (s s' : Voice) :
  step e s = Some s' -> listeningBetweenTurns s -> listeningBetweenTurns s'.
Proof.
  intros Hstep Hinv. destruct e; cbn in Hstep.
  - destruct (nth_error (timers s) k) as [t |]; [ | discriminate ].
    injection Hstep as <-.
    set (s1 := withTimers (removeAt k (timers s)) s).
    assert (H1 : listeningBetweenTurns s1) by exact Hinv.
    destruct t; cbn [runTimer].
    + apply startListening_keeps, H1.
    + destruct (autoListenEnabledRef s1); [ apply startListening_keeps | ]; exact H1.
    + destruct (autoListenEnabledRef s1 && negb (isProcessingRef s1));
        [ apply startListening_keeps | ]; exact H1.
    + destruct (speak_settles s1) as (Hr & _ & Hp).
      intros Hl. rewrite Hr in Hl. specialize (H1 Hl).
      destruct (isProcessingRef (speak s1)); [ | reflexivity ].
      rewrite Hp in H1 by reflexivity. discriminate.
  - destruct (recognition s); try discriminate. injection Hstep as <-.
    intros Hl. unfold onresult, handleUserSpeech in Hl. revert Hl. voice_cases.
  - destruct (recognition s); try discriminate. injection Hstep as <-.
    intros Hl. unfold onerror, armRestartIfIdle, addTimer in Hl. revert Hl. voice_cases.
  - intros Hl. destruct (recognition s); try discriminate; injection Hstep as <-;
      unfold onend, armRestartIfIdle, addTimer in Hl; revert Hl; voice_cases.
  - destruct (nth_error (pending s) k) as [[| i] |]; try discriminate.
    injection Hstep as <-. destruct created; exact Hinv.
  - destruct (nth_error (pending s) k) as [[| i] |]; try discriminate.
    injection Hstep as <-.
    destruct (afterChat_settles o (withPending (removeAt k (pending s)) s))
      as (Hr & _ & Hp).
    intros Hl. rewrite Hr in Hl. specialize (Hinv Hl).
    destruct (isProcessingRef (afterChat o _)); [ | reflexivity ].
    cbn in Hp. rewrite Hp in Hinv by reflexivity. discriminate.
  - destruct (utterances s); try discriminate. injection Hstep as <-.
    destruct (utteranceDone_settles (withUtterances n s)) as (Hr & _ & Hp).
    intros Hl. rewrite Hr in Hl. specialize (Hinv Hl).
    destruct (isProcessingRef (utteranceDone _)); [ | reflexivity ].
    cbn in Hp. rewrite Hp in Hinv by reflexivity. discriminate.
Qed.

Lemma run_keeps_listening (trace : list Event) (s s' : Voice) :
  run trace s = Some s' ->
  listeningBetweenTurns s /\ hasEmail s = true ->
  listeningBetweenTurns s' /\ hasEmail s' = true.
Proof.
  revert s. induction trace as [| e rest IH]; intros s Hrun [Hinv Hmail].
  - injection Hrun as <-. auto.
  - cbn [run] in Hrun. destruct (step e s) as [s1 |] eqn:Hstep; [ | discriminate ].
    apply (IH s1 Hrun). split.
    + apply (step_keeps_listening e s s1 Hstep Hinv).
    + rewrite (step_keeps_email e s s1 Hstep). exact Hmail.
Qed.

End VoiceInvariantFacts.

Section VoiceSerialFacts.

Import VoiceLoop VoiceInvariant.

Lemma in_removeAt {A} (x : A) (k : nat) (l : list A) :
  In x (removeAt k l) -> In x l.
Proof.
  unfold removeAt. rewrite in_app_iff. intros [H | H].
  - rewrite <- (firstn_skipn k l). apply in_or_app. left. exact H.
  - rewrite <- (firstn_skipn (S k) l). apply in_or_app. right. exact H.
Qed.

Lemma length_removeAt {A} (k : nat) (l : list A) (x : A) :
  nth_error l k = Some x -> S (length (removeAt k l)) = length l.
Proof.
  revert k. induction l as [| y l IH]; intros k Hk.
  - destruct k; discriminate Hk.
  - destruct k as [| k]; [ reflexivity | ].
    cbn [nth_error] in Hk. specialize (IH k Hk).
    unfold removeAt in *. cbn [firstn skipn app length] in *. lia.
Qed.

Lemma length_replaceAt {A} (k : nat) (l : list A) (x y : A) :
  nth_error l k = Some x -> length (replaceAt k y l) = length l.
Proof.
  revert k. induction l as [| z l IH]; intros k Hk.
  - destruct k; discriminate Hk.
  - destruct k as [| k]; [ reflexivity | ].
    cbn [nth_error] in Hk. specialize (IH k Hk).
    unfold replaceAt in *. cbn [firstn skipn app length] in *. lia.
Qed.

(** The invariant only looks at six cells. *)
Lemma serial_same_cells (s s' : Voice) :
  hasSynth s' = hasSynth s -> audioEnabled s' = audioEnabled s ->
  utterances s' = utterances s -> timers s' = timers s ->
  pending s' = pending s -> isProcessingRef s' = isProcessingRef s ->
  muteAndSerial s -> muteAndSerial s'.
Proof.
  unfold muteAndSerial, mute. intros -> -> -> -> -> ->. auto.
Qed.

Lemma startListening_serial (s : Voice) :
  muteAndSerial s -> muteAndSerial (startListening s).
Proof.
  apply serial_same_cells; unfold startListening;
    destruct (hasRecognition s), (isStartingRef s || isProcessingRef s),
      (recognition s); reflexivity.
Qed.

(** Adding a timer that does not retry [speak]. *)
Lemma addTimer_serial (t : Timer) (s : Voice) :
  t <> Respeak -> muteAndSerial s -> muteAndSerial (addTimer t s).
Proof.
  unfold muteAndSerial, mute, addTimer. cbn.
  intros Ht (Hm & Hu & Hn & Hl & Hi). repeat split; auto.
  rewrite in_app_iff. intros [H | [H | []]]; [ exact (Hn H) | exact (Ht H) ].
Qed.

(** A mute component ends its turn inside [speak]. *)
Lemma speak_mute (s : Voice) :
  mute s = true -> speak s = armRestart (withProcessing false s).
Proof. unfold mute, speak. intros ->. reflexivity. Qed.

Lemma turn_over_serial (s : Voice) :
  mute s = true -> utterances s = 0%nat -> ~ In Respeak (timers s) ->
  pending s = [] ->
  muteAndSerial (armRestart (withProcessing false s)).
Proof.
  intros Hm Hu Hn Hp.
  assert (H0 : muteAndSerial (withProcessing false s)).
  { unfold muteAndSerial, mute in *. cbn. rewrite Hp. repeat split; auto. }
  unfold armRestart. destruct (autoListenEnabledRef _); [ | exact H0 ].
  apply addTimer_serial; [ discriminate | exact H0 ].
Qed.

Lemma step_keeps_serial (e : Event) (s s' : Voice) :
  step e s = Some s' -> muteAndSerial s -> muteAndSerial s'.
Proof.
  intros Hstep Hinv. destruct e; cbn in Hstep.
  - destruct (nth_error (timers s) k) as [t |] eqn:Ht; [ | discriminate ].
    injection Hstep as <-.
    assert (Hnot : t <> Respeak).
    { intros ->. destruct Hinv as (_ & _ & Hn & _). apply Hn.
      apply (nth_error_In _ _ Ht). }
    assert (H1 : muteAndSerial (withTimers (removeAt k (timers s)) s)).
    { destruct Hinv as (Hm & Hu & Hn & Hl & Hi).
      unfold muteAndSerial, mute in *. cbn. repeat split; auto.
      intros Hin. apply Hn, (in_removeAt _ _ _ Hin). }
    destruct t; cbn [runTimer]; try contradiction.
    + apply startListening_serial, H1.
    + destruct (autoListenEnabledRef _); [ apply startListening_serial | ]; exact H1.
    + destruct (_ && _); [ apply startListening_serial | ]; exact H1.
  - destruct (recognition s); try discriminate. injection Hstep as <-.
    destruct Hinv as (Hm & Hu & Hn & Hl & Hi).
    unfold onresult, handleUserSpeech. cbn.
    destruct (negb (hasEmail s) || isProcessingRef s) eqn:Hguard.
    + unfold muteAndSerial, mute in *. cbn. repeat split; auto.
    + apply orb_false_elim in Hguard as [_ Hidle]. specialize (Hi Hidle).
      unfold muteAndSerial, mute in *.
      destruct (sessionId s); cbn; rewrite Hi; cbn;
        repeat split; auto; discriminate.
  - destruct (recognition s); try discriminate. injection Hstep as <-.
    assert (H1 : muteAndSerial (withStarting false (withRecognition Ending s)))
      by (revert Hinv; apply serial_same_cells; reflexivity).
    unfold onerror, armRestartIfIdle. destruct transient; [ | exact H1 ].
    destruct (_ && _); [ | exact H1 ].
    apply addTimer_serial; [ discriminate | exact H1 ].
  - assert (H1 : muteAndSerial (withStarting false (withRecognition Idle s)))
      by (revert Hinv; apply serial_same_cells; reflexivity).
    assert (H2 : muteAndSerial (onend (withRecognition Idle s))).
    { unfold onend, armRestartIfIdle. destruct (_ && _); [ | exact H1 ].
      apply addTimer_serial; [ discriminate | exact H1 ]. }
    destruct (recognition s); try discriminate; injection Hstep as <-; exact H2.
  - destruct (nth_error (pending s) k) as [[| i] |] eqn:Hk; try discriminate.
    injection Hstep as <-.
    destruct Hinv as (Hm & Hu & Hn & Hl & Hi).
    pose proof (length_replaceAt k (pending s) AwaitSession (AwaitChat created) Hk)
      as Hlen.
    assert (Hbusy : isProcessingRef s = true).
    { destruct (isProcessingRef s); [ reflexivity | ].
      rewrite (Hi eq_refl) in Hk. destruct k; discriminate Hk. }
    unfold muteAndSerial, mute in *.
    destruct created; cbn; rewrite Hlen, Hbusy; repeat split; auto; discriminate.
  - destruct (nth_error (pending s) k) as [[| i] |] eqn:Hk; try discriminate.
    injection Hstep as <-.
    destruct Hinv as (Hm & Hu & Hn & Hl & Hi).
    pose proof (length_removeAt k (pending s) _ Hk) as Hlen.
    assert (Hnil : removeAt k (pending s) = []).
    { destruct (removeAt k (pending s)); [ reflexivity | cbn in Hlen; lia ]. }
    set (s1 := withPending (removeAt k (pending s)) s).
    assert (Hm1 : mute s1 = true) by exact Hm.
    assert (Hover : muteAndSerial (armRestart (withProcessing false s1))).
    { apply turn_over_serial; auto. }
    unfold afterChat. rewrite (speak_mute s1 Hm1).
    destruct (ChatErrors.voiceAnswered o); [ | destruct (ChatErrors.tookBreather o) ].
    + exact Hover.
    + revert Hover. apply serial_same_cells; unfold armRestart;
        destruct (autoListenEnabledRef _); reflexivity.
    + assert (Hm2 : mute (armRestart (withProcessing false s1)) = true)
        by (destruct Hover as (H & _); exact H).
      destruct Hover as (_ & Hu2 & Hn2 & Hl2 & Hi2).
      assert (Hp2 : pending (armRestart (withProcessing false s1)) = []).
      { unfold armRestart. destruct (autoListenEnabledRef _); cbn; exact Hnil. }
      apply turn_over_serial; assumption.
  - destruct Hinv as (_ & Hu & _). rewrite Hu in Hstep. discriminate.
Qed.

Lemma run_keeps_serial (trace : list Event) (s s' : Voice) :
  run trace s = Some s' -> muteAndSerial s -> muteAndSerial s'.
Proof.
  revert s. induction trace as [| e rest IH]; intros s Hrun Hinv.
  - injection Hrun as <-. exact Hinv.
  - cbn [run] in Hrun. destruct (step e s) as [s1 |] eqn:Hstep; [ | discriminate ].
    apply (IH s1 Hrun), (step_keeps_serial e s s1 Hstep Hinv).
Qed.

Lemma inFlight_length (s : Voice) : (length (inFlight s) <= length (pending s))%nat.
Proof.
  unfold inFlight. induction (pending s) as [| a l IH]; [ cbn; lia | ].
  destruct a; cbn [flat_map app length]; lia.
Qed.

End VoiceSerialFacts.

(** Whenever the recogniser delivers a result to a signed-in user, a turn
    starts: the result is never dropped by the [isProcessingRef] guard,
    because the recogniser is only ever listening between turns. *)
Theorem recognised_speech_starts_a_turn
    (s0 s s' : VoiceLoop.Voice) (trace : list VoiceLoop.Event)
    (Hidle : VoiceInvariant.listeningBetweenTurns s0)
    (Hmail : VoiceLoop.hasEmail s0 = true)
    (Hrun : VoiceLoop.run trace s0 = Some s)
    (Hresult : VoiceLoop.step VoiceLoop.RecognitionResult s = Some s') :
  VoiceLoop.isProcessingRef s = false /\
  VoiceLoop.isProcessingRef s' = true /\
  length (VoiceLoop.pending s') = S (length (VoiceLoop.pending s)).
Proof.
  destruct (run_keeps_listening trace s0 s Hrun (conj Hidle Hmail)) as [Hinv Hm].
  cbn in Hresult.
  destruct (VoiceLoop.recognition s) eqn:Hrec; try discriminate Hresult.
  injection Hresult as <-. specialize (Hinv Hrec).
  unfold VoiceLoop.onresult, VoiceLoop.handleUserSpeech. cbn.
  rewrite Hm, Hinv. cbn.
  destruct (VoiceLoop.sessionId s); cbn; rewrite length_app; cbn;
    repeat split; auto; lia.
Qed.

Lemma recognised_speech_starts_a_turn_witness :
  exists s s',
    VoiceLoop.run (firstn 6 VoiceLoop.overlappingTrace) VoiceLoop.mounted = Some s /\
    VoiceLoop.step VoiceLoop.RecognitionResult s = Some s' /\
    VoiceLoop.isProcessingRef s = false /\
    VoiceLoop.isProcessingRef s' = true /\
    length (VoiceLoop.pending s') = S (length (VoiceLoop.pending s)).
Proof.
  destruct (VoiceLoop.run (firstn 6 VoiceLoop.overlappingTrace) VoiceLoop.mounted)
    as [s |] eqn:Hrun; [ | vm_compute in Hrun; discriminate Hrun ].
  destruct (VoiceLoop.step VoiceLoop.RecognitionResult s) as [s' |] eqn:Hstep.
  - exists s, s'. split; [ reflexivity | split; [ exact Hstep | ] ].
    apply (recognised_speech_starts_a_turn VoiceLoop.mounted s s'
             (firstn 6 VoiceLoop.overlappingTrace));
      [ intros H; discriminate H | reflexivity | exact Hrun | exact Hstep ].
  - vm_compute in Hrun. injection Hrun as <-. vm_compute in Hstep. discriminate Hstep.
Defined.

(** A component that cannot speak (no speech synthesis, or audio off) never
    has more than one activation of [handleUserSpeech] suspended, hence
    never more than one chat request in flight, whatever the order of
    events. *)
Theorem mute_component_is_serial
    (s0 s : VoiceLoop.Voice) (trace : list VoiceLoop.Event)
    (Hstart : VoiceInvariant.muteAndSerial s0)
    (Hrun : VoiceLoop.run trace s0 = Some s) :
  (length (VoiceLoop.pending s) <= 1)%nat /\
  (length (VoiceLoop.inFlight s) <= 1)%nat /\
  (VoiceLoop.pending s <> [] -> VoiceLoop.isProcessingRef s = true).
Proof.
  destruct (run_keeps_serial trace s0 s Hrun Hstart) as (_ & _ & _ & Hl & Hi).
  pose proof (inFlight_length s). repeat split; try lia.
  intros Hne. destruct (VoiceLoop.isProcessingRef s); [ reflexivity | ].
  elim Hne. apply Hi. reflexivity.
Qed.

Lemma mute_component_is_serial_witness :
  VoiceInvariant.muteAndSerial VoiceInvariant.mountedMute /\
  exists s,
    VoiceLoop.run VoiceInvariant.muteTrace VoiceInvariant.mountedMute = Some s /\
    (length (VoiceLoop.inFlight s) <= 1)%nat.
Proof.
  assert (Hstart : VoiceInvariant.muteAndSerial VoiceInvariant.mountedMute).
  { unfold VoiceInvariant.muteAndSerial. cbn. repeat split; auto.
    intros [H | []]; discriminate H. }
  split; [ exact Hstart | ].
  destruct (VoiceLoop.run VoiceInvariant.muteTrace VoiceInvariant.mountedMute)
    as [s |] eqn:Hrun; [ | vm_compute in Hrun; discriminate Hrun ].
  exists s. split; [ reflexivity | ].
  exact (proj1 (proj2 (mute_component_is_serial _ s _ Hstart Hrun))).
Defined.


(* ===================================================================== *)
(** * Properties of the brain-growing indicator and the materials page *)
(* ===================================================================== *)

Section BrainGrowthFacts.

Import Materials BrainGrowth.
Local Open Scope string_scope.

(** What a node can show, by stage. *)
Lemma getStageProgress_values (stage : string) :
  (stage = "mastered" /\ getStageProgress stage = Percent 100) \/
  (stage = "user_taught" /\ getStageProgress stage = Percent 66) \/
  (stage = "buddy_taught" /\ getStageProgress stage = Percent 33) \/
  (stage <> "mastered" /\ stage <> "user_taught" /\ stage <> "buddy_taught" /\
   JsObject.inherited stage = false /\ getStageProgress stage = Percent 0) \/
  (stage <> "mastered" /\ stage <> "user_taught" /\ stage <> "buddy_taught" /\
   JsObject.inherited stage = true /\ getStageProgress stage = PrototypeMember stage).
Proof.
  destruct (string_dec stage "mastered") as [-> | H1]; [ left; split; reflexivity | ].
  destruct (string_dec stage "user_taught") as [-> | H2];
    [ right; left; split; reflexivity | ].
  destruct (string_dec stage "buddy_taught") as [-> | H3];
    [ right; right; left; split; reflexivity | ].
  right. right. right.
  destruct (JsObject.inherited stage) eqn:Hin; [ right | left ];
    repeat split; try assumption.
  - apply getStageProgress_inherited, Hin.
  - apply getStageProgress_other; assumption.
Qed.

Lemma progressSum_cons (m : Material) (ms : list Material) :
  progressSum (m :: ms)
  = fold_left (fun sum x => add sum (getStageProgress (stageOf x))) ms
      (add (Total 0) (getStageProgress (stageOf m))).
Proof. reflexivity. Qed.

(** The sum of a list whose stages all have numbers. *)
Lemma progressSum_numbered (ms : list Material) :
  (forall m, In m ms -> JsObject.inherited (stageOf m) = false) ->
  exists s, progressSum ms = Total s /\
            (0 <= s <= 100 * Z.of_nat (length ms))%Z /\
            (s = (100 * Z.of_nat (length ms))%Z <->
             forall m, In m ms -> stageOf m = "mastered").
Proof.
  induction ms as [| m ms IH]; intros Hnum.
  - exists 0%Z. split; [ reflexivity | ]. split; [ cbn; lia | ].
    split; [ intros _ ? [] | reflexivity ].
  - destruct IH as (s & Hs & Hb & Hfull).
    { intros x Hx. apply Hnum. right. exact Hx. }
    pose proof (Hnum m (or_introl eq_refl)) as Hm.
    assert (Hins : forall n, getStageProgress (stageOf m) = Percent n ->
                             progressSum (m :: ms) = Total (s + n)).
    { intros n Hn. apply (progressSum_insert [] ms m n s Hn Hs). }
    cbn [length].
    destruct (getStageProgress_values (stageOf m))
      as [[Hst Hv] | [[Hst Hv] | [[Hst Hv] | [(H1 & H2 & H3 & _ & Hv)
                                             | (_ & _ & _ & Hin & _)]]]];
      [ | | | | congruence ].
    + exists (s + 100)%Z. split; [ apply Hins, Hv | ]. split; [ lia | ].
      split.
      * intros Hsum x [<- | Hx]; [ exact Hst | ].
        apply Hfull; [ lia | exact Hx ].
      * intros Hall.
        assert (s = (100 * Z.of_nat (length ms))%Z)
          by (apply Hfull; intros x Hx; apply Hall; right; exact Hx).
        lia.
    + exists (s + 66)%Z. split; [ apply Hins, Hv | ]. split; [ lia | ].
      split; [ lia | ]. intros Hall.
      specialize (Hall m (or_introl eq_refl)). congruence.
    + exists (s + 33)%Z. split; [ apply Hins, Hv | ]. split; [ lia | ].
      split; [ lia | ]. intros Hall.
      specialize (Hall m (or_introl eq_refl)). congruence.
    + exists (s + 0)%Z. split; [ apply Hins, Hv | ]. split; [ lia | ].
      split; [ lia | ]. intros Hall.
      specialize (Hall m (or_introl eq_refl)). contradiction.
Qed.

(** One stage without a number spoils the sum. *)
Lemma progressSum_spoiled (ms : list Material) (m : Material) :
  In m ms -> JsObject.inherited (stageOf m) = true ->
  progressSum ms = Concatenated.
Proof.
  intros Hin Hm. apply in_split in Hin as (pre & post & ->).
  rewrite progressSum_app. cbn [fold_left].
  rewrite (getStageProgress_inherited _ Hm).
  destruct (progressSum pre); cbn [add]; apply fold_concatenated.
Qed.

End BrainGrowthFacts.

Section QuotientFacts.

Local Open Scope Q_scope.

Lemma Qdiv_ge_iff (x c k : Q) : 0 < c -> (k <= x / c <-> k * c <= x).
Proof.
  intros Hc. split.
  - intros H.
    assert (E : x == x / c * c)
      by (field; intros E; rewrite E in Hc; discriminate).
    apply (Qle_trans _ (x / c * c)).
    + apply Qmult_le_compat_r; [ exact H | apply Qlt_le_weak, Hc ].
    + rewrite <- E. apply Qle_refl.
  - intros H. apply Qle_shift_div_l; assumption.
Qed.

(** An average of [n > 0] integers, compared with an integer. *)
Lemma average_le (sum k : Z) (n : nat) :
  (0 < n)%nat ->
  (inject_Z sum / inject_Z (Z.of_nat n) <= inject_Z k
   <-> (sum <= k * Z.of_nat n)%Z).
Proof.
  intros Hn. rewrite Qdiv_le_iff.
  - rewrite <- inject_Z_mult, <- Zle_Qle. reflexivity.
  - change 0 with (inject_Z 0). rewrite <- Zlt_Qlt. lia.
Qed.

Lemma average_ge (sum k : Z) (n : nat) :
  (0 < n)%nat ->
  (inject_Z k <= inject_Z sum / inject_Z (Z.of_nat n)
   <-> (k * Z.of_nat n <= sum)%Z).
Proof.
  intros Hn. rewrite Qdiv_ge_iff.
  - rewrite <- inject_Z_mult, <- Zle_Qle. reflexivity.
  - change 0 with (inject_Z 0). rewrite <- Zlt_Qlt. lia.
Qed.

End QuotientFacts.

(** The brain-growth percentage is 0 without materials.  When no stage
    of the list names a member of [Object.prototype] it is a number
    between 0 and 100, which for a list that is not empty is 100 exactly
    when every listed material is at the mastered stage.  When some stage
    of the list names such a member it is [NaN]. *)
Theorem brain_growth_percentage (materials : list Materials.Material) :
  (materials = [] -> Materials.totalProgress materials = Materials.Finite 0) /\
  ((forall m, In m materials -> JsObject.inherited (Materials.stageOf m) = false) ->
   exists q,
     Materials.totalProgress materials = Materials.Finite q /\
     (0 <= q)%Q /\ (q <= inject_Z 100)%Q /\
     (materials <> [] ->
      ((q == inject_Z 100)%Q <->
       forall m, In m materials -> Materials.stageOf m = "mastered"%string))) /\
  ((exists m, In m materials /\ JsObject.inherited (Materials.stageOf m) = true) ->
   Materials.totalProgress materials = Materials.NaN).
Proof.
  split; [ intros ->; reflexivity | split ].
  - intros Hnum. destruct (progressSum_numbered materials Hnum) as (s & Hs & Hb & Hfull).
    destruct materials as [| m ms].
    + exists 0%Q. split; [ reflexivity | ]. split; [ apply Qle_refl | ].
      split; [ unfold Qle; cbn; lia | ]. intros Hne. elim Hne. reflexivity.
    + set (l := m :: ms) in *.
      assert (Hn : (0 < length l)%nat) by (cbn; lia).
      exists (inject_Z s / inject_Z (Z.of_nat (length l)))%Q.
      split; [ unfold Materials.totalProgress; subst l; rewrite Hs; reflexivity | ].
      split; [ | split ].
      * change 0%Q with (inject_Z 0). apply average_ge; [ exact Hn | lia ].
      * apply average_le; [ exact Hn | lia ].
      * intros _. rewrite <- Hfull. split.
        -- intros H. apply Z.le_antisymm; [ lia | ].
           apply (average_ge _ _ _ Hn). rewrite H. apply Qle_refl.
        -- intros H. apply Qle_antisym.
           ++ apply average_le; [ exact Hn | lia ].
           ++ apply average_ge; [ exact Hn | lia ].
  - intros (m & Hin & Hm).
    pose proof (progressSum_spoiled materials m Hin Hm) as Hsum.
    destruct materials as [| x xs]; [ destruct Hin | ].
    unfold Materials.totalProgress. rewrite Hsum. reflexivity.
Qed.

(** The node of a material is drawn with the full gradient and a sparkle
    exactly at the mastered stage, with the middle gradient exactly at
    user_taught, and with the lowest gradient at every other stage; the
    gradient for 75 to 99 percent is never used.  A node whose stage names
    no member of [Object.prototype] shimmers exactly when it does not
    sparkle; a node whose stage names such a member does neither. *)
Theorem neuron_fill_by_stage (m : Materials.Material) :
  (Materials.stageOf m = "mastered"%string <->
   BrainGrowth.neuronFill (BrainGrowth.nodeProgress m)
     = "bg-gradient-to-t from-emerald-400 to-emerald-300"%string) /\
  (Materials.stageOf m = "user_taught"%string <->
   BrainGrowth.neuronFill (BrainGrowth.nodeProgress m)
     = "bg-gradient-to-t from-purple-400 to-purple-300"%string) /\
  (Materials.stageOf m <> "mastered"%string ->
   Materials.stageOf m <> "user_taught"%string ->
   BrainGrowth.neuronFill (BrainGrowth.nodeProgress m)
     = "bg-gradient-to-t from-purple-500 to-purple-400"%string) /\
  BrainGrowth.neuronFill (BrainGrowth.nodeProgress m)
    <> "bg-gradient-to-t from-emerald-500 to-purple-400"%string /\
  (BrainGrowth.sparkles (BrainGrowth.nodeProgress m) = true <->
   Materials.stageOf m = "mastered"%string) /\
  (JsObject.inherited (Materials.stageOf m) = false ->
   BrainGrowth.shimmers (BrainGrowth.nodeProgress m)
     = negb (BrainGrowth.sparkles (BrainGrowth.nodeProgress m))) /\
  (JsObject.inherited (Materials.stageOf m) = true ->
   BrainGrowth.shimmers (BrainGrowth.nodeProgress m) = false /\
   BrainGrowth.sparkles (BrainGrowth.nodeProgress m) = false).
Proof.
  unfold BrainGrowth.nodeProgress.
  destruct (getStageProgress_values (Materials.stageOf m))
    as [[Hs Hv] | [[Hs Hv] | [[Hs Hv] | [(H1 & H2 & H3 & Hown & Hv)
                                        | (H1 & H2 & H3 & Hin & Hv)]]]];
    rewrite Hv; clear Hv;
    [ rewrite Hs | rewrite Hs | rewrite Hs | rewrite Hown | rewrite Hin ];
    cbn; repeat split; intros; try reflexivity; try discriminate;
    try congruence.
Qed.

Section TileFacts.

Import Materials EvolutionTiles.
Local Open Scope string_scope.

(** [indexOf] answers [-1] for a text that is not in the list. *)
Lemma indexOfFrom_absent (i : Z) (l : list string) (x : string) :
  ~ In x l -> indexOfFrom i l x = (-1)%Z.
Proof.
  revert i. induction l as [| y l IH]; intros i Hnot; [ reflexivity | ].
  cbn [indexOfFrom]. destruct (String.eqb_spec y x) as [-> | Hne].
  - elim Hnot. left. reflexivity.
  - apply IH. intros Hin. apply Hnot. right. exact Hin.
Qed.

End TileFacts.

(** The evolution path of a material whose stage is one of the five known
    stages shows the tiles before that stage as completed, exactly that
    stage's tile as current and the tiles after it as locked.  For any
    other stage text no tile is completed or current and all five are
    locked.  A material without a stage is shown at the first tile. *)
Theorem evolution_path_tiles (m : Materials.Material) :
  (In (Materials.stageOf m) Materials.stageOrder ->
   exists before after,
     EvolutionTiles.tiles = before ++ Materials.stageOf m :: after /\
     EvolutionTiles.completedTiles m = before /\
     EvolutionTiles.currentTiles m = [Materials.stageOf m] /\
     EvolutionTiles.lockedTiles m = after) /\
  (~ In (Materials.stageOf m) Materials.stageOrder ->
   EvolutionTiles.completedTiles m = [] /\
   EvolutionTiles.currentTiles m = [] /\
   EvolutionTiles.lockedTiles m = EvolutionTiles.tiles) /\
  (Materials.learning_stage m = None ->
   EvolutionTiles.currentTiles m = ["uploaded"%string]).
Proof.
  unfold EvolutionTiles.completedTiles, EvolutionTiles.currentTiles,
    EvolutionTiles.lockedTiles.
  split; [ | split ].
  - intros Hin. cbn in Hin.
    destruct Hin as [<- | [<- | [<- | [<- | [<- | []]]]]].
    + exists [], ["buddy_taught"; "user_taught"; "mastered"; "expert"]%string.
      repeat split; reflexivity.
    + exists ["uploaded"]%string, ["user_taught"; "mastered"; "expert"]%string.
      repeat split; reflexivity.
    + exists ["uploaded"; "buddy_taught"]%string, ["mastered"; "expert"]%string.
      repeat split; reflexivity.
    + exists ["uploaded"; "buddy_taught"; "user_taught"]%string, ["expert"]%string.
      repeat split; reflexivity.
    + exists ["uploaded"; "buddy_taught"; "user_taught"; "mastered"]%string, [].
      repeat split; reflexivity.
  - intros Hnot.
    pose proof (indexOfFrom_absent 0 _ _ Hnot) as Habs.
    unfold Materials.isCompleted, Materials.isCurrent, EvolutionTiles.isLocked,
      Materials.indexOf.
    rewrite Habs. repeat split; reflexivity.
  - intros Hnone. unfold Materials.stageOf. rewrite Hnone. reflexivity.
Qed.

Section DeleteFacts.

Import MaterialsPage.

Lemma remaining_length (target : Z) (rows : list Row) :
  List.NoDup (map id rows) -> In target (map id rows) ->
  S (length (List.filter (fun m => negb (id m =? target)%Z) rows)) = length rows.
Proof.
  induction rows as [| r rows IH]; intros Hnd Hin; [ destruct Hin | ].
  cbn [map] in Hnd, Hin. apply List.NoDup_cons_iff in Hnd as [Hfresh Hnd].
  cbn [List.filter length].
  destruct (Z.eqb_spec (id r) target) as [Heq | Hne]; cbn [negb].
  - f_equal. rewrite <- Heq.
    assert (Hsame : List.filter (fun m => negb (id m =? id r)%Z) rows = rows).
    { clear IH Hin Hnd. induction rows as [| r' rows IH]; [ reflexivity | ].
      cbn [List.filter]. cbn [map] in Hfresh.
      destruct (Z.eqb_spec (id r') (id r)) as [E | _]; cbn [negb].
      - elim Hfresh. left. exact E.
      - f_equal. apply IH. intros Hin. apply Hfresh. right. exact Hin. }
    rewrite Hsame. reflexivity.
  - cbn [length]. f_equal. apply IH; [ exact Hnd | ].
    destruct Hin as [E | Hin]; [ contradiction | exact Hin ].
Qed.

End DeleteFacts.

(** A delete that the user confirmed and the server answered ok sets the
    list to the list of the render in which the button was clicked,
    without the row of that id, whatever the list shows by then.  With
    distinct ids and a listed id: the id is gone, every other row of that
    render is there, the list is one row shorter than that render's, and
    deleting the same id again from the new list changes nothing.  So
    when two deletes were clicked in the same render, the answer that
    arrives second brings back the row that the first answer had
    removed.  Without the confirmation, or when the request fails, the
    list stays as it is shown. *)
Theorem delete_material
    (rows shown : list MaterialsPage.Row) (target : Z)
    (Hunique : List.NoDup (map MaterialsPage.id rows))
    (Hlisted : In target (map MaterialsPage.id rows)) :
  fst (MaterialsPage.handleDelete true (MaterialsPage.DeleteAnswered true)
         target rows shown)
    = fst (MaterialsPage.handleDelete true (MaterialsPage.DeleteAnswered true)
             target rows rows) /\
  ~ In target
      (map MaterialsPage.id
         (fst (MaterialsPage.handleDelete true (MaterialsPage.DeleteAnswered true)
                 target rows shown))) /\
  (forall r, MaterialsPage.id r <> target ->
     (In r (fst (MaterialsPage.handleDelete true (MaterialsPage.DeleteAnswered true)
                   target rows shown))
      <-> In r rows)) /\
  S (length (fst (MaterialsPage.handleDelete true (MaterialsPage.DeleteAnswered true)
                    target rows shown)))
    = length rows /\
  (forall after,
     after = fst (MaterialsPage.handleDelete true (MaterialsPage.DeleteAnswered true)
                    target rows shown) ->
     fst (MaterialsPage.handleDelete true (MaterialsPage.DeleteAnswered true) target
            after after) = after) /\
  (forall (other : Z) (r : MaterialsPage.Row),
     In r rows -> MaterialsPage.id r = other -> other <> target ->
     ~ In r (fst (MaterialsPage.handleDelete true (MaterialsPage.DeleteAnswered true)
                    other rows rows)) /\
     In r (fst (MaterialsPage.handleDelete true (MaterialsPage.DeleteAnswered true)
                  target rows
                  (fst (MaterialsPage.handleDelete true
                          (MaterialsPage.DeleteAnswered true) other rows rows))))) /\
  (forall o, fst (MaterialsPage.handleDelete false o target rows shown) = shown) /\
  fst (MaterialsPage.handleDelete true (MaterialsPage.DeleteAnswered false)
         target rows shown) = shown /\
  fst (MaterialsPage.handleDelete true MaterialsPage.DeleteThrew target rows shown)
    = shown.
Proof.
  cbn [MaterialsPage.handleDelete negb fst].
  split; [ reflexivity | ].
  split; [ | split; [ | split; [ | split; [ | split ] ] ] ].
  - rewrite in_map_iff. intros (r & Hid & Hin).
    apply List.filter_In in Hin as [_ Hkeep].
    rewrite Hid, Z.eqb_refl in Hkeep. discriminate Hkeep.
  - intros r Hne. rewrite List.filter_In. split; [ intros [H _]; exact H | ].
    intros Hin. split; [ exact Hin | ].
    destruct (Z.eqb_spec (MaterialsPage.id r) target); [ contradiction | reflexivity ].
  - apply remaining_length; assumption.
  - intros after ->. clear Hunique Hlisted.
    induction rows as [| x l IHl]; [ reflexivity | ].
    cbn [List.filter].
    destruct (negb (MaterialsPage.id x =? target)) eqn:Hk; cbn [List.filter].
    + rewrite Hk. f_equal. exact IHl.
    + exact IHl.
  - intros other r Hin Hid Hne. split.
    + rewrite List.filter_In. intros [_ Hkeep].
      rewrite Hid, Z.eqb_refl in Hkeep. discriminate Hkeep.
    + rewrite List.filter_In. split; [ exact Hin | ].
      destruct (Z.eqb_spec (MaterialsPage.id r) target); [ congruence | reflexivity ].
  - repeat split; reflexivity.
Qed.

Lemma delete_material_witness :
  List.NoDup (map MaterialsPage.id
           [ MaterialsPage.mkRow 3 (Materials.mkMaterial "a.pdf" None);
             MaterialsPage.mkRow 5 (Materials.mkMaterial "b.pdf" (Some "mastered"%string)) ]) /\
  In 5 (map MaterialsPage.id
           [ MaterialsPage.mkRow 3 (Materials.mkMaterial "a.pdf" None);
             MaterialsPage.mkRow 5 (Materials.mkMaterial "b.pdf" (Some "mastered"%string)) ]) /\
  ~ In 5
      (map MaterialsPage.id
         (fst (MaterialsPage.handleDelete true (MaterialsPage.DeleteAnswered true) 5
                 [ MaterialsPage.mkRow 3 (Materials.mkMaterial "a.pdf" None);
                   MaterialsPage.mkRow 5
                     (Materials.mkMaterial "b.pdf" (Some "mastered"%string)) ]
                 [ MaterialsPage.mkRow 5
                     (Materials.mkMaterial "b.pdf" (Some "mastered"%string)) ]))) /\
  In (MaterialsPage.mkRow 3 (Materials.mkMaterial "a.pdf" None))
     (fst (MaterialsPage.handleDelete true (MaterialsPage.DeleteAnswered true) 5
             [ MaterialsPage.mkRow 3 (Materials.mkMaterial "a.pdf" None);
               MaterialsPage.mkRow 5
                 (Materials.mkMaterial "b.pdf" (Some "mastered"%string)) ]
             [ MaterialsPage.mkRow 5
                 (Materials.mkMaterial "b.pdf" (Some "mastered"%string)) ])).
Proof.
  assert (Hu : List.NoDup (map MaterialsPage.id
           [ MaterialsPage.mkRow 3 (Materials.mkMaterial "a.pdf" None);
             MaterialsPage.mkRow 5 (Materials.mkMaterial "b.pdf" (Some "mastered"%string)) ])).
  { cbn. repeat constructor; cbn; intuition discriminate. }
  assert (Hl : In 5 (map MaterialsPage.id
           [ MaterialsPage.mkRow 3 (Materials.mkMaterial "a.pdf" None);
             MaterialsPage.mkRow 5 (Materials.mkMaterial "b.pdf" (Some "mastered"%string)) ])).
  { cbn. right. left. reflexivity. }
  split; [ exact Hu | split; [ exact Hl | ] ].
  pose proof (delete_material _
                [ MaterialsPage.mkRow 5
                    (Materials.mkMaterial "b.pdf" (Some "mastered"%string)) ]
                5 Hu Hl) as (_ & Hgone & Hrest & _).
  split; [ exact Hgone | ].
  apply Hrest; [ discriminate | left; reflexivity ].
Defined.

Section AvatarFacts.

Import Avatars.
Local Open Scope string_scope.

Lemma avatar_lookup (table : gmap string string) (id : string) :
  table = AVATAR_ICONS \/ table = SIDEBAR_AVATAR_ICONS ->
  table !! id =
    if decide (id = "seedling") then Some "🌱"
    else if decide (id = "sprout") then Some "🌿"
    else if decide (id = "brain") then Some "🧠"
    else if decide (id = "robot") then Some "🤖"
    else if decide (id = "sparkles") then Some "✨"
    else if decide (id = "rocket") then Some "🚀"
    else if decide (id = "star") then Some "⭐"
    else if decide (id = "ghost") then Some "👻"
    else None.
Proof.
  intros [-> | ->]; unfold AVATAR_ICONS, SIDEBAR_AVATAR_ICONS;
    cbn [list_to_map foldr fst snd];
    repeat case_decide; subst; simplify_map_eq; reflexivity.
Qed.

(** No avatar of the dialog is named like a member of [Object.prototype]. *)
Lemma offered_not_inherited (id label icon : string) :
  In (id, label, icon) AVATARS -> JsObject.inherited id = false.
Proof.
  intros Hin. cbn in Hin.
  repeat (destruct Hin as [Hin | Hin]; [ injection Hin as <- _ _; reflexivity | ]).
  destruct Hin.
Qed.

End AvatarFacts.

(** Every avatar that the customisation dialog offers is shown by the buddy
    page and by the sidebar with the icon the dialog shows for it.  An
    avatar id that the dialog does not offer is shown by both as the
    seedling, unless it names a member of [Object.prototype]: then both
    hand that member to the page instead of an icon.  The two places
    agree for every id. *)
Theorem avatar_icons_agree :
  (forall id label icon,
      In (id, label, icon) Avatars.AVATARS ->
      Avatars.pageIcon id = Avatars.Icon icon /\
      Avatars.sidebarIcon id = Avatars.Icon icon) /\
  (forall id,
      (forall label icon, ~ In (id, label, icon) Avatars.AVATARS) ->
      JsObject.inherited id = false ->
      Avatars.pageIcon id = Avatars.Icon "🌱" /\
      Avatars.sidebarIcon id = Avatars.Icon "🌱") /\
  (forall id,
      JsObject.inherited id = true ->
      (forall label icon, ~ In (id, label, icon) Avatars.AVATARS) /\
      Avatars.pageIcon id = Avatars.PrototypeMember id /\
      Avatars.sidebarIcon id = Avatars.PrototypeMember id) /\
  (forall id, Avatars.pageIcon id = Avatars.sidebarIcon id).
Proof.
  assert (Hsame : forall id, Avatars.pageIcon id = Avatars.sidebarIcon id).
  { intros id. unfold Avatars.pageIcon, Avatars.sidebarIcon, Avatars.iconIn,
      JsObject.get.
    rewrite (avatar_lookup Avatars.AVATAR_ICONS id (or_introl eq_refl)).
    rewrite (avatar_lookup Avatars.SIDEBAR_AVATAR_ICONS id (or_intror eq_refl)).
    reflexivity. }
  split; [ | split; [ | split; [ | exact Hsame ] ] ].
  - intros id label icon Hin. cbn in Hin.
    repeat (destruct Hin as [Hin | Hin];
            [ injection Hin as <- <- <-; split; vm_compute; reflexivity | ]).
    destruct Hin.
  - intros id Hnot Hown. rewrite <- (Hsame id).
    unfold Avatars.pageIcon, Avatars.iconIn, JsObject.get.
    rewrite (avatar_lookup Avatars.AVATAR_ICONS id (or_introl eq_refl)), Hown.
    repeat case_decide; subst;
      try (split; reflexivity);
      exfalso; eapply Hnot; cbn; eauto 12.
  - intros id Hin.
    assert (Hnot : forall label icon, ~ In (id, label, icon) Avatars.AVATARS).
    { intros label icon Hoff.
      rewrite (offered_not_inherited id label icon Hoff) in Hin. discriminate Hin. }
    split; [ exact Hnot | ]. rewrite <- (Hsame id).
    unfold Avatars.pageIcon, Avatars.iconIn, JsObject.get.
    rewrite (avatar_lookup Avatars.AVATAR_ICONS id (or_introl eq_refl)), Hin.
    repeat case_decide; subst; try discriminate Hin; split; reflexivity.
Qed.


(* ===================================================================== *)
(** * Properties of the chat window *)
(* ===================================================================== *)

Section NameFacts.

Import Names.

Lemma beforeFirst_clean (sep : ascii) (s : string) :
  occurs sep (beforeFirst sep s) = false.
Proof.
  induction s as [| c rest IH]; [ reflexivity | ].
  cbn [beforeFirst]. destruct (Ascii.eqb c sep) eqn:Hc; [ reflexivity | ].
  cbn [occurs]. rewrite Hc. exact IH.
Qed.

Lemma beforeFirst_split (sep : ascii) (s : string) :
  (occurs sep s = false /\ beforeFirst sep s = s) \/
  (exists rest, s = (beforeFirst sep s ++ String sep rest)%string).
Proof.
  induction s as [| c rest IH]; [ left; split; reflexivity | ].
  cbn [beforeFirst occurs]. destruct (Ascii.eqb_spec c sep) as [-> | Hne].
  - right. exists rest. reflexivity.
  - cbn [orb]. destruct IH as [[Hno Heq] | [tail Heq]].
    + left. split; [ exact Hno | rewrite Heq; reflexivity ].
    + right. exists tail.
      change (String c rest
              = String c (beforeFirst sep rest ++ String sep tail)%string).
      f_equal. exact Heq.
Qed.

Lemma occurs_after (sep : ascii) (a rest : string) :
  occurs sep (a ++ String sep rest)%string = true.
Proof.
  induction a as [| c a IH].
  - change (occurs sep (String sep rest) = true).
    cbn [occurs]. rewrite Ascii.eqb_refl. reflexivity.
  - change (occurs sep (String c (a ++ String sep rest)%string) = true).
    cbn [occurs]. rewrite IH. apply orb_true_r.
Qed.

Lemma beforeFirst_whole (sep : ascii) (s : string) :
  occurs sep s = false -> beforeFirst sep s = s.
Proof.
  intros Hno. destruct (beforeFirst_split sep s) as [[_ H] | [rest H]]; [ exact H | ].
  assert (Hyes : occurs sep s = true) by (rewrite H; apply occurs_after).
  congruence.
Qed.

End NameFacts.

(** The first name used in the greeting, and the default display name
    taken from an e-mail address, are the text before the first separator
    (a space, an at sign): they never contain the separator, they are the
    whole text when it has none, and otherwise the text is the name, the
    separator and a rest. *)
Theorem first_piece_of_split (s : string) :
  Names.occurs " "%char (Names.firstName s) = false /\
  Names.occurs "@"%char (Names.localPart s) = false /\
  (Names.occurs " "%char s = false -> Names.firstName s = s) /\
  (Names.occurs "@"%char s = false -> Names.localPart s = s) /\
  (Names.occurs " "%char s = true ->
   exists rest, s = (Names.firstName s ++ String " "%char rest)%string) /\
  (Names.occurs "@"%char s = true ->
   exists rest, s = (Names.localPart s ++ String "@"%char rest)%string).
Proof.
  unfold Names.firstName, Names.localPart.
  repeat split; try apply beforeFirst_clean.
  - apply beforeFirst_whole.
  - apply beforeFirst_whole.
  - intros Hyes. destruct (beforeFirst_split " "%char s) as [[Hno _] | H];
      [ congruence | exact H ].
  - intros Hyes. destruct (beforeFirst_split "@"%char s) as [[Hno _] | H];
      [ congruence | exact H ].
Qed.

Section ChatFacts2.

Import ChatWindow.

Variable isBlank : string -> bool.
Variable parseInt : string -> option Z.






End ChatFacts2.

Lemma created_session_not_reloaded
    (isBlank : string -> bool) (parseInt : string -> option Z)
    (userName materialContext : option string)
    (answer : ChatWindow.HistoryAnswer) (v : ChatErrors.JsVal)
    (o : ChatErrors.ChatOutcome) (c : ChatWindow.Chat) :
  isBlank (ChatWindow.input c) = false ->
  ChatErrors.truthy (ChatWindow.held (ChatWindow.currentSessionId c)) = false ->
  ChatErrors.truthy v = true ->
  ChatWindow.fetchHistory true userName materialContext
    (Some (ChatErrors.toText v)) answer
    (fst (ChatWindow.handleSubmit isBlank parseInt true
            (ChatWindow.SessionAnswered v) o c))
  = fst (ChatWindow.handleSubmit isBlank parseInt true
           (ChatWindow.SessionAnswered v) o c).
Proof.
  intros Hb Hc Hv. pose proof (truthy_text v Hv) as Ht.
  unfold ChatWindow.handleSubmit. rewrite Hb.
  cbn [orb negb fst]. unfold ChatWindow.fetchHistory, ChatWindow.sessionAfter.
  cbn [negb ChatWindow.currentSessionId ChatWindow.messages].
  rewrite Hc, Hv. cbn [ChatWindow.held ChatErrors.truthy].
  destruct (String.eqb_spec (ChatErrors.toText v) ""%string) as [E | _];
    [ contradiction | ].
  cbn [negb]. rewrite String.eqb_refl. rewrite !length_app. cbn [length andb].
  replace (0 <? _)%nat with true; [ reflexivity | ].
  symmetry. apply Nat.ltb_lt. lia.
Qed.





(* ===================================================================== *)
(** * Properties of signing in and out *)
(* ===================================================================== *)

Section AuthFacts.

Import Auth.

Lemma orText_nonempty (v : option string) (d : string) :
  d <> ""%string -> StatsContext.orText v d <> ""%string.
Proof.
  intros Hd. unfold StatsContext.orText. destruct v as [s |]; [ | exact Hd ].
  destruct (String.eqb_spec s ""%string); [ exact Hd | assumption ].
Qed.

Lemma loginError_nonempty (a : LoginAnswer) (m : string) :
  loginError a = Some m -> m <> ""%string.
Proof.
  intros H.
  assert (Hm : m = match loginError a with Some x => x | None => m end)
    by (rewrite H; reflexivity).
  destruct a; try discriminate H; rewrite Hm; clear H Hm;
    unfold loginError, orElse; apply orText_nonempty; discriminate.
Qed.

Lemma loginError_granted (a : LoginAnswer) :
  loginError a = None -> exists tok p, a = LoginGranted tok p.
Proof.
  destruct a; intros H; try discriminate H. eauto.
Qed.

Lemma levelOr1_nonzero (l : option Z) : levelOr1 l <> 0.
Proof.
  unfold levelOr1. destruct l as [v |]; [ | discriminate ].
  destruct (Z.eqb_spec v 0); [ discriminate | assumption ].
Qed.

End AuthFacts.

(** A login that fails signs nobody in and stores nothing: the user, the
    stored entries and the route are as before; the state's error and the
    returned error are the same, non-empty message; [isLoading] is off. *)
Theorem failed_login_changes_only_the_error
    (email : string) (name0 : option string)
    (a : Auth.LoginAnswer) (st : Auth.AuthState) (m : string)
    (Hfails : Auth.loginError a = Some m) :
  Auth.user (fst (Auth.login email name0 a st)) = Auth.user st /\
  Auth.storage (fst (Auth.login email name0 a st)) = Auth.storage st /\
  Auth.route (fst (Auth.login email name0 a st)) = Auth.route st /\
  Auth.error (fst (Auth.login email name0 a st)) = Some m /\
  snd (Auth.login email name0 a st) = (false, Some m) /\
  Auth.isLoading (fst (Auth.login email name0 a st)) = false /\
  m <> ""%string.
Proof.
  pose proof (loginError_nonempty a m Hfails) as Hne.
  destruct a; try discriminate Hfails;
    unfold Auth.login; rewrite Hfails; cbn [fst snd Auth.user Auth.storage
      Auth.route Auth.error Auth.isLoading]; repeat split; assumption.
Qed.

Lemma failed_login_changes_only_the_error_witness :
  Auth.loginError (Auth.LoginRefused (Some ""%string)) = Some "Login failed"%string /\
  Auth.user (fst (Auth.login "ada@example.org" None
                    (Auth.LoginRefused (Some ""%string)) Auth.signedOut)) = None /\
  snd (Auth.login "ada@example.org" None
         (Auth.LoginRefused (Some ""%string)) Auth.signedOut)
    = (false, Some "Login failed"%string).
Proof.
  split; [ reflexivity | ].
  pose proof (failed_login_changes_only_the_error "ada@example.org" None
                (Auth.LoginRefused (Some ""%string)) Auth.signedOut
                "Login failed"%string eq_refl) as (Hu & _ & _ & _ & Hr & _).
  split; [ exact Hu | exact Hr ].
Defined.

(** A granted login signs the user in under the e-mail that was entered,
    with the access token and a level that is never 0, and stores user and
    token; a page load afterwards restores exactly that user, and after a
    logout nothing is stored and a page load restores nobody. *)
Theorem login_survives_reload_until_logout
    (email : string) (name0 : option string) (access_token : string)
    (p : Auth.ProfileAnswer) (st : Auth.AuthState) :
  exists u,
    Auth.user (fst (Auth.login email name0 (Auth.LoginGranted access_token p) st))
      = Some u /\
    Auth.email u = email /\
    Auth.token u = Some access_token /\
    Auth.level u <> 0 /\
    snd (Auth.login email name0 (Auth.LoginGranted access_token p) st) = (true, None) /\
    Auth.stored_token
      (Auth.storage
         (fst (Auth.login email name0 (Auth.LoginGranted access_token p) st)))
      = Some access_token /\
    Auth.user
      (Auth.mount
         (Auth.storage
            (fst (Auth.login email name0 (Auth.LoginGranted access_token p) st))))
      = Some u /\
    Auth.user
      (Auth.mount
         (Auth.storage
            (Auth.logout
               (fst (Auth.login email name0 (Auth.LoginGranted access_token p) st)))))
      = None /\
    Auth.storage
      (Auth.logout
         (fst (Auth.login email name0 (Auth.LoginGranted access_token p) st)))
      = Auth.mkStorage None None.
Proof.
  exists (Auth.loggedInUser email name0 access_token p).
  repeat split; try reflexivity.
  - destruct p; reflexivity.
  - destruct p; reflexivity.
  - destruct p; cbn; [ discriminate | apply levelOr1_nonzero ].
Qed.

(** When the registration is accepted but the automatic login fails,
    [signup] still answers [true]: nobody is signed in, the login's error
    message is in the state, and the signup page shows no alert and keeps
    its form in the submitting (disabled) state. *)
Theorem signup_succeeds_without_session
    (trim : string -> string)
    (firstName lastName email password : string)
    (la : Auth.LoginAnswer) (st : Auth.AuthState) (m : string)
    (Hnobody : Auth.user st = None)
    (Hfails : Auth.loginError la = Some m) :
  snd (Auth.signup email (trim (firstName ++ " " ++ lastName)%string)
         Auth.SignupAccepted la st) = true /\
  Auth.user (fst (Auth.signup email (trim (firstName ++ " " ++ lastName)%string)
                    Auth.SignupAccepted la st)) = None /\
  Auth.error (fst (Auth.signup email (trim (firstName ++ " " ++ lastName)%string)
                     Auth.SignupAccepted la st)) = Some m /\
  Auth.isSubmitting
    (Auth.handleSubmit trim firstName lastName email password password
       Auth.SignupAccepted la st) = true /\
  Auth.alert
    (Auth.handleSubmit trim firstName lastName email password password
       Auth.SignupAccepted la st) = None /\
  Auth.user
    (Auth.auth
       (Auth.handleSubmit trim firstName lastName email password password
          Auth.SignupAccepted la st)) = None.
Proof.
  unfold Auth.handleSubmit. rewrite String.eqb_refl. cbn [negb].
  unfold Auth.signup.
  destruct la; try discriminate Hfails;
    unfold Auth.login; rewrite Hfails; cbn; repeat split; assumption.
Qed.

Lemma signup_succeeds_without_session_witness :
  Auth.user Auth.signedOut = None /\
  Auth.loginError (Auth.LoginThrew "Failed to fetch") = Some "Failed to fetch"%string /\
  Auth.isSubmitting
    (Auth.handleSubmit (fun s => s) "Ada" "Lovelace" "ada@example.org" "pw" "pw"
       Auth.SignupAccepted (Auth.LoginThrew "Failed to fetch") Auth.signedOut) = true.
Proof.
  split; [ reflexivity | split; [ reflexivity | ] ].
  exact (proj1 (proj2 (proj2 (proj2
    (signup_succeeds_without_session (fun s => s) "Ada" "Lovelace" "ada@example.org"
       "pw" (Auth.LoginThrew "Failed to fetch") Auth.signedOut
       "Failed to fetch"%string eq_refl eq_refl))))).
Defined.

(* ===================================================================== *)
(** * Properties of the theme, the transcript feed and the socket address *)
(* ===================================================================== *)

(** After the theme effect has run, the root element carries the class of
    the current theme and not the other one, it carries "high-contrast"
    exactly when high contrast is on, every other class is as before, and
    running the effect again changes nothing.  Switching the dark-mode
    setting makes "dark" a class of the root exactly when it is switched
    on; switching any other setting leaves the theme classes alone. *)
Theorem root_classes_follow_theme (classes : gset string) (st : Theme.ThemeState) :
  (Theme.className (Theme.theme st) ∈ Theme.applyToRoot classes st) /\
  (Theme.className (Theme.theme (Theme.toggleTheme st)) ∉ Theme.applyToRoot classes st) /\
  (("high-contrast"%string ∈ Theme.applyToRoot classes st)
   <-> Theme.highContrast st = true) /\
  (forall c : string,
      c <> "light"%string -> c <> "dark"%string -> c <> "high-contrast"%string ->
      ((c ∈ Theme.applyToRoot classes st) <-> (c ∈ classes))) /\
  Theme.applyToRoot (Theme.applyToRoot classes st) st = Theme.applyToRoot classes st /\
  (forall value : bool,
      ("dark"%string ∈ Theme.applyToRoot classes (Theme.updateSetting "dark_mode" value st))
      <-> value = true) /\
  (forall (key : string) (value : bool),
      key <> "dark_mode"%string ->
      Theme.theme (Theme.updateSetting key value st) = Theme.theme st).
Proof.
  unfold Theme.applyToRoot.
  destruct st as [t hc]. cbn [Theme.theme Theme.highContrast Theme.toggleTheme].
  split; [ | split; [ | split; [ | split; [ | split; [ | split ] ] ] ] ].
  - destruct t, hc; cbn; set_unfold; intuition (discriminate || congruence).
  - destruct t, hc; cbn; set_unfold; intuition (discriminate || congruence).
  - destruct t, hc; cbn; set_unfold; intuition (discriminate || congruence).
  - intros c H1 H2 H3. destruct t, hc; cbn; set_unfold; intuition (discriminate || congruence).
  - destruct t, hc; cbn; set_unfold; intuition (discriminate || congruence).
  - intros value. unfold Theme.updateSetting. cbn.
    destruct value, hc; cbn; set_unfold; intuition (discriminate || congruence).
  - intros key value Hkey. unfold Theme.updateSetting.
    destruct (String.eqb_spec key "dark_mode"); [ contradiction | ].
    destruct (String.eqb key "high_contrast"); reflexivity.
Qed.

Section FeedFacts.

Import RoomSession.

Lemma firstn_firstn_cons {A} (n : nat) (x : A) (l : list A) :
  firstn (S n) (x :: firstn (S n) l) = firstn (S n) (x :: l).
Proof.
  cbn [firstn]. f_equal. rewrite firstn_firstn. f_equal. lia.
Qed.

Lemma feed_from (events : list Heard) (l : list string) :
  fold_left onresult events (firstn 10 l)
  = firstn 10 (rev (finals events) ++ l).
Proof.
  revert l. induction events as [| h rest IH]; intros l; [ reflexivity | ].
  cbn [fold_left]. unfold onresult at 2, finals.
  cbn [List.filter]. destruct (isFinal h); cbn [map rev].
  - unfold pushTranscript. rewrite (firstn_firstn_cons 9).
    rewrite (IH (transcript h :: l)). rewrite <- app_assoc. reflexivity.
  - apply IH.
Qed.

End FeedFacts.

(** The transcript feed of a room session always shows the final
    transcripts heard so far, newest first, cut to the ten most recent;
    results that are not final never appear. *)
Theorem transcript_feed_keeps_latest_ten (events : list RoomSession.Heard) :
  RoomSession.feedAfter events = firstn 10 (rev (RoomSession.finals events)) /\
  (length (RoomSession.feedAfter events) <= 10)%nat /\
  (forall t, In t (RoomSession.feedAfter events) ->
     exists h, In h events /\ RoomSession.isFinal h = true /\
               RoomSession.transcript h = t).
Proof.
  assert (Hfeed : RoomSession.feedAfter events
                  = firstn 10 (rev (RoomSession.finals events))).
  { unfold RoomSession.feedAfter.
    pose proof (feed_from events []) as H. rewrite app_nil_r in H. exact H. }
  split; [ exact Hfeed | split ].
  - rewrite Hfeed. apply firstn_le_length.
  - intros t Hin. rewrite Hfeed in Hin.
    assert (Hin' : In t (rev (RoomSession.finals events))).
    { rewrite <- (firstn_skipn 10 (rev (RoomSession.finals events))).
      apply in_or_app. left. exact Hin. }
    apply in_rev in Hin'. unfold RoomSession.finals in Hin'.
    apply in_map_iff in Hin' as (h & Ht & Hh).
    apply List.filter_In in Hh as [Hh Hf].
    exists h. repeat split; assumption.
Qed.

Section UrlFacts.

Import Urls.
Local Open Scope string_scope.

Lemma append_cons (c : ascii) (a b : string) :
  String c a ++ b = String c (a ++ b).
Proof. reflexivity. Qed.

Lemma startsWith_append (p rest : string) : startsWith p (p ++ rest) = true.
Proof.
  induction p as [| c p IH]; [ reflexivity | ].
  rewrite append_cons. cbn [startsWith]. rewrite Ascii.eqb_refl. exact IH.
Qed.

Lemma dropChars_append (p rest : string) :
  dropChars (String.length p) (p ++ rest) = rest.
Proof.
  induction p as [| c p IH]; [ reflexivity | ].
  rewrite append_cons. cbn [String.length dropChars]. exact IH.
Qed.

Lemma replaceFirst_prefix (pat rep rest : string) :
  replaceFirst pat rep (pat ++ rest) = rep ++ rest.
Proof.
  destruct (pat ++ rest) as [| c s'] eqn:E.
  - cbn [replaceFirst]. rewrite <- E, startsWith_append, dropChars_append.
    reflexivity.
  - cbn [replaceFirst]. rewrite <- E, startsWith_append, dropChars_append.
    reflexivity.
Qed.

Lemma replaceFirst_absent (pat rep s : string) :
  contains pat s = false -> replaceFirst pat rep s = s.
Proof.
  induction s as [| c s IH]; intros Hno.
  - cbn [contains] in Hno. apply orb_false_elim in Hno as [Hs _].
    cbn [replaceFirst]. rewrite Hs. reflexivity.
  - cbn [contains] in Hno. apply orb_false_elim in Hno as [Hs Hrest].
    cbn [replaceFirst]. rewrite Hs. f_equal. apply IH, Hrest.
Qed.

End UrlFacts.

(** The base of a room's socket address: a configured address that
    starts with "http" has that prefix replaced by "ws" and everything
    after it kept (so "http://host" gives "ws://host" and "https://host"
    gives "wss://host"); an address in which "http" does not occur is
    used as it is; without a configured address the base is
    "ws://localhost:8000". *)
Theorem socket_address_scheme :
  (forall rest : string,
      Urls.wsBase (Some ("http" ++ rest)%string) = ("ws" ++ rest)%string) /\
  (forall host : string,
      Urls.wsBase (Some ("https://" ++ host)%string) = ("wss://" ++ host)%string) /\
  (forall url : string,
      url <> ""%string -> Urls.contains "http" url = false ->
      Urls.wsBase (Some url) = url) /\
  Urls.wsBase None = "ws://localhost:8000"%string /\
  Urls.wsBase (Some ""%string) = "ws://localhost:8000"%string.
Proof.
  unfold Urls.wsBase. split; [ | split; [ | split; [ | split ] ] ].
  - intros rest. change (StatsContext.orText (Some ("http" ++ rest)%string)
                            "ws://localhost:8000")
      with ("http" ++ rest)%string.
    apply replaceFirst_prefix.
  - intros host. change (StatsContext.orText (Some ("https://" ++ host)%string)
                            "ws://localhost:8000")
      with ("http" ++ ("s://" ++ host))%string.
    rewrite replaceFirst_prefix. reflexivity.
  - intros url Hne Hno. unfold StatsContext.orText.
    destruct (String.eqb_spec url ""); [ contradiction | ].
    apply replaceFirst_absent, Hno.
  - reflexivity.
  - reflexivity.
Qed.

(* ===================================================================== *)
(** * Properties of the knowledge map *)
(* ===================================================================== *)

Section GraphFacts.

Import KnowledgeGraph.
Local Open Scope Q_scope.

Lemma parity_cases (i : nat) : parity i = 0 \/ parity i = 1.
Proof.
  unfold parity.
  pose proof (Nat.mod_upper_bound i 2 ltac:(discriminate)) as Hlt.
  destruct (i mod 2)%nat as [| [| k]]; [ left | right | lia ]; reflexivity.
Qed.

Lemma radius_cases (i : nat) :
  (radiusX i == 70 /\ radiusY i == 30) \/ (radiusX i == 85 /\ radiusY i == 40).
Proof.
  unfold radiusX, radiusY.
  destruct (parity_cases i) as [H | H]; rewrite H; [ left | right ];
    split; reflexivity.
Qed.

Lemma zScale_range (s : Q) :
  -1 <= s -> s <= 1 -> 7 # 10 <= zScale s /\ zScale s <= 13 # 10.
Proof. unfold zScale. intros; split; lra. Qed.

Lemma r_range (m : bool) (s : Q) :
  -1 <= s -> s <= 1 -> 21 # 10 <= r m s /\ r m s <= 13 # 2.
Proof.
  intros Hlo Hhi. destruct (zScale_range s Hlo Hhi) as [Hz1 Hz2].
  unfold r. destruct m; split; lra.
Qed.

End GraphFacts.

(** Every node of the knowledge map is drawn inside the 200 by 200 view
    box.  For a sine and a cosine between -1 and 1: the depth scale lies
    between 0.7 and 1.3 and the opacity between 0.4 and 1; the node's
    circle, with its radius, stays between 0 and 200 in both directions;
    and a label is drawn only when there are fewer than 15 nodes and the
    node is in the lower half of the orbit (sine above 0, centre below
    the middle line), where the label too stays inside the box. *)
Theorem graph_nodes_stay_in_view
    (i count : nat) (mastered : bool) (sinA cosA : Q)
    (Hsin : (-1 <= sinA /\ sinA <= 1)%Q)
    (Hcos : (-1 <= cosA /\ cosA <= 1)%Q) :
  (7 # 10 <= KnowledgeGraph.zScale sinA /\ KnowledgeGraph.zScale sinA <= 13 # 10)%Q /\
  (4 # 10 <= KnowledgeGraph.opacity sinA /\ KnowledgeGraph.opacity sinA <= 1)%Q /\
  (0 <= KnowledgeGraph.cx i cosA - KnowledgeGraph.r mastered sinA /\
   KnowledgeGraph.cx i cosA + KnowledgeGraph.r mastered sinA <= 200)%Q /\
  (0 <= KnowledgeGraph.cy i sinA - KnowledgeGraph.r mastered sinA /\
   KnowledgeGraph.cy i sinA + KnowledgeGraph.r mastered sinA <= 200)%Q /\
  (KnowledgeGraph.labelShown count sinA = true ->
   (count < 15)%nat /\ (0 < sinA)%Q /\
   (100 < KnowledgeGraph.cy i sinA)%Q /\
   (KnowledgeGraph.labelY i sinA <= 150)%Q).
Proof.
  destruct Hsin as [Hs1 Hs2]. destruct Hcos as [Hc1 Hc2].
  pose proof (zScale_range sinA Hs1 Hs2) as Hz.
  pose proof (r_range mastered sinA Hs1 Hs2) as [Hr1 Hr2].
  assert (Hxy : (15 <= KnowledgeGraph.cx i cosA /\ KnowledgeGraph.cx i cosA <= 185 /\
                 60 <= KnowledgeGraph.cy i sinA /\ KnowledgeGraph.cy i sinA <= 140 /\
                 (0 < sinA -> 100 < KnowledgeGraph.cy i sinA))%Q).
  { unfold KnowledgeGraph.cx, KnowledgeGraph.cy.
    destruct (radius_cases i) as [[Hx Hy] | [Hx Hy]]; rewrite Hx, Hy;
      repeat split; intros; lra. }
  destruct Hxy as (Hx1 & Hx2 & Hy1 & Hy2 & Hfront).
  split; [ exact Hz | ].
  split; [ unfold KnowledgeGraph.opacity; split; lra | ].
  split; [ split; lra | ].
  split; [ split; lra | ].
  intros Hshown. unfold KnowledgeGraph.labelShown in Hshown.
  apply andb_prop in Hshown as [Hcount Hop].
  apply Nat.ltb_lt in Hcount.
  assert (Hpos : (0 < sinA)%Q).
  { destruct (Qlt_le_dec 0 sinA) as [Hlt | Hle]; [ exact Hlt | ].
    assert (Hb : Qle_bool (KnowledgeGraph.opacity sinA) (7 # 10) = true).
    { apply Qle_bool_iff. unfold KnowledgeGraph.opacity. lra. }
    rewrite Hb in Hop. discriminate Hop. }
  split; [ exact Hcount | ].
  split; [ exact Hpos | ].
  split; [ exact (Hfront Hpos) | ].
  unfold KnowledgeGraph.labelY. lra.
Qed.

Lemma graph_nodes_stay_in_view_witness :
  ((-1 <= 1 # 2 /\ 1 # 2 <= 1) /\ (-1 <= -1 /\ -1 <= 1))%Q /\
  KnowledgeGraph.labelShown 3 (1 # 2) = true /\
  (0 <= KnowledgeGraph.cx 1 (-1) - KnowledgeGraph.r true (1 # 2))%Q /\
  (100 < KnowledgeGraph.cy 1 (1 # 2))%Q.
Proof.
  assert (Hs : (-1 <= 1 # 2 /\ 1 # 2 <= 1)%Q) by (split; discriminate).
  assert (Hc : (-1 <= -1 /\ -1 <= 1)%Q) by (split; discriminate).
  pose proof (graph_nodes_stay_in_view 1 3 true (1 # 2) (-1) Hs Hc)
    as (_ & _ & [Hx _] & _ & Hlabel).
  split; [ split; assumption | ].
  split; [ reflexivity | ].
  split; [ exact Hx | ].
  exact (proj1 (proj2 (proj2 (Hlabel eq_refl)))).
Defined.
